(** * The opcode table of the world server

    Shallow embedding of [OpcodeTable] (registration of the client and server
    opcode handlers, the registration manifest of [OpcodeTable::Initialize])
    and of [GetOpcodeNameForLogging], with the properties of the dispatch
    specification that concern them.

    [Opcodes.h], [WorldSession.h] and [Log.h] are not among the sources.  What
    the code below takes from them is made explicit:
    - the constants [NUM_OPCODE_HANDLERS] and [NULL_OPCODE] are parameters of
      the development (section variables);
    - the enumerators of [SessionStatus] and [PacketProcessing] are the ones
      the manifest uses;
    - the numeric value of every opcode enumerator is the one the manifest
      records in the comment that precedes its entry ([/*0x036*/ ...]);
    - [OpcodeTable::operator[]] is modelled from the specification. *)

From Stdlib Require Import NArith Ascii String List Lia.
From stdpp Require Import base option list strings numbers gmap.

Local Open Scope string_scope.
Local Open Scope N_scope.

(** ** Fixed-width integers *)

(** [uint16(x)] and [uint32(x)]: conversion to an unsigned type keeps the
    value modulo two to the width. *)
Definition uint16 (x : N) : N := x mod 2 ^ 16.
Definition uint32 (x : N) : N := x mod 2 ^ 32.

(** The values an [Opcodes] object can hold.  The enumeration is 16 bits wide:
    the code converts opcodes with [uint16(id)] and walks the table with a
    [uint16] counter. *)
Definition is_Opcodes (x : N) : Prop := x < 2 ^ 16.

(** ** Enumerations used by the manifest *)

Inductive SessionStatus : Set :=
| STATUS_AUTHED
| STATUS_LOGGEDIN
| STATUS_TRANSFER
| STATUS_LOGGEDIN_OR_RECENTLY_LOGGOUT
| STATUS_NEVER
| STATUS_UNHANDLED.

Inductive PacketProcessing : Set :=
| PROCESS_INPLACE
| PROCESS_THREADUNSAFE
| PROCESS_THREADSAFE.

Definition SessionStatus_eqb (a b : SessionStatus) : bool :=
  match a, b with
  | STATUS_AUTHED, STATUS_AUTHED
  | STATUS_LOGGEDIN, STATUS_LOGGEDIN
  | STATUS_TRANSFER, STATUS_TRANSFER
  | STATUS_LOGGEDIN_OR_RECENTLY_LOGGOUT, STATUS_LOGGEDIN_OR_RECENTLY_LOGGOUT
  | STATUS_NEVER, STATUS_NEVER
  | STATUS_UNHANDLED, STATUS_UNHANDLED => true
  | _, _ => false
  end.

(** ** Handlers *)

(** A [PacketHandler<PacketClass, HandlerFunction>] object: the three fields
    of [ClientOpcodeHandler] and the member function of [WorldSession] that
    [Call] invokes.  The packet class is the parameter type of that member
    function ([get_packet_class]), declared in [WorldSession.h]; the binding
    is identified here by the name of the member function. *)
Record ClientOpcodeHandler : Set := PacketHandler {
  Name : string;
  Status : SessionStatus;
  ProcessingPlace : PacketProcessing;
  HandlerFunction : string
}.

(** ** The log *)

Inductive LogArg : Set :=
| ArgString (s : string)
| ArgUInt32 (n : N).

(** One call of [LOG_ERROR(filter, format, args...)]. *)
Inductive LogLine : Set :=
| LOG_ERROR (filter format : string) (args : list LogArg).

(** ** Stream formatting used by [GetOpcodeNameForLoggingImpl] *)

(** Digit of a number in the given case: [0-9], then [A-F] or [a-f]. *)
Definition digit_char (uppercase : bool) (d : N) : ascii :=
  if d <? 10 then ascii_of_N (48 + d)
  else ascii_of_N ((if uppercase then 55 else 87) + d).

(** Digits of [n] in base [base], least significant first; at least one
    digit, no leading zero.  [fuel] bounds the number of digits. *)
Fixpoint digits_lsb (fuel : nat) (base n : N) : list N :=
  match fuel with
  | O => []
  | S fuel' =>
      (n mod base) ::
      (if n / base =? 0 then [] else digits_lsb fuel' base (n / base))
  end.

(** The characters [operator<<] produces for an unsigned 16-bit value, before
    padding.  Sixteen digits are enough in every base. *)
Definition put_uint16 (base : N) (uppercase : bool) (n : N) : string :=
  string_of_list_ascii (map (digit_char uppercase) (rev (digits_lsb 16 base n))).

(** [std::setw(w)] with [std::setfill(c)]: pad on the left up to width [w];
    a longer field is left as it is. *)
Definition setw_fill (w : nat) (c : ascii) (s : string) : string :=
  string_of_list_ascii (replicate (w - String.length s) c) +:+ s.

(** ** The registration manifest

    The entries of [OpcodeTable::Initialize], in source order.  An entry
    [/*0x036*/ DEFINE_HANDLER(CMSG_CHAR_CREATE, status, processing,
    &WorldSession::HandleCharCreateOpcode)] is written with the value of the
    enumerator first, then its spelling (the macros pass [#opcode] as the
    name), the status, the processing place and the member function. *)

Inductive ManifestEntry : Set :=
| DEFINE_HANDLER (value : N) (opcode : string) (status : SessionStatus)
    (processing : PacketProcessing) (handler : string)
| DEFINE_SERVER_OPCODE_HANDLER (value : N) (opcode : string)
    (status : SessionStatus).

Definition manifest_0xx : list ManifestEntry := [
  DEFINE_HANDLER 0x001 "CMSG_BOOTME" STATUS_NEVER PROCESS_INPLACE "Handle_NULL";
  DEFINE_HANDLER 0x002 "CMSG_DBLOOKUP" STATUS_NEVER PROCESS_INPLACE "Handle_NULL";
  DEFINE_SERVER_OPCODE_HANDLER 0x003 "SMSG_DBLOOKUP" STATUS_NEVER;
  DEFINE_HANDLER 0x004 "CMSG_QUERY_OBJECT_POSITION" STATUS_NEVER PROCESS_INPLACE "Handle_NULL";
  DEFINE_SERVER_OPCODE_HANDLER 0x005 "SMSG_QUERY_OBJECT_POSITION" STATUS_NEVER;
  DEFINE_HANDLER 0x006 "CMSG_QUERY_OBJECT_ROTATION" STATUS_NEVER PROCESS_INPLACE "Handle_NULL";
  DEFINE_SERVER_OPCODE_HANDLER 0x007 "SMSG_QUERY_OBJECT_ROTATION" STATUS_NEVER;
  DEFINE_HANDLER 0x008 "CMSG_WORLD_TELEPORT" STATUS_LOGGEDIN PROCESS_THREADUNSAFE "HandleWorldTeleportOpcode";
  DEFINE_HANDLER 0x009 "CMSG_TELEPORT_TO_UNIT" STATUS_LOGGEDIN PROCESS_INPLACE "Handle_NULL";
  DEFINE_HANDLER 0x00A "CMSG_ZONE_MAP" STATUS_NEVER PROCESS_INPLACE "Handle_NULL";
  DEFINE_SERVER_OPCODE_HANDLER 0x00B "SMSG_ZONE_MAP" STATUS_NEVER;
  DEFINE_HANDLER 0x00C "CMSG_DEBUG_CHANGECELLZONE" STATUS_NEVER PROCESS_INPLACE "Handle_NULL";
  DEFINE_HANDLER 0x00D "CMSG_MOVE_CHARACTER_CHEAT" STATUS_NEVER PROCESS_INPLACE "Handle_NULL";
  DEFINE_SERVER_OPCODE_HANDLER 0x00E "SMSG_MOVE_CHARACTER_CHEAT" STATUS_NEVER;
  DEFINE_HANDLER 0x00F "CMSG_RECHARGE" STATUS_NEVER PROCESS_INPLACE "Handle_NULL";
  DEFINE_HANDLER 0x010 "CMSG_LEARN_SPELL" STATUS_NEVER PROCESS_INPLACE "Handle_NULL";
  DEFINE_HANDLER 0x011 "CMSG_CREATEMONSTER" STATUS_NEVER PROCESS_INPLACE "Handle_NULL";
  DEFINE_HANDLER 0x012 "CMSG_DESTROYMONSTER" STATUS_NEVER PROCESS_INPLACE "Handle_NULL";
  DEFINE_HANDLER 0x013 "CMSG_CREATEITEM" STATUS_NEVER PROCESS_INPLACE "Handle_NULL";
  DEFINE_HANDLER 0x014 "CMSG_CREATEGAMEOBJECT" STATUS_NEVER PROCESS_INPLACE "Handle_NULL";
  DEFINE_SERVER_OPCODE_HANDLER 0x015 "SMSG_CHECK_FOR_BOTS" STATUS_NEVER;
  DEFINE_HANDLER 0x016 "CMSG_MAKEMONSTERATTACKGUID" STATUS_NEVER PROCESS_INPLACE "Handle_NULL";
  DEFINE_HANDLER 0x017 "CMSG_BOT_DETECTED2" STATUS_NEVER PROCESS_INPLACE "Handle_NULL";
  DEFINE_HANDLER 0x018 "CMSG_FORCEACTION" STATUS_NEVER PROCESS_INPLACE "Handle_NULL";
  DEFINE_HANDLER 0x019 "CMSG_FORCEACTIONONOTHER" STATUS_NEVER PROCESS_INPLACE "Handle_NULL";
  DEFINE_HANDLER 0x01A "CMSG_FORCEACTIONSHOW" STATUS_NEVER PROCESS_INPLACE "Handle_NULL";
  DEFINE_SERVER_OPCODE_HANDLER 0x01B "SMSG_FORCEACTIONSHOW" STATUS_NEVER;
  DEFINE_HANDLER 0x01C "CMSG_PETGODMODE" STATUS_NEVER PROCESS_INPLACE "Handle_NULL";
  DEFINE_SERVER_OPCODE_HANDLER 0x01D "SMSG_PETGODMODE" STATUS_NEVER;
  DEFINE_SERVER_OPCODE_HANDLER 0x01E "SMSG_REFER_A_FRIEND_EXPIRED" STATUS_NEVER;
  DEFINE_HANDLER 0x01F "CMSG_WEATHER_SPEED_CHEAT" STATUS_NEVER PROCESS_INPLACE "Handle_NULL";
  DEFINE_HANDLER 0x020 "CMSG_UNDRESSPLAYER" STATUS_NEVER PROCESS_INPLACE "Handle_NULL";
  DEFINE_HANDLER 0x021 "CMSG_BEASTMASTER" STATUS_NEVER PROCESS_INPLACE "Handle_NULL";
  DEFINE_HANDLER 0x022 "CMSG_GODMODE" STATUS_NEVER PROCESS_INPLACE "Handle_NULL";
  DEFINE_SERVER_OPCODE_HANDLER 0x023 "SMSG_GODMODE" STATUS_NEVER;
  DEFINE_HANDLER 0x024 "CMSG_CHEAT_SETMONEY" STATUS_NEVER PROCESS_INPLACE "Handle_NULL";
  DEFINE_HANDLER 0x025 "CMSG_LEVEL_CHEAT" STATUS_NEVER PROCESS_INPLACE "Handle_NULL";
  DEFINE_HANDLER 0x026 "CMSG_PET_LEVEL_CHEAT" STATUS_NEVER PROCESS_INPLACE "Handle_NULL";
  DEFINE_HANDLER 0x027 "CMSG_SET_WORLDSTATE" STATUS_NEVER PROCESS_INPLACE "Handle_NULL";
  DEFINE_HANDLER 0x028 "CMSG_COOLDOWN_CHEAT" STATUS_NEVER PROCESS_INPLACE "Handle_NULL";
  DEFINE_HANDLER 0x029 "CMSG_USE_SKILL_CHEAT" STATUS_NEVER PROCESS_INPLACE "Handle_NULL";
  DEFINE_HANDLER 0x02A "CMSG_FLAG_QUEST" STATUS_NEVER PROCESS_INPLACE "Handle_NULL";
  DEFINE_HANDLER 0x02B "CMSG_FLAG_QUEST_FINISH" STATUS_NEVER PROCESS_INPLACE "Handle_NULL";
  DEFINE_HANDLER 0x02C "CMSG_CLEAR_QUEST" STATUS_NEVER PROCESS_INPLACE "Handle_NULL";
  DEFINE_HANDLER 0x02D "CMSG_SEND_EVENT" STATUS_NEVER PROCESS_INPLACE "Handle_NULL";
  DEFINE_HANDLER 0x02E "CMSG_DEBUG_AISTATE" STATUS_NEVER PROCESS_INPLACE "Handle_NULL";
  DEFINE_SERVER_OPCODE_HANDLER 0x02F "SMSG_DEBUG_AISTATE" STATUS_NEVER;
  DEFINE_HANDLER 0x030 "CMSG_DISABLE_PVP_CHEAT" STATUS_NEVER PROCESS_INPLACE "Handle_NULL";
  DEFINE_HANDLER 0x031 "CMSG_ADVANCE_SPAWN_TIME" STATUS_NEVER PROCESS_INPLACE "Handle_NULL";
  DEFINE_SERVER_OPCODE_HANDLER 0x032 "SMSG_DESTRUCTIBLE_BUILDING_DAMAGE" STATUS_NEVER;
  DEFINE_HANDLER 0x033 "CMSG_AUTH_SRP6_BEGIN" STATUS_NEVER PROCESS_INPLACE "Handle_NULL";
  DEFINE_HANDLER 0x034 "CMSG_AUTH_SRP6_PROOF" STATUS_NEVER PROCESS_INPLACE "Handle_NULL";
  DEFINE_HANDLER 0x035 "CMSG_AUTH_SRP6_RECODE" STATUS_NEVER PROCESS_INPLACE "Handle_NULL";
  DEFINE_HANDLER 0x036 "CMSG_CHAR_CREATE" STATUS_AUTHED PROCESS_THREADUNSAFE "HandleCharCreateOpcode";
  DEFINE_HANDLER 0x037 "CMSG_CHAR_ENUM" STATUS_AUTHED PROCESS_THREADUNSAFE "HandleCharEnumOpcode";
  DEFINE_HANDLER 0x038 "CMSG_CHAR_DELETE" STATUS_AUTHED PROCESS_THREADUNSAFE "HandleCharDeleteOpcode";
  DEFINE_SERVER_OPCODE_HANDLER 0x039 "SMSG_AUTH_SRP6_RESPONSE" STATUS_NEVER;
  DEFINE_SERVER_OPCODE_HANDLER 0x03A "SMSG_CHAR_CREATE" STATUS_NEVER;
  DEFINE_SERVER_OPCODE_HANDLER 0x03B "SMSG_CHAR_ENUM" STATUS_NEVER;
  DEFINE_SERVER_OPCODE_HANDLER 0x03C "SMSG_CHAR_DELETE" STATUS_NEVER;
  DEFINE_HANDLER 0x03D "CMSG_PLAYER_LOGIN" STATUS_AUTHED PROCESS_THREADUNSAFE "HandlePlayerLoginOpcode";
  DEFINE_SERVER_OPCODE_HANDLER 0x03E "SMSG_NEW_WORLD" STATUS_NEVER;
  DEFINE_SERVER_OPCODE_HANDLER 0x03F "SMSG_TRANSFER_PENDING" STATUS_NEVER;
  DEFINE_SERVER_OPCODE_HANDLER 0x040 "SMSG_TRANSFER_ABORTED" STATUS_NEVER;
  DEFINE_SERVER_OPCODE_HANDLER 0x041 "SMSG_CHARACTER_LOGIN_FAILED" STATUS_NEVER;
  DEFINE_SERVER_OPCODE_HANDLER 0x042 "SMSG_LOGIN_SETTIMESPEED" STATUS_NEVER;
  DEFINE_SERVER_OPCODE_HANDLER 0x043 "SMSG_GAMETIME_UPDATE" STATUS_NEVER;
  DEFINE_HANDLER 0x044 "CMSG_GAMETIME_SET" STATUS_NEVER PROCESS_INPLACE "Handle_NULL";
  DEFINE_SERVER_OPCODE_HANDLER 0x045 "SMSG_GAMETIME_SET" STATUS_NEVER;
  DEFINE_HANDLER 0x046 "CMSG_GAMESPEED_SET" STATUS_NEVER PROCESS_INPLACE "Handle_NULL";
  DEFINE_SERVER_OPCODE_HANDLER 0x047 "SMSG_GAMESPEED_SET" STATUS_NEVER;
  DEFINE_HANDLER 0x048 "CMSG_SERVERTIME" STATUS_NEVER PROCESS_INPLACE "Handle_NULL";
  DEFINE_SERVER_OPCODE_HANDLER 0x049 "SMSG_SERVERTIME" STATUS_NEVER;
  DEFINE_HANDLER 0x04A "CMSG_PLAYER_LOGOUT" STATUS_LOGGEDIN PROCESS_THREADUNSAFE "HandlePlayerLogoutOpcode";
  DEFINE_HANDLER 0x04B "CMSG_LOGOUT_REQUEST" STATUS_LOGGEDIN PROCESS_THREADUNSAFE "HandleLogoutRequestOpcode";
  DEFINE_SERVER_OPCODE_HANDLER 0x04C "SMSG_LOGOUT_RESPONSE" STATUS_NEVER;
  DEFINE_SERVER_OPCODE_HANDLER 0x04D "SMSG_LOGOUT_COMPLETE" STATUS_NEVER;
  DEFINE_HANDLER 0x04E "CMSG_LOGOUT_CANCEL" STATUS_LOGGEDIN_OR_RECENTLY_LOGGOUT PROCESS_THREADUNSAFE "HandleLogoutCancelOpcode";
  DEFINE_SERVER_OPCODE_HANDLER 0x04F "SMSG_LOGOUT_CANCEL_ACK" STATUS_NEVER;
  DEFINE_HANDLER 0x050 "CMSG_NAME_QUERY" STATUS_LOGGEDIN PROCESS_INPLACE "HandleNameQueryOpcode";
  DEFINE_SERVER_OPCODE_HANDLER 0x051 "SMSG_NAME_QUERY_RESPONSE" STATUS_NEVER;
  DEFINE_HANDLER 0x052 "CMSG_PET_NAME_QUERY" STATUS_LOGGEDIN PROCESS_INPLACE "HandlePetNameQuery";
  DEFINE_SERVER_OPCODE_HANDLER 0x053 "SMSG_PET_NAME_QUERY_RESPONSE" STATUS_NEVER;
  DEFINE_HANDLER 0x054 "CMSG_GUILD_QUERY" STATUS_AUTHED PROCESS_THREADUNSAFE "HandleGuildQueryOpcode";
  DEFINE_SERVER_OPCODE_HANDLER 0x055 "SMSG_GUILD_QUERY_RESPONSE" STATUS_NEVER;
  DEFINE_HANDLER 0x056 "CMSG_ITEM_QUERY_SINGLE" STATUS_LOGGEDIN PROCESS_THREADSAFE "HandleItemQuerySingleOpcode";
  DEFINE_HANDLER 0x057 "CMSG_ITEM_QUERY_MULTIPLE" STATUS_NEVER PROCESS_INPLACE "Handle_NULL";
  DEFINE_SERVER_OPCODE_HANDLER 0x058 "SMSG_ITEM_QUERY_SINGLE_RESPONSE" STATUS_NEVER;
  DEFINE_SERVER_OPCODE_HANDLER 0x059 "SMSG_ITEM_QUERY_MULTIPLE_RESPONSE" STATUS_NEVER;
  DEFINE_HANDLER 0x05A "CMSG_PAGE_TEXT_QUERY" STATUS_LOGGEDIN PROCESS_INPLACE "HandlePageTextQueryOpcode";
  DEFINE_SERVER_OPCODE_HANDLER 0x05B "SMSG_PAGE_TEXT_QUERY_RESPONSE" STATUS_NEVER;
  DEFINE_HANDLER 0x05C "CMSG_QUEST_QUERY" STATUS_LOGGEDIN PROCESS_INPLACE "HandleQuestQueryOpcode";
  DEFINE_SERVER_OPCODE_HANDLER 0x05D "SMSG_QUEST_QUERY_RESPONSE" STATUS_NEVER;
  DEFINE_HANDLER 0x05E "CMSG_GAMEOBJECT_QUERY" STATUS_LOGGEDIN PROCESS_THREADSAFE "HandleGameObjectQueryOpcode";
  DEFINE_SERVER_OPCODE_HANDLER 0x05F "SMSG_GAMEOBJECT_QUERY_RESPONSE" STATUS_NEVER;
  DEFINE_HANDLER 0x060 "CMSG_CREATURE_QUERY" STATUS_LOGGEDIN PROCESS_THREADSAFE "HandleCreatureQueryOpcode";
  DEFINE_SERVER_OPCODE_HANDLER 0x061 "SMSG_CREATURE_QUERY_RESPONSE" STATUS_NEVER;
  DEFINE_HANDLER 0x062 "CMSG_WHO" STATUS_LOGGEDIN PROCESS_THREADSAFE "HandleWhoOpcode";
  DEFINE_SERVER_OPCODE_HANDLER 0x063 "SMSG_WHO" STATUS_NEVER;
  DEFINE_HANDLER 0x064 "CMSG_WHOIS" STATUS_LOGGEDIN PROCESS_THREADUNSAFE "HandleWhoisOpcode";
  DEFINE_SERVER_OPCODE_HANDLER 0x065 "SMSG_WHOIS" STATUS_NEVER;
  DEFINE_HANDLER 0x066 "CMSG_CONTACT_LIST" STATUS_LOGGEDIN PROCESS_THREADSAFE "HandleContactListOpcode";
  DEFINE_SERVER_OPCODE_HANDLER 0x067 "SMSG_CONTACT_LIST" STATUS_NEVER;
  DEFINE_SERVER_OPCODE_HANDLER 0x068 "SMSG_FRIEND_STATUS" STATUS_NEVER;
  DEFINE_HANDLER 0x069 "CMSG_ADD_FRIEND" STATUS_LOGGEDIN PROCESS_THREADUNSAFE "HandleAddFriendOpcode";
  DEFINE_HANDLER 0x06A "CMSG_DEL_FRIEND" STATUS_LOGGEDIN PROCESS_THREADUNSAFE "HandleDelFriendOpcode";
  DEFINE_HANDLER 0x06B "CMSG_SET_CONTACT_NOTES" STATUS_LOGGEDIN PROCESS_THREADUNSAFE "HandleSetContactNotesOpcode";
  DEFINE_HANDLER 0x06C "CMSG_ADD_IGNORE" STATUS_LOGGEDIN PROCESS_THREADUNSAFE "HandleAddIgnoreOpcode";
  DEFINE_HANDLER 0x06D "CMSG_DEL_IGNORE" STATUS_LOGGEDIN PROCESS_THREADUNSAFE "HandleDelIgnoreOpcode";
  DEFINE_HANDLER 0x06E "CMSG_GROUP_INVITE" STATUS_LOGGEDIN PROCESS_THREADUNSAFE "HandleGroupInviteOpcode";
  DEFINE_SERVER_OPCODE_HANDLER 0x06F "SMSG_GROUP_INVITE" STATUS_NEVER;
  DEFINE_HANDLER 0x070 "CMSG_GROUP_CANCEL" STATUS_LOGGEDIN PROCESS_INPLACE "Handle_NULL";
  DEFINE_SERVER_OPCODE_HANDLER 0x071 "SMSG_GROUP_CANCEL" STATUS_NEVER;
  DEFINE_HANDLER 0x072 "CMSG_GROUP_ACCEPT" STATUS_LOGGEDIN PROCESS_THREADUNSAFE "HandleGroupAcceptOpcode";
  DEFINE_HANDLER 0x073 "CMSG_GROUP_DECLINE" STATUS_LOGGEDIN PROCESS_THREADUNSAFE "HandleGroupDeclineOpcode";
  DEFINE_SERVER_OPCODE_HANDLER 0x074 "SMSG_GROUP_DECLINE" STATUS_NEVER;
  DEFINE_HANDLER 0x075 "CMSG_GROUP_UNINVITE" STATUS_LOGGEDIN PROCESS_THREADUNSAFE "HandleGroupUninviteOpcode";
  DEFINE_HANDLER 0x076 "CMSG_GROUP_UNINVITE_GUID" STATUS_LOGGEDIN PROCESS_THREADUNSAFE "HandleGroupUninviteGuidOpcode";
  DEFINE_SERVER_OPCODE_HANDLER 0x077 "SMSG_GROUP_UNINVITE" STATUS_NEVER;
  DEFINE_HANDLER 0x078 "CMSG_GROUP_SET_LEADER" STATUS_LOGGEDIN PROCESS_THREADUNSAFE "HandleGroupSetLeaderOpcode";
  DEFINE_SERVER_OPCODE_HANDLER 0x079 "SMSG_GROUP_SET_LEADER" STATUS_NEVER;
  DEFINE_HANDLER 0x07A "CMSG_LOOT_METHOD" STATUS_LOGGEDIN PROCESS_THREADUNSAFE "HandleLootMethodOpcode";
  DEFINE_HANDLER 0x07B "CMSG_GROUP_DISBAND" STATUS_LOGGEDIN PROCESS_THREADUNSAFE "HandleGroupDisbandOpcode";
  DEFINE_SERVER_OPCODE_HANDLER 0x07C "SMSG_GROUP_DESTROYED" STATUS_NEVER;
  DEFINE_SERVER_OPCODE_HANDLER 0x07D "SMSG_GROUP_LIST" STATUS_NEVER;
  DEFINE_SERVER_OPCODE_HANDLER 0x07E "SMSG_PARTY_MEMBER_STATS" STATUS_NEVER;
  DEFINE_SERVER_OPCODE_HANDLER 0x07F "SMSG_PARTY_COMMAND_RESULT" STATUS_NEVER;
  DEFINE_HANDLER 0x080 "UMSG_UPDATE_GROUP_MEMBERS" STATUS_NEVER PROCESS_INPLACE "Handle_NULL";
  DEFINE_HANDLER 0x081 "CMSG_GUILD_CREATE" STATUS_LOGGEDIN PROCESS_THREADUNSAFE "HandleGuildCreateOpcode";
  DEFINE_HANDLER 0x082 "CMSG_GUILD_INVITE" STATUS_LOGGEDIN PROCESS_THREADUNSAFE "HandleGuildInviteOpcode";
  DEFINE_SERVER_OPCODE_HANDLER 0x083 "SMSG_GUILD_INVITE" STATUS_NEVER;
  DEFINE_HANDLER 0x084 "CMSG_GUILD_ACCEPT" STATUS_LOGGEDIN PROCESS_THREADUNSAFE "HandleGuildAcceptOpcode";
  DEFINE_HANDLER 0x085 "CMSG_GUILD_DECLINE" STATUS_LOGGEDIN PROCESS_THREADUNSAFE "HandleGuildDeclineOpcode";
  DEFINE_SERVER_OPCODE_HANDLER 0x086 "SMSG_GUILD_DECLINE" STATUS_NEVER;
  DEFINE_HANDLER 0x087 "CMSG_GUILD_INFO" STATUS_LOGGEDIN PROCESS_THREADUNSAFE "HandleGuildInfoOpcode";
  DEFINE_SERVER_OPCODE_HANDLER 0x088 "SMSG_GUILD_INFO" STATUS_NEVER;
  DEFINE_HANDLER 0x089 "CMSG_GUILD_ROSTER" STATUS_LOGGEDIN PROCESS_THREADUNSAFE "HandleGuildRosterOpcode";
  DEFINE_SERVER_OPCODE_HANDLER 0x08A "SMSG_GUILD_ROSTER" STATUS_NEVER;
  DEFINE_HANDLER 0x08B "CMSG_GUILD_PROMOTE" STATUS_LOGGEDIN PROCESS_THREADUNSAFE "HandleGuildPromoteOpcode";
  DEFINE_HANDLER 0x08C "CMSG_GUILD_DEMOTE" STATUS_LOGGEDIN PROCESS_THREADUNSAFE "HandleGuildDemoteOpcode";
  DEFINE_HANDLER 0x08D "CMSG_GUILD_LEAVE" STATUS_LOGGEDIN PROCESS_THREADUNSAFE "HandleGuildLeaveOpcode";
  DEFINE_HANDLER 0x08E "CMSG_GUILD_REMOVE" STATUS_LOGGEDIN PROCESS_THREADUNSAFE "HandleGuildRemoveOpcode";
  DEFINE_HANDLER 0x08F "CMSG_GUILD_DISBAND" STATUS_LOGGEDIN PROCESS_THREADUNSAFE "HandleGuildDisbandOpcode";
  DEFINE_HANDLER 0x090 "CMSG_GUILD_LEADER" STATUS_LOGGEDIN PROCESS_THREADUNSAFE "HandleGuildLeaderOpcode";
  DEFINE_HANDLER 0x091 "CMSG_GUILD_MOTD" STATUS_LOGGEDIN PROCESS_THREADUNSAFE "HandleGuildMOTDOpcode";
  DEFINE_SERVER_OPCODE_HANDLER 0x092 "SMSG_GUILD_EVENT" STATUS_NEVER;
  DEFINE_SERVER_OPCODE_HANDLER 0x093 "SMSG_GUILD_COMMAND_RESULT" STATUS_NEVER;
  DEFINE_HANDLER 0x094 "UMSG_UPDATE_GUILD" STATUS_NEVER PROCESS_INPLACE "Handle_NULL";
  DEFINE_HANDLER 0x095 "CMSG_MESSAGECHAT" STATUS_LOGGEDIN PROCESS_THREADUNSAFE "HandleMessagechatOpcode";
  DEFINE_SERVER_OPCODE_HANDLER 0x096 "SMSG_MESSAGECHAT" STATUS_NEVER;
  DEFINE_HANDLER 0x097 "CMSG_JOIN_CHANNEL" STATUS_LOGGEDIN PROCESS_THREADUNSAFE "HandleJoinChannel";
  DEFINE_HANDLER 0x098 "CMSG_LEAVE_CHANNEL" STATUS_LOGGEDIN PROCESS_THREADUNSAFE "HandleLeaveChannel";
  DEFINE_SERVER_OPCODE_HANDLER 0x099 "SMSG_CHANNEL_NOTIFY" STATUS_NEVER;
  DEFINE_HANDLER 0x09A "CMSG_CHANNEL_LIST" STATUS_LOGGEDIN PROCESS_THREADUNSAFE "HandleChannelList";
  DEFINE_SERVER_OPCODE_HANDLER 0x09B "SMSG_CHANNEL_LIST" STATUS_NEVER;
  DEFINE_HANDLER 0x09C "CMSG_CHANNEL_PASSWORD" STATUS_LOGGEDIN PROCESS_THREADUNSAFE "HandleChannelPassword";
  DEFINE_HANDLER 0x09D "CMSG_CHANNEL_SET_OWNER" STATUS_LOGGEDIN PROCESS_THREADUNSAFE "HandleChannelSetOwner";
  DEFINE_HANDLER 0x09E "CMSG_CHANNEL_OWNER" STATUS_LOGGEDIN PROCESS_THREADUNSAFE "HandleChannelOwner";
  DEFINE_HANDLER 0x09F "CMSG_CHANNEL_MODERATOR" STATUS_LOGGEDIN PROCESS_THREADUNSAFE "HandleChannelModerator";
  DEFINE_HANDLER 0x0A0 "CMSG_CHANNEL_UNMODERATOR" STATUS_LOGGEDIN PROCESS_THREADUNSAFE "HandleChannelUnmoderator";
  DEFINE_HANDLER 0x0A1 "CMSG_CHANNEL_MUTE" STATUS_LOGGEDIN PROCESS_THREADUNSAFE "HandleChannelMute";
  DEFINE_HANDLER 0x0A2 "CMSG_CHANNEL_UNMUTE" STATUS_LOGGEDIN PROCESS_THREADUNSAFE "HandleChannelUnmute";
  DEFINE_HANDLER 0x0A3 "CMSG_CHANNEL_INVITE" STATUS_LOGGEDIN PROCESS_THREADUNSAFE "HandleChannelInvite";
  DEFINE_HANDLER 0x0A4 "CMSG_CHANNEL_KICK" STATUS_LOGGEDIN PROCESS_THREADUNSAFE "HandleChannelKick";
  DEFINE_HANDLER 0x0A5 "CMSG_CHANNEL_BAN" STATUS_LOGGEDIN PROCESS_THREADUNSAFE "HandleChannelBan";
  DEFINE_HANDLER 0x0A6 "CMSG_CHANNEL_UNBAN" STATUS_LOGGEDIN PROCESS_THREADUNSAFE "HandleChannelUnban";
  DEFINE_HANDLER 0x0A7 "CMSG_CHANNEL_ANNOUNCEMENTS" STATUS_LOGGEDIN PROCESS_THREADUNSAFE "HandleChannelAnnouncements";
  DEFINE_HANDLER 0x0A8 "CMSG_CHANNEL_MODERATE" STATUS_LOGGEDIN PROCESS_THREADUNSAFE "HandleChannelModerateOpcode";
  DEFINE_SERVER_OPCODE_HANDLER 0x0A9 "SMSG_UPDATE_OBJECT" STATUS_NEVER;
  DEFINE_SERVER_OPCODE_HANDLER 0x0AA "SMSG_DESTROY_OBJECT" STATUS_NEVER;
  DEFINE_HANDLER 0x0AB "CMSG_USE_ITEM" STATUS_LOGGEDIN PROCESS_INPLACE "HandleUseItemOpcode";
  DEFINE_HANDLER 0x0AC "CMSG_OPEN_ITEM" STATUS_LOGGEDIN PROCESS_INPLACE "HandleOpenItemOpcode";
  DEFINE_HANDLER 0x0AD "CMSG_READ_ITEM" STATUS_LOGGEDIN PROCESS_INPLACE "HandleReadItem";
  DEFINE_SERVER_OPCODE_HANDLER 0x0AE "SMSG_READ_ITEM_OK" STATUS_NEVER;
  DEFINE_SERVER_OPCODE_HANDLER 0x0AF "SMSG_READ_ITEM_FAILED" STATUS_NEVER;
  DEFINE_SERVER_OPCODE_HANDLER 0x0B0 "SMSG_ITEM_COOLDOWN" STATUS_NEVER;
  DEFINE_HANDLER 0x0B1 "CMSG_GAMEOBJ_USE" STATUS_LOGGEDIN PROCESS_INPLACE "HandleGameObjectUseOpcode";
  DEFINE_HANDLER 0x0B2 "CMSG_DESTROY_ITEMS" STATUS_NEVER PROCESS_INPLACE "Handle_NULL";
  DEFINE_SERVER_OPCODE_HANDLER 0x0B3 "SMSG_GAMEOBJECT_CUSTOM_ANIM" STATUS_NEVER;
  DEFINE_HANDLER 0x0B4 "CMSG_AREATRIGGER" STATUS_LOGGEDIN PROCESS_INPLACE "HandleAreaTriggerOpcode";
  DEFINE_HANDLER 0x0B5 "MSG_MOVE_START_FORWARD" STATUS_LOGGEDIN PROCESS_THREADSAFE "HandleMovementOpcodes";
  DEFINE_HANDLER 0x0B6 "MSG_MOVE_START_BACKWARD" STATUS_LOGGEDIN PROCESS_THREADSAFE "HandleMovementOpcodes";
  DEFINE_HANDLER 0x0B7 "MSG_MOVE_STOP" STATUS_LOGGEDIN PROCESS_THREADSAFE "HandleMovementOpcodes";
  DEFINE_HANDLER 0x0B8 "MSG_MOVE_START_STRAFE_LEFT" STATUS_LOGGEDIN PROCESS_THREADSAFE "HandleMovementOpcodes";
  DEFINE_HANDLER 0x0B9 "MSG_MOVE_START_STRAFE_RIGHT" STATUS_LOGGEDIN PROCESS_THREADSAFE "HandleMovementOpcodes";
  DEFINE_HANDLER 0x0BA "MSG_MOVE_STOP_STRAFE" STATUS_LOGGEDIN PROCESS_THREADSAFE "HandleMovementOpcodes";
  DEFINE_HANDLER 0x0BB "MSG_MOVE_JUMP" STATUS_LOGGEDIN PROCESS_THREADSAFE "HandleMovementOpcodes";
  DEFINE_HANDLER 0x0BC "MSG_MOVE_START_TURN_LEFT" STATUS_LOGGEDIN PROCESS_THREADSAFE "HandleMovementOpcodes";
  DEFINE_HANDLER 0x0BD "MSG_MOVE_START_TURN_RIGHT" STATUS_LOGGEDIN PROCESS_THREADSAFE "HandleMovementOpcodes";
  DEFINE_HANDLER 0x0BE "MSG_MOVE_STOP_TURN" STATUS_LOGGEDIN PROCESS_THREADSAFE "HandleMovementOpcodes";
  DEFINE_HANDLER 0x0BF "MSG_MOVE_START_PITCH_UP" STATUS_LOGGEDIN PROCESS_THREADSAFE "HandleMovementOpcodes";
  DEFINE_HANDLER 0x0C0 "MSG_MOVE_START_PITCH_DOWN" STATUS_LOGGEDIN PROCESS_THREADSAFE "HandleMovementOpcodes";
  DEFINE_HANDLER 0x0C1 "MSG_MOVE_STOP_PITCH" STATUS_LOGGEDIN PROCESS_THREADSAFE "HandleMovementOpcodes";
  DEFINE_HANDLER 0x0C2 "MSG_MOVE_SET_RUN_MODE" STATUS_LOGGEDIN PROCESS_THREADSAFE "HandleMovementOpcodes";
  DEFINE_HANDLER 0x0C3 "MSG_MOVE_SET_WALK_MODE" STATUS_LOGGEDIN PROCESS_THREADSAFE "HandleMovementOpcodes";
  DEFINE_HANDLER 0x0C4 "MSG_MOVE_TOGGLE_LOGGING" STATUS_NEVER PROCESS_INPLACE "Handle_NULL";
  DEFINE_HANDLER 0x0C5 "MSG_MOVE_TELEPORT" STATUS_NEVER PROCESS_INPLACE "Handle_NULL";
  DEFINE_HANDLER 0x0C6 "MSG_MOVE_TELEPORT_CHEAT" STATUS_NEVER PROCESS_INPLACE "Handle_NULL";
  DEFINE_HANDLER 0x0C7 "MSG_MOVE_TELEPORT_ACK" STATUS_LOGGEDIN PROCESS_THREADSAFE "HandleMoveTeleportAck";
  DEFINE_HANDLER 0x0C8 "MSG_MOVE_TOGGLE_FALL_LOGGING" STATUS_NEVER PROCESS_INPLACE "Handle_NULL";
  DEFINE_HANDLER 0x0C9 "MSG_MOVE_FALL_LAND" STATUS_LOGGEDIN PROCESS_THREADSAFE "HandleMovementOpcodes";
  DEFINE_HANDLER 0x0CA "MSG_MOVE_START_SWIM" STATUS_LOGGEDIN PROCESS_THREADSAFE "HandleMovementOpcodes";
  DEFINE_HANDLER 0x0CB "MSG_MOVE_STOP_SWIM" STATUS_LOGGEDIN PROCESS_THREADSAFE "HandleMovementOpcodes";
  DEFINE_HANDLER 0x0CC "MSG_MOVE_SET_RUN_SPEED_CHEAT" STATUS_NEVER PROCESS_INPLACE "Handle_NULL";
  DEFINE_HANDLER 0x0CD "MSG_MOVE_SET_RUN_SPEED" STATUS_NEVER PROCESS_INPLACE "Handle_NULL";
  DEFINE_HANDLER 0x0CE "MSG_MOVE_SET_RUN_BACK_SPEED_CHEAT" STATUS_NEVER PROCESS_INPLACE "Handle_NULL";
  DEFINE_HANDLER 0x0CF "MSG_MOVE_SET_RUN_BACK_SPEED" STATUS_NEVER PROCESS_INPLACE "Handle_NULL";
  DEFINE_HANDLER 0x0D0 "MSG_MOVE_SET_WALK_SPEED_CHEAT" STATUS_NEVER PROCESS_INPLACE "Handle_NULL";
  DEFINE_HANDLER 0x0D1 "MSG_MOVE_SET_WALK_SPEED" STATUS_NEVER PROCESS_INPLACE "Handle_NULL";
  DEFINE_HANDLER 0x0D2 "MSG_MOVE_SET_SWIM_SPEED_CHEAT" STATUS_NEVER PROCESS_INPLACE "Handle_NULL";
  DEFINE_HANDLER 0x0D3 "MSG_MOVE_SET_SWIM_SPEED" STATUS_NEVER PROCESS_INPLACE "Handle_NULL";
  DEFINE_HANDLER 0x0D4 "MSG_MOVE_SET_SWIM_BACK_SPEED_CHEAT" STATUS_NEVER PROCESS_INPLACE "Handle_NULL";
  DEFINE_HANDLER 0x0D5 "MSG_MOVE_SET_SWIM_BACK_SPEED" STATUS_NEVER PROCESS_INPLACE "Handle_NULL";
  DEFINE_HANDLER 0x0D6 "MSG_MOVE_SET_ALL_SPEED_CHEAT" STATUS_NEVER PROCESS_INPLACE "Handle_NULL";
  DEFINE_HANDLER 0x0D7 "MSG_MOVE_SET_TURN_RATE_CHEAT" STATUS_NEVER PROCESS_INPLACE "Handle_NULL";
  DEFINE_HANDLER 0x0D8 "MSG_MOVE_SET_TURN_RATE" STATUS_NEVER PROCESS_INPLACE "Handle_NULL";
  DEFINE_HANDLER 0x0D9 "MSG_MOVE_TOGGLE_COLLISION_CHEAT" STATUS_NEVER PROCESS_INPLACE "Handle_NULL";
  DEFINE_HANDLER 0x0DA "MSG_MOVE_SET_FACING" STATUS_LOGGEDIN PROCESS_THREADSAFE "HandleMovementOpcodes";
  DEFINE_HANDLER 0x0DB "MSG_MOVE_SET_PITCH" STATUS_LOGGEDIN PROCESS_THREADSAFE "HandleMovementOpcodes";
  DEFINE_HANDLER 0x0DC "MSG_MOVE_WORLDPORT_ACK" STATUS_TRANSFER PROCESS_THREADUNSAFE "HandleMoveWorldportAckOpcode";
  DEFINE_SERVER_OPCODE_HANDLER 0x0DD "SMSG_MONSTER_MOVE" STATUS_NEVER;
  DEFINE_SERVER_OPCODE_HANDLER 0x0DE "SMSG_MOVE_WATER_WALK" STATUS_NEVER;
  DEFINE_SERVER_OPCODE_HANDLER 0x0DF "SMSG_MOVE_LAND_WALK" STATUS_NEVER;
  DEFINE_HANDLER 0x0E0 "CMSG_MOVE_CHARM_PORT_CHEAT" STATUS_NEVER PROCESS_INPLACE "Handle_NULL";
  DEFINE_HANDLER 0x0E1 "CMSG_MOVE_SET_RAW_POSITION" STATUS_NEVER PROCESS_INPLACE "Handle_NULL";
  DEFINE_SERVER_OPCODE_HANDLER 0x0E2 "SMSG_FORCE_RUN_SPEED_CHANGE" STATUS_NEVER;
  DEFINE_HANDLER 0x0E3 "CMSG_FORCE_RUN_SPEED_CHANGE_ACK" STATUS_LOGGEDIN PROCESS_THREADSAFE "HandleForceSpeedChangeAck";
  DEFINE_SERVER_OPCODE_HANDLER 0x0E4 "SMSG_FORCE_RUN_BACK_SPEED_CHANGE" STATUS_NEVER;
  DEFINE_HANDLER 0x0E5 "CMSG_FORCE_RUN_BACK_SPEED_CHANGE_ACK" STATUS_LOGGEDIN PROCESS_THREADSAFE "HandleForceSpeedChangeAck";
  DEFINE_SERVER_OPCODE_HANDLER 0x0E6 "SMSG_FORCE_SWIM_SPEED_CHANGE" STATUS_NEVER;
  DEFINE_HANDLER 0x0E7 "CMSG_FORCE_SWIM_SPEED_CHANGE_ACK" STATUS_LOGGEDIN PROCESS_THREADSAFE "HandleForceSpeedChangeAck";
  DEFINE_SERVER_OPCODE_HANDLER 0x0E8 "SMSG_FORCE_MOVE_ROOT" STATUS_NEVER;
  DEFINE_HANDLER 0x0E9 "CMSG_FORCE_MOVE_ROOT_ACK" STATUS_LOGGEDIN PROCESS_THREADSAFE "HandleMoveRootAck";
  DEFINE_SERVER_OPCODE_HANDLER 0x0EA "SMSG_FORCE_MOVE_UNROOT" STATUS_NEVER;
  DEFINE_HANDLER 0x0EB "CMSG_FORCE_MOVE_UNROOT_ACK" STATUS_LOGGEDIN PROCESS_THREADSAFE "HandleMoveUnRootAck";
  DEFINE_HANDLER 0x0EC "MSG_MOVE_ROOT" STATUS_NEVER PROCESS_INPLACE "Handle_NULL";
  DEFINE_HANDLER 0x0ED "MSG_MOVE_UNROOT" STATUS_NEVER PROCESS_INPLACE "Handle_NULL";
  DEFINE_HANDLER 0x0EE "MSG_MOVE_HEARTBEAT" STATUS_LOGGEDIN PROCESS_THREADSAFE "HandleMovementOpcodes";
  DEFINE_SERVER_OPCODE_HANDLER 0x0EF "SMSG_MOVE_KNOCK_BACK" STATUS_NEVER;
  DEFINE_HANDLER 0x0F0 "CMSG_MOVE_KNOCK_BACK_ACK" STATUS_LOGGEDIN PROCESS_THREADSAFE "HandleMoveKnockBackAck";
  DEFINE_HANDLER 0x0F1 "MSG_MOVE_KNOCK_BACK" STATUS_NEVER PROCESS_INPLACE "Handle_NULL";
  DEFINE_SERVER_OPCODE_HANDLER 0x0F2 "SMSG_MOVE_FEATHER_FALL" STATUS_NEVER;
  DEFINE_SERVER_OPCODE_HANDLER 0x0F3 "SMSG_MOVE_NORMAL_FALL" STATUS_NEVER;
  DEFINE_SERVER_OPCODE_HANDLER 0x0F4 "SMSG_MOVE_SET_HOVER" STATUS_NEVER;
  DEFINE_SERVER_OPCODE_HANDLER 0x0F5 "SMSG_MOVE_UNSET_HOVER" STATUS_NEVER;
  DEFINE_HANDLER 0x0F6 "CMSG_MOVE_HOVER_ACK" STATUS_LOGGEDIN PROCESS_THREADUNSAFE "HandleMoveHoverAck";
  DEFINE_SERVER_OPCODE_HANDLER 0x0F7 "MSG_MOVE_HOVER" STATUS_NEVER;
  DEFINE_HANDLER 0x0F8 "CMSG_TRIGGER_CINEMATIC_CHEAT" STATUS_NEVER PROCESS_INPLACE "Handle_NULL";
  DEFINE_HANDLER 0x0F9 "CMSG_OPENING_CINEMATIC" STATUS_NEVER PROCESS_INPLACE "Handle_NULL";
  DEFINE_SERVER_OPCODE_HANDLER 0x0FA "SMSG_TRIGGER_CINEMATIC" STATUS_NEVER;
  DEFINE_HANDLER 0x0FB "CMSG_NEXT_CINEMATIC_CAMERA" STATUS_LOGGEDIN PROCESS_THREADUNSAFE "HandleNextCinematicCamera";
  DEFINE_HANDLER 0x0FC "CMSG_COMPLETE_CINEMATIC" STATUS_LOGGEDIN PROCESS_THREADUNSAFE "HandleCompleteCinematic";
  DEFINE_SERVER_OPCODE_HANDLER 0x0FD "SMSG_TUTORIAL_FLAGS" STATUS_NEVER;
  DEFINE_HANDLER 0x0FE "CMSG_TUTORIAL_FLAG" STATUS_LOGGEDIN PROCESS_THREADUNSAFE "HandleTutorialFlag";
  DEFINE_HANDLER 0x0FF "CMSG_TUTORIAL_CLEAR" STATUS_LOGGEDIN PROCESS_THREADUNSAFE "HandleTutorialClear"
].

Definition manifest_1xx : list ManifestEntry := [
  DEFINE_HANDLER 0x100 "CMSG_TUTORIAL_RESET" STATUS_LOGGEDIN PROCESS_THREADUNSAFE "HandleTutorialReset";
  DEFINE_HANDLER 0x101 "CMSG_STANDSTATECHANGE" STATUS_LOGGEDIN PROCESS_THREADUNSAFE "HandleStandStateChangeOpcode";
  DEFINE_HANDLER 0x102 "CMSG_EMOTE" STATUS_LOGGEDIN PROCESS_THREADSAFE "HandleEmoteOpcode";
  DEFINE_SERVER_OPCODE_HANDLER 0x103 "SMSG_EMOTE" STATUS_NEVER;
  DEFINE_HANDLER 0x104 "CMSG_TEXT_EMOTE" STATUS_LOGGEDIN PROCESS_THREADSAFE "HandleTextEmoteOpcode";
  DEFINE_SERVER_OPCODE_HANDLER 0x105 "SMSG_TEXT_EMOTE" STATUS_NEVER;
  DEFINE_HANDLER 0x106 "CMSG_AUTOEQUIP_GROUND_ITEM" STATUS_NEVER PROCESS_INPLACE "Handle_NULL";
  DEFINE_HANDLER 0x107 "CMSG_AUTOSTORE_GROUND_ITEM" STATUS_NEVER PROCESS_INPLACE "Handle_NULL";
  DEFINE_HANDLER 0x108 "CMSG_AUTOSTORE_LOOT_ITEM" STATUS_LOGGEDIN PROCESS_INPLACE "HandleAutostoreLootItemOpcode";
  DEFINE_HANDLER 0x109 "CMSG_STORE_LOOT_IN_SLOT" STATUS_NEVER PROCESS_INPLACE "Handle_NULL";
  DEFINE_HANDLER 0x10A "CMSG_AUTOEQUIP_ITEM" STATUS_LOGGEDIN PROCESS_INPLACE "HandleAutoEquipItemOpcode";
  DEFINE_HANDLER 0x10B "CMSG_AUTOSTORE_BAG_ITEM" STATUS_LOGGEDIN PROCESS_INPLACE "HandleAutoStoreBagItemOpcode";
  DEFINE_HANDLER 0x10C "CMSG_SWAP_ITEM" STATUS_LOGGEDIN PROCESS_INPLACE "HandleSwapItem";
  DEFINE_HANDLER 0x10D "CMSG_SWAP_INV_ITEM" STATUS_LOGGEDIN PROCESS_INPLACE "HandleSwapInvItemOpcode";
  DEFINE_HANDLER 0x10E "CMSG_SPLIT_ITEM" STATUS_LOGGEDIN PROCESS_INPLACE "HandleSplitItemOpcode";
  DEFINE_HANDLER 0x10F "CMSG_AUTOEQUIP_ITEM_SLOT" STATUS_LOGGEDIN PROCESS_INPLACE "HandleAutoEquipItemSlotOpcode";
  DEFINE_HANDLER 0x110 "CMSG_UNCLAIM_LICENSE" STATUS_NEVER PROCESS_INPLACE "Handle_NULL";
  DEFINE_HANDLER 0x111 "CMSG_DESTROYITEM" STATUS_LOGGEDIN PROCESS_INPLACE "HandleDestroyItemOpcode";
  DEFINE_SERVER_OPCODE_HANDLER 0x112 "SMSG_INVENTORY_CHANGE_FAILURE" STATUS_NEVER;
  DEFINE_SERVER_OPCODE_HANDLER 0x113 "SMSG_OPEN_CONTAINER" STATUS_NEVER;
  DEFINE_HANDLER 0x114 "CMSG_INSPECT" STATUS_LOGGEDIN PROCESS_INPLACE "HandleInspectOpcode";
  DEFINE_SERVER_OPCODE_HANDLER 0x115 "SMSG_INSPECT_RESULTS_UPDATE" STATUS_NEVER;
  DEFINE_HANDLER 0x116 "CMSG_INITIATE_TRADE" STATUS_LOGGEDIN PROCESS_THREADUNSAFE "HandleInitiateTradeOpcode";
  DEFINE_HANDLER 0x117 "CMSG_BEGIN_TRADE" STATUS_LOGGEDIN PROCESS_THREADUNSAFE "HandleBeginTradeOpcode";
  DEFINE_HANDLER 0x118 "CMSG_BUSY_TRADE" STATUS_LOGGEDIN PROCESS_THREADUNSAFE "HandleBusyTradeOpcode";
  DEFINE_HANDLER 0x119 "CMSG_IGNORE_TRADE" STATUS_LOGGEDIN PROCESS_THREADUNSAFE "HandleIgnoreTradeOpcode";
  DEFINE_HANDLER 0x11A "CMSG_ACCEPT_TRADE" STATUS_LOGGEDIN PROCESS_THREADUNSAFE "HandleAcceptTradeOpcode";
  DEFINE_HANDLER 0x11B "CMSG_UNACCEPT_TRADE" STATUS_LOGGEDIN PROCESS_THREADUNSAFE "HandleUnacceptTradeOpcode";
  DEFINE_HANDLER 0x11C "CMSG_CANCEL_TRADE" STATUS_LOGGEDIN_OR_RECENTLY_LOGGOUT PROCESS_THREADUNSAFE "HandleCancelTradeOpcode";
  DEFINE_HANDLER 0x11D "CMSG_SET_TRADE_ITEM" STATUS_LOGGEDIN PROCESS_THREADUNSAFE "HandleSetTradeItemOpcode";
  DEFINE_HANDLER 0x11E "CMSG_CLEAR_TRADE_ITEM" STATUS_LOGGEDIN PROCESS_THREADUNSAFE "HandleClearTradeItemOpcode";
  DEFINE_HANDLER 0x11F "CMSG_SET_TRADE_GOLD" STATUS_LOGGEDIN PROCESS_THREADUNSAFE "HandleSetTradeGoldOpcode";
  DEFINE_SERVER_OPCODE_HANDLER 0x120 "SMSG_TRADE_STATUS" STATUS_NEVER;
  DEFINE_SERVER_OPCODE_HANDLER 0x121 "SMSG_TRADE_STATUS_EXTENDED" STATUS_NEVER;
  DEFINE_SERVER_OPCODE_HANDLER 0x122 "SMSG_INITIALIZE_FACTIONS" STATUS_NEVER;
  DEFINE_SERVER_OPCODE_HANDLER 0x123 "SMSG_SET_FACTION_VISIBLE" STATUS_NEVER;
  DEFINE_SERVER_OPCODE_HANDLER 0x124 "SMSG_SET_FACTION_STANDING" STATUS_NEVER;
  DEFINE_HANDLER 0x125 "CMSG_SET_FACTION_ATWAR" STATUS_LOGGEDIN PROCESS_THREADUNSAFE "HandleSetFactionAtWar";
  DEFINE_HANDLER 0x126 "CMSG_SET_FACTION_CHEAT" STATUS_LOGGEDIN PROCESS_THREADUNSAFE "HandleSetFactionCheat";
  DEFINE_SERVER_OPCODE_HANDLER 0x127 "SMSG_SET_PROFICIENCY" STATUS_NEVER;
  DEFINE_HANDLER 0x128 "CMSG_SET_ACTION_BUTTON" STATUS_LOGGEDIN PROCESS_THREADUNSAFE "HandleSetActionButtonOpcode";
  DEFINE_SERVER_OPCODE_HANDLER 0x129 "SMSG_ACTION_BUTTONS" STATUS_NEVER;
  DEFINE_SERVER_OPCODE_HANDLER 0x12A "SMSG_INITIAL_SPELLS" STATUS_NEVER;
  DEFINE_SERVER_OPCODE_HANDLER 0x12B "SMSG_LEARNED_SPELL" STATUS_NEVER;
  DEFINE_SERVER_OPCODE_HANDLER 0x12C "SMSG_SUPERCEDED_SPELL" STATUS_NEVER;
  DEFINE_HANDLER 0x12D "CMSG_NEW_SPELL_SLOT" STATUS_NEVER PROCESS_INPLACE "Handle_NULL";
  DEFINE_HANDLER 0x12E "CMSG_CAST_SPELL" STATUS_LOGGEDIN PROCESS_THREADSAFE "HandleCastSpellOpcode";
  DEFINE_HANDLER 0x12F "CMSG_CANCEL_CAST" STATUS_LOGGEDIN PROCESS_THREADSAFE "HandleCancelCastOpcode";
  DEFINE_SERVER_OPCODE_HANDLER 0x130 "SMSG_CAST_FAILED" STATUS_NEVER;
  DEFINE_SERVER_OPCODE_HANDLER 0x131 "SMSG_SPELL_START" STATUS_NEVER;
  DEFINE_SERVER_OPCODE_HANDLER 0x132 "SMSG_SPELL_GO" STATUS_NEVER;
  DEFINE_SERVER_OPCODE_HANDLER 0x133 "SMSG_SPELL_FAILURE" STATUS_NEVER;
  DEFINE_SERVER_OPCODE_HANDLER 0x134 "SMSG_SPELL_COOLDOWN" STATUS_NEVER;
  DEFINE_SERVER_OPCODE_HANDLER 0x135 "SMSG_COOLDOWN_EVENT" STATUS_NEVER;
  DEFINE_HANDLER 0x136 "CMSG_CANCEL_AURA" STATUS_LOGGEDIN PROCESS_INPLACE "HandleCancelAuraOpcode";
  DEFINE_SERVER_OPCODE_HANDLER 0x137 "SMSG_EQUIPMENT_SET_SAVED" STATUS_NEVER;
  DEFINE_SERVER_OPCODE_HANDLER 0x138 "SMSG_PET_CAST_FAILED" STATUS_NEVER;
  DEFINE_HANDLER 0x139 "MSG_CHANNEL_START" STATUS_NEVER PROCESS_INPLACE "Handle_NULL";
  DEFINE_HANDLER 0x13A "MSG_CHANNEL_UPDATE" STATUS_NEVER PROCESS_INPLACE "Handle_NULL";
  DEFINE_HANDLER 0x13B "CMSG_CANCEL_CHANNELLING" STATUS_LOGGEDIN PROCESS_INPLACE "HandleCancelChanneling";
  DEFINE_SERVER_OPCODE_HANDLER 0x13C "SMSG_AI_REACTION" STATUS_NEVER;
  DEFINE_HANDLER 0x13D "CMSG_SET_SELECTION" STATUS_LOGGEDIN PROCESS_THREADSAFE "HandleSetSelectionOpcode";
  DEFINE_HANDLER 0x13E "CMSG_DELETEEQUIPMENT_SET" STATUS_LOGGEDIN PROCESS_THREADUNSAFE "HandleEquipmentSetDelete";
  DEFINE_HANDLER 0x13F "CMSG_INSTANCE_LOCK_RESPONSE" STATUS_LOGGEDIN PROCESS_THREADUNSAFE "HandleInstanceLockResponse";
  DEFINE_HANDLER 0x140 "CMSG_DEBUG_PASSIVE_AURA" STATUS_NEVER PROCESS_INPLACE "Handle_NULL";
  DEFINE_HANDLER 0x141 "CMSG_ATTACKSWING" STATUS_LOGGEDIN PROCESS_THREADSAFE "HandleAttackSwingOpcode";
  DEFINE_HANDLER 0x142 "CMSG_ATTACKSTOP" STATUS_LOGGEDIN PROCESS_THREADSAFE "HandleAttackStopOpcode";
  DEFINE_SERVER_OPCODE_HANDLER 0x143 "SMSG_ATTACKSTART" STATUS_NEVER;
  DEFINE_SERVER_OPCODE_HANDLER 0x144 "SMSG_ATTACKSTOP" STATUS_NEVER;
  DEFINE_SERVER_OPCODE_HANDLER 0x145 "SMSG_ATTACKSWING_NOTINRANGE" STATUS_NEVER;
  DEFINE_SERVER_OPCODE_HANDLER 0x146 "SMSG_ATTACKSWING_BADFACING" STATUS_NEVER;
  DEFINE_SERVER_OPCODE_HANDLER 0x147 "SMSG_INSTANCE_LOCK_WARNING_QUERY" STATUS_NEVER;
  DEFINE_SERVER_OPCODE_HANDLER 0x148 "SMSG_ATTACKSWING_DEADTARGET" STATUS_NEVER;
  DEFINE_SERVER_OPCODE_HANDLER 0x149 "SMSG_ATTACKSWING_CANT_ATTACK" STATUS_NEVER;
  DEFINE_SERVER_OPCODE_HANDLER 0x14A "SMSG_ATTACKERSTATEUPDATE" STATUS_NEVER;
  DEFINE_SERVER_OPCODE_HANDLER 0x14B "SMSG_BATTLEFIELD_PORT_DENIED" STATUS_NEVER;
  DEFINE_HANDLER 0x14C "CMSG_PERFORM_ACTION_SET" STATUS_NEVER PROCESS_INPLACE "Handle_NULL";
  DEFINE_SERVER_OPCODE_HANDLER 0x14D "SMSG_RESUME_CAST_BAR" STATUS_NEVER;
  DEFINE_SERVER_OPCODE_HANDLER 0x14E "SMSG_CANCEL_COMBAT" STATUS_NEVER;
  DEFINE_SERVER_OPCODE_HANDLER 0x14F "SMSG_SPELLBREAKLOG" STATUS_NEVER;
  DEFINE_SERVER_OPCODE_HANDLER 0x150 "SMSG_SPELLHEALLOG" STATUS_NEVER;
  DEFINE_SERVER_OPCODE_HANDLER 0x151 "SMSG_SPELLENERGIZELOG" STATUS_NEVER;
  DEFINE_SERVER_OPCODE_HANDLER 0x152 "SMSG_BREAK_TARGET" STATUS_NEVER;
  DEFINE_HANDLER 0x153 "CMSG_SAVE_PLAYER" STATUS_NEVER PROCESS_INPLACE "Handle_NULL";
  DEFINE_HANDLER 0x154 "CMSG_SETDEATHBINDPOINT" STATUS_NEVER PROCESS_INPLACE "Handle_NULL";
  DEFINE_SERVER_OPCODE_HANDLER 0x155 "SMSG_BINDPOINTUPDATE" STATUS_NEVER;
  DEFINE_HANDLER 0x156 "CMSG_GETDEATHBINDZONE" STATUS_NEVER PROCESS_INPLACE "Handle_NULL";
  DEFINE_SERVER_OPCODE_HANDLER 0x157 "SMSG_BINDZONEREPLY" STATUS_NEVER;
  DEFINE_SERVER_OPCODE_HANDLER 0x158 "SMSG_PLAYERBOUND" STATUS_NEVER;
  DEFINE_SERVER_OPCODE_HANDLER 0x159 "SMSG_CLIENT_CONTROL_UPDATE" STATUS_NEVER;
  DEFINE_HANDLER 0x15A "CMSG_REPOP_REQUEST" STATUS_LOGGEDIN PROCESS_THREADSAFE "HandleRepopRequestOpcode";
  DEFINE_SERVER_OPCODE_HANDLER 0x15B "SMSG_RESURRECT_REQUEST" STATUS_NEVER;
  DEFINE_HANDLER 0x15C "CMSG_RESURRECT_RESPONSE" STATUS_LOGGEDIN PROCESS_THREADSAFE "HandleResurrectResponseOpcode";
  DEFINE_HANDLER 0x15D "CMSG_LOOT" STATUS_LOGGEDIN PROCESS_THREADUNSAFE "HandleLootOpcode";
  DEFINE_HANDLER 0x15E "CMSG_LOOT_MONEY" STATUS_LOGGEDIN PROCESS_THREADUNSAFE "HandleLootMoneyOpcode";
  DEFINE_HANDLER 0x15F "CMSG_LOOT_RELEASE" STATUS_LOGGEDIN PROCESS_THREADUNSAFE "HandleLootReleaseOpcode";
  DEFINE_SERVER_OPCODE_HANDLER 0x160 "SMSG_LOOT_RESPONSE" STATUS_NEVER;
  DEFINE_SERVER_OPCODE_HANDLER 0x161 "SMSG_LOOT_RELEASE_RESPONSE" STATUS_NEVER;
  DEFINE_SERVER_OPCODE_HANDLER 0x162 "SMSG_LOOT_REMOVED" STATUS_NEVER;
  DEFINE_SERVER_OPCODE_HANDLER 0x163 "SMSG_LOOT_MONEY_NOTIFY" STATUS_NEVER;
  DEFINE_SERVER_OPCODE_HANDLER 0x164 "SMSG_LOOT_ITEM_NOTIFY" STATUS_NEVER;
  DEFINE_SERVER_OPCODE_HANDLER 0x165 "SMSG_LOOT_CLEAR_MONEY" STATUS_NEVER;
  DEFINE_SERVER_OPCODE_HANDLER 0x166 "SMSG_ITEM_PUSH_RESULT" STATUS_NEVER;
  DEFINE_SERVER_OPCODE_HANDLER 0x167 "SMSG_DUEL_REQUESTED" STATUS_NEVER;
  DEFINE_SERVER_OPCODE_HANDLER 0x168 "SMSG_DUEL_OUTOFBOUNDS" STATUS_NEVER;
  DEFINE_SERVER_OPCODE_HANDLER 0x169 "SMSG_DUEL_INBOUNDS" STATUS_NEVER;
  DEFINE_SERVER_OPCODE_HANDLER 0x16A "SMSG_DUEL_COMPLETE" STATUS_NEVER;
  DEFINE_SERVER_OPCODE_HANDLER 0x16B "SMSG_DUEL_WINNER" STATUS_NEVER;
  DEFINE_HANDLER 0x16C "CMSG_DUEL_ACCEPTED" STATUS_LOGGEDIN PROCESS_THREADUNSAFE "HandleDuelAcceptedOpcode";
  DEFINE_HANDLER 0x16D "CMSG_DUEL_CANCELLED" STATUS_LOGGEDIN PROCESS_THREADUNSAFE "HandleDuelCancelledOpcode";
  DEFINE_SERVER_OPCODE_HANDLER 0x16E "SMSG_MOUNTRESULT" STATUS_NEVER;
  DEFINE_SERVER_OPCODE_HANDLER 0x16F "SMSG_DISMOUNTRESULT" STATUS_NEVER;
  DEFINE_SERVER_OPCODE_HANDLER 0x170 "SMSG_REMOVED_FROM_PVP_QUEUE" STATUS_NEVER;
  DEFINE_HANDLER 0x171 "CMSG_MOUNTSPECIAL_ANIM" STATUS_LOGGEDIN PROCESS_THREADUNSAFE "HandleMountSpecialAnimOpcode";
  DEFINE_SERVER_OPCODE_HANDLER 0x172 "SMSG_MOUNTSPECIAL_ANIM" STATUS_NEVER;
  DEFINE_SERVER_OPCODE_HANDLER 0x173 "SMSG_PET_TAME_FAILURE" STATUS_NEVER;
  DEFINE_HANDLER 0x174 "CMSG_PET_SET_ACTION" STATUS_LOGGEDIN PROCESS_THREADUNSAFE "HandlePetSetAction";
  DEFINE_HANDLER 0x175 "CMSG_PET_ACTION" STATUS_LOGGEDIN PROCESS_THREADSAFE "HandlePetAction";
  DEFINE_HANDLER 0x176 "CMSG_PET_ABANDON" STATUS_LOGGEDIN PROCESS_THREADUNSAFE "HandlePetAbandon";
  DEFINE_HANDLER 0x177 "CMSG_PET_RENAME" STATUS_LOGGEDIN PROCESS_THREADUNSAFE "HandlePetRename";
  DEFINE_SERVER_OPCODE_HANDLER 0x178 "SMSG_PET_NAME_INVALID" STATUS_NEVER;
  DEFINE_SERVER_OPCODE_HANDLER 0x179 "SMSG_PET_SPELLS" STATUS_NEVER;
  DEFINE_SERVER_OPCODE_HANDLER 0x17A "SMSG_PET_MODE" STATUS_NEVER;
  DEFINE_HANDLER 0x17B "CMSG_GOSSIP_HELLO" STATUS_LOGGEDIN PROCESS_INPLACE "HandleGossipHelloOpcode";
  DEFINE_HANDLER 0x17C "CMSG_GOSSIP_SELECT_OPTION" STATUS_LOGGEDIN PROCESS_THREADUNSAFE "HandleGossipSelectOptionOpcode";
  DEFINE_SERVER_OPCODE_HANDLER 0x17D "SMSG_GOSSIP_MESSAGE" STATUS_NEVER;
  DEFINE_SERVER_OPCODE_HANDLER 0x17E "SMSG_GOSSIP_COMPLETE" STATUS_NEVER;
  DEFINE_HANDLER 0x17F "CMSG_NPC_TEXT_QUERY" STATUS_LOGGEDIN PROCESS_INPLACE "HandleNpcTextQueryOpcode";
  DEFINE_SERVER_OPCODE_HANDLER 0x180 "SMSG_NPC_TEXT_UPDATE" STATUS_NEVER;
  DEFINE_SERVER_OPCODE_HANDLER 0x181 "SMSG_NPC_WONT_TALK" STATUS_NEVER;
  DEFINE_HANDLER 0x182 "CMSG_QUESTGIVER_STATUS_QUERY" STATUS_LOGGEDIN PROCESS_THREADSAFE "HandleQuestgiverStatusQueryOpcode";
  DEFINE_SERVER_OPCODE_HANDLER 0x183 "SMSG_QUESTGIVER_STATUS" STATUS_NEVER;
  DEFINE_HANDLER 0x184 "CMSG_QUESTGIVER_HELLO" STATUS_LOGGEDIN PROCESS_INPLACE "HandleQuestgiverHelloOpcode";
  DEFINE_SERVER_OPCODE_HANDLER 0x185 "SMSG_QUESTGIVER_QUEST_LIST" STATUS_NEVER;
  DEFINE_HANDLER 0x186 "CMSG_QUESTGIVER_QUERY_QUEST" STATUS_LOGGEDIN PROCESS_INPLACE "HandleQuestgiverQueryQuestOpcode";
  DEFINE_HANDLER 0x187 "CMSG_QUESTGIVER_QUEST_AUTOLAUNCH" STATUS_LOGGEDIN PROCESS_INPLACE "HandleQuestgiverQuestAutoLaunch";
  DEFINE_SERVER_OPCODE_HANDLER 0x188 "SMSG_QUESTGIVER_QUEST_DETAILS" STATUS_NEVER;
  DEFINE_HANDLER 0x189 "CMSG_QUESTGIVER_ACCEPT_QUEST" STATUS_LOGGEDIN PROCESS_INPLACE "HandleQuestgiverAcceptQuestOpcode";
  DEFINE_HANDLER 0x18A "CMSG_QUESTGIVER_COMPLETE_QUEST" STATUS_LOGGEDIN PROCESS_INPLACE "HandleQuestgiverCompleteQuest";
  DEFINE_SERVER_OPCODE_HANDLER 0x18B "SMSG_QUESTGIVER_REQUEST_ITEMS" STATUS_NEVER;
  DEFINE_HANDLER 0x18C "CMSG_QUESTGIVER_REQUEST_REWARD" STATUS_LOGGEDIN PROCESS_INPLACE "HandleQuestgiverRequestRewardOpcode";
  DEFINE_SERVER_OPCODE_HANDLER 0x18D "SMSG_QUESTGIVER_OFFER_REWARD" STATUS_NEVER;
  DEFINE_HANDLER 0x18E "CMSG_QUESTGIVER_CHOOSE_REWARD" STATUS_LOGGEDIN PROCESS_INPLACE "HandleQuestgiverChooseRewardOpcode";
  DEFINE_SERVER_OPCODE_HANDLER 0x18F "SMSG_QUESTGIVER_QUEST_INVALID" STATUS_NEVER;
  DEFINE_HANDLER 0x190 "CMSG_QUESTGIVER_CANCEL" STATUS_LOGGEDIN PROCESS_INPLACE "HandleQuestgiverCancel";
  DEFINE_SERVER_OPCODE_HANDLER 0x191 "SMSG_QUESTGIVER_QUEST_COMPLETE" STATUS_NEVER;
  DEFINE_SERVER_OPCODE_HANDLER 0x192 "SMSG_QUESTGIVER_QUEST_FAILED" STATUS_NEVER;
  DEFINE_HANDLER 0x193 "CMSG_QUESTLOG_SWAP_QUEST" STATUS_LOGGEDIN PROCESS_INPLACE "HandleQuestLogSwapQuest";
  DEFINE_HANDLER 0x194 "CMSG_QUESTLOG_REMOVE_QUEST" STATUS_LOGGEDIN PROCESS_INPLACE "HandleQuestLogRemoveQuest";
  DEFINE_SERVER_OPCODE_HANDLER 0x195 "SMSG_QUESTLOG_FULL" STATUS_NEVER;
  DEFINE_SERVER_OPCODE_HANDLER 0x196 "SMSG_QUESTUPDATE_FAILED" STATUS_NEVER;
  DEFINE_SERVER_OPCODE_HANDLER 0x197 "SMSG_QUESTUPDATE_FAILEDTIMER" STATUS_NEVER;
  DEFINE_SERVER_OPCODE_HANDLER 0x198 "SMSG_QUESTUPDATE_COMPLETE" STATUS_NEVER;
  DEFINE_SERVER_OPCODE_HANDLER 0x199 "SMSG_QUESTUPDATE_ADD_KILL" STATUS_NEVER;
  DEFINE_SERVER_OPCODE_HANDLER 0x19A "SMSG_QUESTUPDATE_ADD_ITEM" STATUS_NEVER;
  DEFINE_HANDLER 0x19B "CMSG_QUEST_CONFIRM_ACCEPT" STATUS_LOGGEDIN PROCESS_THREADUNSAFE "HandleQuestConfirmAccept";
  DEFINE_SERVER_OPCODE_HANDLER 0x19C "SMSG_QUEST_CONFIRM_ACCEPT" STATUS_NEVER;
  DEFINE_HANDLER 0x19D "CMSG_PUSHQUESTTOPARTY" STATUS_LOGGEDIN PROCESS_THREADUNSAFE "HandlePushQuestToParty";
  DEFINE_HANDLER 0x19E "CMSG_LIST_INVENTORY" STATUS_LOGGEDIN PROCESS_INPLACE "HandleListInventoryOpcode";
  DEFINE_SERVER_OPCODE_HANDLER 0x19F "SMSG_LIST_INVENTORY" STATUS_NEVER;
  DEFINE_HANDLER 0x1A0 "CMSG_SELL_ITEM" STATUS_LOGGEDIN PROCESS_INPLACE "HandleSellItemOpcode";
  DEFINE_SERVER_OPCODE_HANDLER 0x1A1 "SMSG_SELL_ITEM" STATUS_NEVER;
  DEFINE_HANDLER 0x1A2 "CMSG_BUY_ITEM" STATUS_LOGGEDIN PROCESS_INPLACE "HandleBuyItemOpcode";
  DEFINE_HANDLER 0x1A3 "CMSG_BUY_ITEM_IN_SLOT" STATUS_LOGGEDIN PROCESS_INPLACE "HandleBuyItemInSlotOpcode";
  DEFINE_SERVER_OPCODE_HANDLER 0x1A4 "SMSG_BUY_ITEM" STATUS_NEVER;
  DEFINE_SERVER_OPCODE_HANDLER 0x1A5 "SMSG_BUY_FAILED" STATUS_NEVER;
  DEFINE_HANDLER 0x1A6 "CMSG_TAXICLEARALLNODES" STATUS_NEVER PROCESS_INPLACE "Handle_NULL";
  DEFINE_HANDLER 0x1A7 "CMSG_TAXIENABLEALLNODES" STATUS_NEVER PROCESS_INPLACE "Handle_NULL";
  DEFINE_HANDLER 0x1A8 "CMSG_TAXISHOWNODES" STATUS_NEVER PROCESS_INPLACE "Handle_NULL";
  DEFINE_SERVER_OPCODE_HANDLER 0x1A9 "SMSG_SHOWTAXINODES" STATUS_NEVER;
  DEFINE_HANDLER 0x1AA "CMSG_TAXINODE_STATUS_QUERY" STATUS_LOGGEDIN PROCESS_THREADSAFE "HandleTaxiNodeStatusQueryOpcode";
  DEFINE_SERVER_OPCODE_HANDLER 0x1AB "SMSG_TAXINODE_STATUS" STATUS_NEVER;
  DEFINE_HANDLER 0x1AC "CMSG_TAXIQUERYAVAILABLENODES" STATUS_LOGGEDIN PROCESS_THREADSAFE "HandleTaxiQueryAvailableNodes";
  DEFINE_HANDLER 0x1AD "CMSG_ACTIVATETAXI" STATUS_LOGGEDIN PROCESS_THREADSAFE "HandleActivateTaxiOpcode";
  DEFINE_SERVER_OPCODE_HANDLER 0x1AE "SMSG_ACTIVATETAXIREPLY" STATUS_NEVER;
  DEFINE_SERVER_OPCODE_HANDLER 0x1AF "SMSG_NEW_TAXI_PATH" STATUS_NEVER;
  DEFINE_HANDLER 0x1B0 "CMSG_TRAINER_LIST" STATUS_LOGGEDIN PROCESS_INPLACE "HandleTrainerListOpcode";
  DEFINE_SERVER_OPCODE_HANDLER 0x1B1 "SMSG_TRAINER_LIST" STATUS_NEVER;
  DEFINE_HANDLER 0x1B2 "CMSG_TRAINER_BUY_SPELL" STATUS_LOGGEDIN PROCESS_INPLACE "HandleTrainerBuySpellOpcode";
  DEFINE_SERVER_OPCODE_HANDLER 0x1B3 "SMSG_TRAINER_BUY_SUCCEEDED" STATUS_NEVER;
  DEFINE_SERVER_OPCODE_HANDLER 0x1B4 "SMSG_TRAINER_BUY_FAILED" STATUS_NEVER;
  DEFINE_HANDLER 0x1B5 "CMSG_BINDER_ACTIVATE" STATUS_LOGGEDIN PROCESS_INPLACE "HandleBinderActivateOpcode";
  DEFINE_SERVER_OPCODE_HANDLER 0x1B6 "SMSG_PLAYERBINDERROR" STATUS_NEVER;
  DEFINE_HANDLER 0x1B7 "CMSG_BANKER_ACTIVATE" STATUS_LOGGEDIN PROCESS_INPLACE "HandleBankerActivateOpcode";
  DEFINE_SERVER_OPCODE_HANDLER 0x1B8 "SMSG_SHOW_BANK" STATUS_NEVER;
  DEFINE_HANDLER 0x1B9 "CMSG_BUY_BANK_SLOT" STATUS_LOGGEDIN PROCESS_INPLACE "HandleBuyBankSlotOpcode";
  DEFINE_SERVER_OPCODE_HANDLER 0x1BA "SMSG_BUY_BANK_SLOT_RESULT" STATUS_NEVER;
  DEFINE_HANDLER 0x1BB "CMSG_PETITION_SHOWLIST" STATUS_LOGGEDIN PROCESS_THREADSAFE "HandlePetitionShowListOpcode";
  DEFINE_SERVER_OPCODE_HANDLER 0x1BC "SMSG_PETITION_SHOWLIST" STATUS_NEVER;
  DEFINE_HANDLER 0x1BD "CMSG_PETITION_BUY" STATUS_LOGGEDIN PROCESS_THREADSAFE "HandlePetitionBuyOpcode";
  DEFINE_HANDLER 0x1BE "CMSG_PETITION_SHOW_SIGNATURES" STATUS_LOGGEDIN PROCESS_THREADSAFE "HandlePetitionShowSignOpcode";
  DEFINE_SERVER_OPCODE_HANDLER 0x1BF "SMSG_PETITION_SHOW_SIGNATURES" STATUS_NEVER;
  DEFINE_HANDLER 0x1C0 "CMSG_PETITION_SIGN" STATUS_LOGGEDIN PROCESS_THREADSAFE "HandlePetitionSignOpcode";
  DEFINE_SERVER_OPCODE_HANDLER 0x1C1 "SMSG_PETITION_SIGN_RESULTS" STATUS_NEVER;
  DEFINE_HANDLER 0x1C2 "MSG_PETITION_DECLINE" STATUS_LOGGEDIN PROCESS_THREADSAFE "HandlePetitionDeclineOpcode";
  DEFINE_HANDLER 0x1C3 "CMSG_OFFER_PETITION" STATUS_LOGGEDIN PROCESS_THREADSAFE "HandleOfferPetitionOpcode";
  DEFINE_HANDLER 0x1C4 "CMSG_TURN_IN_PETITION" STATUS_LOGGEDIN PROCESS_THREADUNSAFE "HandleTurnInPetitionOpcode";
  DEFINE_SERVER_OPCODE_HANDLER 0x1C5 "SMSG_TURN_IN_PETITION_RESULTS" STATUS_NEVER;
  DEFINE_HANDLER 0x1C6 "CMSG_PETITION_QUERY" STATUS_LOGGEDIN PROCESS_THREADSAFE "HandlePetitionQueryOpcode";
  DEFINE_SERVER_OPCODE_HANDLER 0x1C7 "SMSG_PETITION_QUERY_RESPONSE" STATUS_NEVER;
  DEFINE_SERVER_OPCODE_HANDLER 0x1C8 "SMSG_FISH_NOT_HOOKED" STATUS_NEVER;
  DEFINE_SERVER_OPCODE_HANDLER 0x1C9 "SMSG_FISH_ESCAPED" STATUS_NEVER;
  DEFINE_HANDLER 0x1CA "CMSG_BUG" STATUS_LOGGEDIN PROCESS_THREADUNSAFE "HandleBugOpcode";
  DEFINE_SERVER_OPCODE_HANDLER 0x1CB "SMSG_NOTIFICATION" STATUS_NEVER;
  DEFINE_HANDLER 0x1CC "CMSG_PLAYED_TIME" STATUS_LOGGEDIN PROCESS_INPLACE "HandlePlayedTime";
  DEFINE_SERVER_OPCODE_HANDLER 0x1CD "SMSG_PLAYED_TIME" STATUS_NEVER;
  DEFINE_HANDLER 0x1CE "CMSG_QUERY_TIME" STATUS_LOGGEDIN PROCESS_INPLACE "HandleQueryTimeOpcode";
  DEFINE_SERVER_OPCODE_HANDLER 0x1CF "SMSG_QUERY_TIME_RESPONSE" STATUS_NEVER;
  DEFINE_SERVER_OPCODE_HANDLER 0x1D0 "SMSG_LOG_XPGAIN" STATUS_NEVER;
  DEFINE_SERVER_OPCODE_HANDLER 0x1D1 "SMSG_AURACASTLOG" STATUS_NEVER;
  DEFINE_HANDLER 0x1D2 "CMSG_RECLAIM_CORPSE" STATUS_LOGGEDIN PROCESS_THREADSAFE "HandleReclaimCorpseOpcode";
  DEFINE_HANDLER 0x1D3 "CMSG_WRAP_ITEM" STATUS_LOGGEDIN PROCESS_THREADSAFE "HandleWrapItemOpcode";
  DEFINE_SERVER_OPCODE_HANDLER 0x1D4 "SMSG_LEVELUP_INFO" STATUS_NEVER;
  DEFINE_HANDLER 0x1D5 "MSG_MINIMAP_PING" STATUS_LOGGEDIN PROCESS_THREADUNSAFE "HandleMinimapPingOpcode";
  DEFINE_SERVER_OPCODE_HANDLER 0x1D6 "SMSG_RESISTLOG" STATUS_NEVER;
  DEFINE_SERVER_OPCODE_HANDLER 0x1D7 "SMSG_ENCHANTMENTLOG" STATUS_NEVER;
  DEFINE_HANDLER 0x1D8 "CMSG_SET_SKILL_CHEAT" STATUS_NEVER PROCESS_INPLACE "Handle_NULL";
  DEFINE_SERVER_OPCODE_HANDLER 0x1D9 "SMSG_START_MIRROR_TIMER" STATUS_NEVER;
  DEFINE_SERVER_OPCODE_HANDLER 0x1DA "SMSG_PAUSE_MIRROR_TIMER" STATUS_NEVER;
  DEFINE_SERVER_OPCODE_HANDLER 0x1DB "SMSG_STOP_MIRROR_TIMER" STATUS_NEVER;
  DEFINE_HANDLER 0x1DC "CMSG_PING" STATUS_NEVER PROCESS_INPLACE "Handle_EarlyProccess";
  DEFINE_SERVER_OPCODE_HANDLER 0x1DD "SMSG_PONG" STATUS_NEVER;
  DEFINE_SERVER_OPCODE_HANDLER 0x1DE "SMSG_CLEAR_COOLDOWN" STATUS_NEVER;
  DEFINE_SERVER_OPCODE_HANDLER 0x1DF "SMSG_GAMEOBJECT_PAGETEXT" STATUS_NEVER;
  DEFINE_HANDLER 0x1E0 "CMSG_SET_SHEATHED" STATUS_LOGGEDIN PROCESS_THREADSAFE "HandleSetSheathedOpcode";
  DEFINE_SERVER_OPCODE_HANDLER 0x1E1 "SMSG_COOLDOWN_CHEAT" STATUS_NEVER;
  DEFINE_SERVER_OPCODE_HANDLER 0x1E2 "SMSG_SPELL_DELAYED" STATUS_NEVER;
  DEFINE_HANDLER 0x1E3 "CMSG_QUEST_POI_QUERY" STATUS_LOGGEDIN PROCESS_INPLACE "HandleQuestPOIQuery";
  DEFINE_SERVER_OPCODE_HANDLER 0x1E4 "SMSG_QUEST_POI_QUERY_RESPONSE" STATUS_NEVER;
  DEFINE_HANDLER 0x1E5 "CMSG_GHOST" STATUS_NEVER PROCESS_INPLACE "Handle_NULL";
  DEFINE_HANDLER 0x1E6 "CMSG_GM_INVIS" STATUS_NEVER PROCESS_INPLACE "Handle_NULL";
  DEFINE_SERVER_OPCODE_HANDLER 0x1E7 "SMSG_INVALID_PROMOTION_CODE" STATUS_NEVER;
  DEFINE_HANDLER 0x1E8 "MSG_GM_BIND_OTHER" STATUS_NEVER PROCESS_INPLACE "Handle_NULL";
  DEFINE_HANDLER 0x1E9 "MSG_GM_SUMMON" STATUS_NEVER PROCESS_INPLACE "Handle_NULL";
  DEFINE_SERVER_OPCODE_HANDLER 0x1EA "SMSG_ITEM_TIME_UPDATE" STATUS_NEVER;
  DEFINE_SERVER_OPCODE_HANDLER 0x1EB "SMSG_ITEM_ENCHANT_TIME_UPDATE" STATUS_NEVER;
  DEFINE_SERVER_OPCODE_HANDLER 0x1EC "SMSG_AUTH_CHALLENGE" STATUS_NEVER;
  DEFINE_HANDLER 0x1ED "CMSG_AUTH_SESSION" STATUS_NEVER PROCESS_THREADUNSAFE "Handle_EarlyProccess";
  DEFINE_SERVER_OPCODE_HANDLER 0x1EE "SMSG_AUTH_RESPONSE" STATUS_NEVER;
  DEFINE_HANDLER 0x1EF "MSG_GM_SHOWLABEL" STATUS_NEVER PROCESS_INPLACE "Handle_NULL";
  DEFINE_HANDLER 0x1F0 "CMSG_PET_CAST_SPELL" STATUS_LOGGEDIN PROCESS_INPLACE "HandlePetCastSpellOpcode";
  DEFINE_HANDLER 0x1F1 "MSG_SAVE_GUILD_EMBLEM" STATUS_LOGGEDIN PROCESS_THREADUNSAFE "HandleSaveGuildEmblemOpcode";
  DEFINE_HANDLER 0x1F2 "MSG_TABARDVENDOR_ACTIVATE" STATUS_LOGGEDIN PROCESS_INPLACE "HandleTabardVendorActivateOpcode";
  DEFINE_SERVER_OPCODE_HANDLER 0x1F3 "SMSG_PLAY_SPELL_VISUAL" STATUS_NEVER;
  DEFINE_HANDLER 0x1F4 "CMSG_ZONEUPDATE" STATUS_LOGGEDIN PROCESS_INPLACE "HandleZoneUpdateOpcode";
  DEFINE_SERVER_OPCODE_HANDLER 0x1F5 "SMSG_PARTYKILLLOG" STATUS_NEVER;
  DEFINE_SERVER_OPCODE_HANDLER 0x1F6 "SMSG_COMPRESSED_UPDATE_OBJECT" STATUS_NEVER;
  DEFINE_SERVER_OPCODE_HANDLER 0x1F7 "SMSG_PLAY_SPELL_IMPACT" STATUS_NEVER;
  DEFINE_SERVER_OPCODE_HANDLER 0x1F8 "SMSG_EXPLORATION_EXPERIENCE" STATUS_NEVER;
  DEFINE_HANDLER 0x1F9 "CMSG_GM_SET_SECURITY_GROUP" STATUS_NEVER PROCESS_INPLACE "Handle_NULL";
  DEFINE_HANDLER 0x1FA "CMSG_GM_NUKE" STATUS_NEVER PROCESS_INPLACE "Handle_NULL";
  DEFINE_HANDLER 0x1FB "MSG_RANDOM_ROLL" STATUS_LOGGEDIN PROCESS_THREADSAFE "HandleRandomRollOpcode";
  DEFINE_SERVER_OPCODE_HANDLER 0x1FC "SMSG_ENVIRONMENTAL_DAMAGE_LOG" STATUS_NEVER;
  DEFINE_HANDLER 0x1FD "CMSG_CHANGEPLAYER_DIFFICULTY" STATUS_NEVER PROCESS_INPLACE "Handle_NULL";
  DEFINE_SERVER_OPCODE_HANDLER 0x1FE "SMSG_RWHOIS" STATUS_NEVER;
  DEFINE_SERVER_OPCODE_HANDLER 0x1FF "SMSG_LFG_PLAYER_REWARD" STATUS_NEVER
].

Definition manifest_2xx : list ManifestEntry := [
  DEFINE_SERVER_OPCODE_HANDLER 0x200 "SMSG_LFG_TELEPORT_DENIED" STATUS_NEVER;
  DEFINE_HANDLER 0x201 "CMSG_UNLEARN_SPELL" STATUS_NEVER PROCESS_INPLACE "Handle_NULL";
  DEFINE_HANDLER 0x202 "CMSG_UNLEARN_SKILL" STATUS_LOGGEDIN PROCESS_INPLACE "HandleUnlearnSkillOpcode";
  DEFINE_SERVER_OPCODE_HANDLER 0x203 "SMSG_REMOVED_SPELL" STATUS_NEVER;
  DEFINE_HANDLER 0x204 "CMSG_DECHARGE" STATUS_NEVER PROCESS_INPLACE "Handle_NULL";
  DEFINE_HANDLER 0x205 "CMSG_GMTICKET_CREATE" STATUS_LOGGEDIN PROCESS_THREADUNSAFE "HandleGMTicketCreateOpcode";
  DEFINE_SERVER_OPCODE_HANDLER 0x206 "SMSG_GMTICKET_CREATE" STATUS_NEVER;
  DEFINE_HANDLER 0x207 "CMSG_GMTICKET_UPDATETEXT" STATUS_LOGGEDIN PROCESS_THREADUNSAFE "HandleGMTicketUpdateOpcode";
  DEFINE_SERVER_OPCODE_HANDLER 0x208 "SMSG_GMTICKET_UPDATETEXT" STATUS_NEVER;
  DEFINE_SERVER_OPCODE_HANDLER 0x209 "SMSG_ACCOUNT_DATA_TIMES" STATUS_NEVER;
  DEFINE_HANDLER 0x20A "CMSG_REQUEST_ACCOUNT_DATA" STATUS_AUTHED PROCESS_THREADUNSAFE "HandleRequestAccountData";
  DEFINE_HANDLER 0x20B "CMSG_UPDATE_ACCOUNT_DATA" STATUS_AUTHED PROCESS_THREADUNSAFE "HandleUpdateAccountData";
  DEFINE_SERVER_OPCODE_HANDLER 0x20C "SMSG_UPDATE_ACCOUNT_DATA" STATUS_NEVER;
  DEFINE_SERVER_OPCODE_HANDLER 0x20D "SMSG_CLEAR_FAR_SIGHT_IMMEDIATE" STATUS_NEVER;
  DEFINE_SERVER_OPCODE_HANDLER 0x20E "SMSG_CHANGEPLAYER_DIFFICULTY_RESULT" STATUS_NEVER;
  DEFINE_HANDLER 0x20F "CMSG_GM_TEACH" STATUS_NEVER PROCESS_INPLACE "Handle_NULL";
  DEFINE_HANDLER 0x210 "CMSG_GM_CREATE_ITEM_TARGET" STATUS_NEVER PROCESS_INPLACE "Handle_NULL";
  DEFINE_HANDLER 0x211 "CMSG_GMTICKET_GETTICKET" STATUS_LOGGEDIN PROCESS_THREADUNSAFE "HandleGMTicketGetTicketOpcode";
  DEFINE_SERVER_OPCODE_HANDLER 0x212 "SMSG_GMTICKET_GETTICKET" STATUS_NEVER;
  DEFINE_HANDLER 0x213 "CMSG_UNLEARN_TALENTS" STATUS_NEVER PROCESS_INPLACE "Handle_NULL";
  DEFINE_SERVER_OPCODE_HANDLER 0x214 "SMSG_UPDATE_INSTANCE_ENCOUNTER_UNIT" STATUS_NEVER;
  DEFINE_SERVER_OPCODE_HANDLER 0x215 "SMSG_GAMEOBJECT_DESPAWN_ANIM" STATUS_NEVER;
  DEFINE_HANDLER 0x216 "MSG_CORPSE_QUERY" STATUS_LOGGEDIN PROCESS_THREADUNSAFE "HandleCorpseQueryOpcode";
  DEFINE_HANDLER 0x217 "CMSG_GMTICKET_DELETETICKET" STATUS_LOGGEDIN PROCESS_THREADUNSAFE "HandleGMTicketDeleteOpcode";
  DEFINE_SERVER_OPCODE_HANDLER 0x218 "SMSG_GMTICKET_DELETETICKET" STATUS_NEVER;
  DEFINE_SERVER_OPCODE_HANDLER 0x219 "SMSG_CHAT_WRONG_FACTION" STATUS_NEVER;
  DEFINE_HANDLER 0x21A "CMSG_GMTICKET_SYSTEMSTATUS" STATUS_LOGGEDIN PROCESS_THREADUNSAFE "HandleGMTicketSystemStatusOpcode";
  DEFINE_SERVER_OPCODE_HANDLER 0x21B "SMSG_GMTICKET_SYSTEMSTATUS" STATUS_NEVER;
  DEFINE_HANDLER 0x21C "CMSG_SPIRIT_HEALER_ACTIVATE" STATUS_LOGGEDIN PROCESS_THREADUNSAFE "HandleSpiritHealerActivateOpcode";
  DEFINE_HANDLER 0x21D "CMSG_SET_STAT_CHEAT" STATUS_NEVER PROCESS_INPLACE "Handle_NULL";
  DEFINE_SERVER_OPCODE_HANDLER 0x21E "SMSG_QUEST_FORCE_REMOVE" STATUS_NEVER;
  DEFINE_HANDLER 0x21F "CMSG_SKILL_BUY_STEP" STATUS_NEVER PROCESS_INPLACE "Handle_NULL";
  DEFINE_HANDLER 0x220 "CMSG_SKILL_BUY_RANK" STATUS_NEVER PROCESS_INPLACE "Handle_NULL";
  DEFINE_HANDLER 0x221 "CMSG_XP_CHEAT" STATUS_NEVER PROCESS_INPLACE "Handle_NULL";
  DEFINE_SERVER_OPCODE_HANDLER 0x222 "SMSG_SPIRIT_HEALER_CONFIRM" STATUS_NEVER;
  DEFINE_HANDLER 0x223 "CMSG_CHARACTER_POINT_CHEAT" STATUS_NEVER PROCESS_INPLACE "Handle_NULL";
  DEFINE_SERVER_OPCODE_HANDLER 0x224 "SMSG_GOSSIP_POI" STATUS_NEVER;
  DEFINE_HANDLER 0x225 "CMSG_CHAT_IGNORED" STATUS_LOGGEDIN PROCESS_THREADUNSAFE "HandleChatIgnoredOpcode";
  DEFINE_HANDLER 0x226 "CMSG_GM_VISION" STATUS_NEVER PROCESS_INPLACE "Handle_NULL";
  DEFINE_HANDLER 0x227 "CMSG_SERVER_COMMAND" STATUS_NEVER PROCESS_INPLACE "Handle_NULL";
  DEFINE_HANDLER 0x228 "CMSG_GM_SILENCE" STATUS_NEVER PROCESS_INPLACE "Handle_NULL";
  DEFINE_HANDLER 0x229 "CMSG_GM_REVEALTO" STATUS_NEVER PROCESS_INPLACE "Handle_NULL";
  DEFINE_HANDLER 0x22A "CMSG_GM_RESURRECT" STATUS_NEVER PROCESS_INPLACE "Handle_NULL";
  DEFINE_HANDLER 0x22B "CMSG_GM_SUMMONMOB" STATUS_NEVER PROCESS_INPLACE "Handle_NULL";
  DEFINE_HANDLER 0x22C "CMSG_GM_MOVECORPSE" STATUS_NEVER PROCESS_INPLACE "Handle_NULL";
  DEFINE_HANDLER 0x22D "CMSG_GM_FREEZE" STATUS_NEVER PROCESS_INPLACE "Handle_NULL";
  DEFINE_HANDLER 0x22E "CMSG_GM_UBERINVIS" STATUS_NEVER PROCESS_INPLACE "Handle_NULL";
  DEFINE_HANDLER 0x22F "CMSG_GM_REQUEST_PLAYER_INFO" STATUS_NEVER PROCESS_INPLACE "Handle_NULL";
  DEFINE_SERVER_OPCODE_HANDLER 0x230 "SMSG_GM_PLAYER_INFO" STATUS_NEVER;
  DEFINE_HANDLER 0x231 "CMSG_GUILD_RANK" STATUS_LOGGEDIN PROCESS_THREADUNSAFE "HandleGuildRankOpcode";
  DEFINE_HANDLER 0x232 "CMSG_GUILD_ADD_RANK" STATUS_LOGGEDIN PROCESS_THREADUNSAFE "HandleGuildAddRankOpcode";
  DEFINE_HANDLER 0x233 "CMSG_GUILD_DEL_RANK" STATUS_LOGGEDIN PROCESS_THREADUNSAFE "HandleGuildDelRankOpcode";
  DEFINE_HANDLER 0x234 "CMSG_GUILD_SET_PUBLIC_NOTE" STATUS_LOGGEDIN PROCESS_THREADUNSAFE "HandleGuildSetPublicNoteOpcode";
  DEFINE_HANDLER 0x235 "CMSG_GUILD_SET_OFFICER_NOTE" STATUS_LOGGEDIN PROCESS_THREADUNSAFE "HandleGuildSetOfficerNoteOpcode";
  DEFINE_SERVER_OPCODE_HANDLER 0x236 "SMSG_LOGIN_VERIFY_WORLD" STATUS_NEVER;
  DEFINE_HANDLER 0x237 "CMSG_CLEAR_EXPLORATION" STATUS_NEVER PROCESS_INPLACE "Handle_NULL";
  DEFINE_HANDLER 0x238 "CMSG_SEND_MAIL" STATUS_LOGGEDIN PROCESS_THREADUNSAFE "HandleSendMail";
  DEFINE_SERVER_OPCODE_HANDLER 0x239 "SMSG_SEND_MAIL_RESULT" STATUS_NEVER;
  DEFINE_HANDLER 0x23A "CMSG_GET_MAIL_LIST" STATUS_LOGGEDIN PROCESS_THREADUNSAFE "HandleGetMailList";
  DEFINE_SERVER_OPCODE_HANDLER 0x23B "SMSG_MAIL_LIST_RESULT" STATUS_NEVER;
  DEFINE_HANDLER 0x23C "CMSG_BATTLEFIELD_LIST" STATUS_LOGGEDIN PROCESS_THREADUNSAFE "HandleBattlefieldListOpcode";
  DEFINE_SERVER_OPCODE_HANDLER 0x23D "SMSG_BATTLEFIELD_LIST" STATUS_NEVER;
  DEFINE_HANDLER 0x23E "CMSG_BATTLEFIELD_JOIN" STATUS_NEVER PROCESS_INPLACE "Handle_NULL";
  DEFINE_SERVER_OPCODE_HANDLER 0x23F "SMSG_FORCE_SET_VEHICLE_REC_ID" STATUS_NEVER;
  DEFINE_HANDLER 0x240 "CMSG_SET_VEHICLE_REC_ID_ACK" STATUS_NEVER PROCESS_INPLACE "Handle_NULL";
  DEFINE_HANDLER 0x241 "CMSG_TAXICLEARNODE" STATUS_NEVER PROCESS_INPLACE "Handle_NULL";
  DEFINE_HANDLER 0x242 "CMSG_TAXIENABLENODE" STATUS_NEVER PROCESS_INPLACE "Handle_NULL";
  DEFINE_HANDLER 0x243 "CMSG_ITEM_TEXT_QUERY" STATUS_LOGGEDIN PROCESS_INPLACE "HandleItemTextQuery";
  DEFINE_SERVER_OPCODE_HANDLER 0x244 "SMSG_ITEM_TEXT_QUERY_RESPONSE" STATUS_NEVER;
  DEFINE_HANDLER 0x245 "CMSG_MAIL_TAKE_MONEY" STATUS_LOGGEDIN PROCESS_THREADUNSAFE "HandleMailTakeMoney";
  DEFINE_HANDLER 0x246 "CMSG_MAIL_TAKE_ITEM" STATUS_LOGGEDIN PROCESS_THREADUNSAFE "HandleMailTakeItem";
  DEFINE_HANDLER 0x247 "CMSG_MAIL_MARK_AS_READ" STATUS_LOGGEDIN PROCESS_THREADUNSAFE "HandleMailMarkAsRead";
  DEFINE_HANDLER 0x248 "CMSG_MAIL_RETURN_TO_SENDER" STATUS_LOGGEDIN PROCESS_THREADUNSAFE "HandleMailReturnToSender";
  DEFINE_HANDLER 0x249 "CMSG_MAIL_DELETE" STATUS_LOGGEDIN PROCESS_THREADUNSAFE "HandleMailDelete";
  DEFINE_HANDLER 0x24A "CMSG_MAIL_CREATE_TEXT_ITEM" STATUS_LOGGEDIN PROCESS_THREADUNSAFE "HandleMailCreateTextItem";
  DEFINE_SERVER_OPCODE_HANDLER 0x24B "SMSG_SPELLLOGMISS" STATUS_NEVER;
  DEFINE_SERVER_OPCODE_HANDLER 0x24C "SMSG_SPELLLOGEXECUTE" STATUS_NEVER;
  DEFINE_SERVER_OPCODE_HANDLER 0x24D "SMSG_DEBUGAURAPROC" STATUS_NEVER;
  DEFINE_SERVER_OPCODE_HANDLER 0x24E "SMSG_PERIODICAURALOG" STATUS_NEVER;
  DEFINE_SERVER_OPCODE_HANDLER 0x24F "SMSG_SPELLDAMAGESHIELD" STATUS_NEVER;
  DEFINE_SERVER_OPCODE_HANDLER 0x250 "SMSG_SPELLNONMELEEDAMAGELOG" STATUS_NEVER;
  DEFINE_HANDLER 0x251 "CMSG_LEARN_TALENT" STATUS_LOGGEDIN PROCESS_INPLACE "HandleLearnTalentOpcode";
  DEFINE_SERVER_OPCODE_HANDLER 0x252 "SMSG_RESURRECT_FAILED" STATUS_NEVER;
  DEFINE_HANDLER 0x253 "CMSG_TOGGLE_PVP" STATUS_LOGGEDIN PROCESS_THREADUNSAFE "HandleTogglePvP";
  DEFINE_SERVER_OPCODE_HANDLER 0x254 "SMSG_ZONE_UNDER_ATTACK" STATUS_NEVER;
  DEFINE_HANDLER 0x255 "MSG_AUCTION_HELLO" STATUS_LOGGEDIN PROCESS_THREADUNSAFE "HandleAuctionHelloOpcode";
  DEFINE_HANDLER 0x256 "CMSG_AUCTION_SELL_ITEM" STATUS_LOGGEDIN PROCESS_THREADUNSAFE "HandleAuctionSellItem";
  DEFINE_HANDLER 0x257 "CMSG_AUCTION_REMOVE_ITEM" STATUS_LOGGEDIN PROCESS_THREADUNSAFE "HandleAuctionRemoveItem";
  DEFINE_HANDLER 0x258 "CMSG_AUCTION_LIST_ITEMS" STATUS_LOGGEDIN PROCESS_THREADSAFE "HandleAuctionListItems";
  DEFINE_HANDLER 0x259 "CMSG_AUCTION_LIST_OWNER_ITEMS" STATUS_LOGGEDIN PROCESS_THREADSAFE "HandleAuctionListOwnerItems";
  DEFINE_HANDLER 0x25A "CMSG_AUCTION_PLACE_BID" STATUS_LOGGEDIN PROCESS_THREADUNSAFE "HandleAuctionPlaceBid";
  DEFINE_SERVER_OPCODE_HANDLER 0x25B "SMSG_AUCTION_COMMAND_RESULT" STATUS_NEVER;
  DEFINE_SERVER_OPCODE_HANDLER 0x25C "SMSG_AUCTION_LIST_RESULT" STATUS_NEVER;
  DEFINE_SERVER_OPCODE_HANDLER 0x25D "SMSG_AUCTION_OWNER_LIST_RESULT" STATUS_NEVER;
  DEFINE_SERVER_OPCODE_HANDLER 0x25E "SMSG_AUCTION_BIDDER_NOTIFICATION" STATUS_NEVER;
  DEFINE_SERVER_OPCODE_HANDLER 0x25F "SMSG_AUCTION_OWNER_NOTIFICATION" STATUS_NEVER;
  DEFINE_SERVER_OPCODE_HANDLER 0x260 "SMSG_PROCRESIST" STATUS_NEVER;
  DEFINE_SERVER_OPCODE_HANDLER 0x261 "SMSG_COMBAT_EVENT_FAILED" STATUS_NEVER;
  DEFINE_SERVER_OPCODE_HANDLER 0x262 "SMSG_DISPEL_FAILED" STATUS_NEVER;
  DEFINE_SERVER_OPCODE_HANDLER 0x263 "SMSG_SPELLORDAMAGE_IMMUNE" STATUS_NEVER;
  DEFINE_HANDLER 0x264 "CMSG_AUCTION_LIST_BIDDER_ITEMS" STATUS_LOGGEDIN PROCESS_THREADSAFE "HandleAuctionListBidderItems";
  DEFINE_SERVER_OPCODE_HANDLER 0x265 "SMSG_AUCTION_BIDDER_LIST_RESULT" STATUS_NEVER;
  DEFINE_SERVER_OPCODE_HANDLER 0x266 "SMSG_SET_FLAT_SPELL_MODIFIER" STATUS_NEVER;
  DEFINE_SERVER_OPCODE_HANDLER 0x267 "SMSG_SET_PCT_SPELL_MODIFIER" STATUS_NEVER;
  DEFINE_HANDLER 0x268 "CMSG_SET_AMMO" STATUS_LOGGEDIN PROCESS_INPLACE "HandleSetAmmoOpcode";
  DEFINE_SERVER_OPCODE_HANDLER 0x269 "SMSG_CORPSE_RECLAIM_DELAY" STATUS_NEVER;
  DEFINE_HANDLER 0x26A "CMSG_SET_ACTIVE_MOVER" STATUS_LOGGEDIN PROCESS_THREADUNSAFE "HandleSetActiveMoverOpcode";
  DEFINE_HANDLER 0x26B "CMSG_PET_CANCEL_AURA" STATUS_LOGGEDIN PROCESS_INPLACE "HandlePetCancelAuraOpcode";
  DEFINE_HANDLER 0x26C "CMSG_PLAYER_AI_CHEAT" STATUS_NEVER PROCESS_INPLACE "Handle_NULL";
  DEFINE_HANDLER 0x26D "CMSG_CANCEL_AUTO_REPEAT_SPELL" STATUS_LOGGEDIN PROCESS_INPLACE "HandleCancelAutoRepeatSpellOpcode";
  DEFINE_HANDLER 0x26E "MSG_GM_ACCOUNT_ONLINE" STATUS_NEVER PROCESS_INPLACE "Handle_NULL";
  DEFINE_HANDLER 0x26F "MSG_LIST_STABLED_PETS" STATUS_LOGGEDIN PROCESS_THREADUNSAFE "HandleListStabledPetsOpcode";
  DEFINE_HANDLER 0x270 "CMSG_STABLE_PET" STATUS_LOGGEDIN PROCESS_THREADUNSAFE "HandleStablePet";
  DEFINE_HANDLER 0x271 "CMSG_UNSTABLE_PET" STATUS_LOGGEDIN PROCESS_THREADUNSAFE "HandleUnstablePet";
  DEFINE_HANDLER 0x272 "CMSG_BUY_STABLE_SLOT" STATUS_LOGGEDIN PROCESS_THREADUNSAFE "HandleBuyStableSlot";
  DEFINE_SERVER_OPCODE_HANDLER 0x273 "SMSG_STABLE_RESULT" STATUS_NEVER;
  DEFINE_HANDLER 0x274 "CMSG_STABLE_REVIVE_PET" STATUS_LOGGEDIN PROCESS_THREADUNSAFE "HandleStableRevivePet";
  DEFINE_HANDLER 0x275 "CMSG_STABLE_SWAP_PET" STATUS_LOGGEDIN PROCESS_THREADUNSAFE "HandleStableSwapPet";
  DEFINE_HANDLER 0x276 "MSG_QUEST_PUSH_RESULT" STATUS_LOGGEDIN PROCESS_THREADUNSAFE "HandleQuestPushResult";
  DEFINE_SERVER_OPCODE_HANDLER 0x277 "SMSG_PLAY_MUSIC" STATUS_NEVER;
  DEFINE_SERVER_OPCODE_HANDLER 0x278 "SMSG_PLAY_OBJECT_SOUND" STATUS_NEVER;
  DEFINE_HANDLER 0x279 "CMSG_REQUEST_PET_INFO" STATUS_LOGGEDIN PROCESS_THREADUNSAFE "HandleRequestPetInfo";
  DEFINE_HANDLER 0x27A "CMSG_FAR_SIGHT" STATUS_LOGGEDIN PROCESS_THREADUNSAFE "HandleFarSightOpcode";
  DEFINE_SERVER_OPCODE_HANDLER 0x27B "SMSG_SPELLDISPELLOG" STATUS_NEVER;
  DEFINE_SERVER_OPCODE_HANDLER 0x27C "SMSG_DAMAGE_CALC_LOG" STATUS_NEVER;
  DEFINE_HANDLER 0x27D "CMSG_ENABLE_DAMAGE_LOG" STATUS_NEVER PROCESS_INPLACE "Handle_NULL";
  DEFINE_HANDLER 0x27E "CMSG_GROUP_CHANGE_SUB_GROUP" STATUS_LOGGEDIN PROCESS_THREADUNSAFE "HandleGroupChangeSubGroupOpcode";
  DEFINE_HANDLER 0x27F "CMSG_REQUEST_PARTY_MEMBER_STATS" STATUS_LOGGEDIN PROCESS_THREADUNSAFE "HandleRequestPartyMemberStatsOpcode";
  DEFINE_HANDLER 0x280 "CMSG_GROUP_SWAP_SUB_GROUP" STATUS_LOGGEDIN PROCESS_THREADUNSAFE "HandleGroupSwapSubGroupOpcode";
  DEFINE_HANDLER 0x281 "CMSG_RESET_FACTION_CHEAT" STATUS_NEVER PROCESS_INPLACE "Handle_NULL";
  DEFINE_HANDLER 0x282 "CMSG_AUTOSTORE_BANK_ITEM" STATUS_LOGGEDIN PROCESS_INPLACE "HandleAutoStoreBankItemOpcode";
  DEFINE_HANDLER 0x283 "CMSG_AUTOBANK_ITEM" STATUS_LOGGEDIN PROCESS_INPLACE "HandleAutoBankItemOpcode";
  DEFINE_HANDLER 0x284 "MSG_QUERY_NEXT_MAIL_TIME" STATUS_LOGGEDIN PROCESS_THREADUNSAFE "HandleQueryNextMailTime";
  DEFINE_SERVER_OPCODE_HANDLER 0x285 "SMSG_RECEIVED_MAIL" STATUS_NEVER;
  DEFINE_SERVER_OPCODE_HANDLER 0x286 "SMSG_RAID_GROUP_ONLY" STATUS_NEVER;
  DEFINE_HANDLER 0x287 "CMSG_SET_DURABILITY_CHEAT" STATUS_NEVER PROCESS_INPLACE "Handle_NULL";
  DEFINE_HANDLER 0x288 "CMSG_SET_PVP_RANK_CHEAT" STATUS_NEVER PROCESS_INPLACE "Handle_NULL";
  DEFINE_HANDLER 0x289 "CMSG_ADD_PVP_MEDAL_CHEAT" STATUS_NEVER PROCESS_INPLACE "Handle_NULL";
  DEFINE_HANDLER 0x28A "CMSG_DEL_PVP_MEDAL_CHEAT" STATUS_NEVER PROCESS_INPLACE "Handle_NULL";
  DEFINE_HANDLER 0x28B "CMSG_SET_PVP_TITLE" STATUS_NEVER PROCESS_INPLACE "Handle_NULL";
  DEFINE_SERVER_OPCODE_HANDLER 0x28C "SMSG_PVP_CREDIT" STATUS_NEVER;
  DEFINE_SERVER_OPCODE_HANDLER 0x28D "SMSG_AUCTION_REMOVED_NOTIFICATION" STATUS_NEVER;
  DEFINE_HANDLER 0x28E "CMSG_GROUP_RAID_CONVERT" STATUS_LOGGEDIN PROCESS_THREADUNSAFE "HandleGroupRaidConvertOpcode";
  DEFINE_HANDLER 0x28F "CMSG_GROUP_ASSISTANT_LEADER" STATUS_LOGGEDIN PROCESS_THREADUNSAFE "HandleGroupAssistantLeaderOpcode";
  DEFINE_HANDLER 0x290 "CMSG_BUYBACK_ITEM" STATUS_LOGGEDIN PROCESS_INPLACE "HandleBuybackItem";
  DEFINE_SERVER_OPCODE_HANDLER 0x291 "SMSG_CHAT_SERVER_MESSAGE" STATUS_NEVER;
  DEFINE_HANDLER 0x292 "CMSG_SET_SAVED_INSTANCE_EXTEND" STATUS_LOGGEDIN PROCESS_THREADUNSAFE "HandleSetSavedInstanceExtend";
  DEFINE_SERVER_OPCODE_HANDLER 0x293 "SMSG_LFG_OFFER_CONTINUE" STATUS_NEVER;
  DEFINE_HANDLER 0x294 "CMSG_TEST_DROP_RATE" STATUS_NEVER PROCESS_INPLACE "Handle_NULL";
  DEFINE_SERVER_OPCODE_HANDLER 0x295 "SMSG_TEST_DROP_RATE_RESULT" STATUS_NEVER;
  DEFINE_HANDLER 0x296 "CMSG_LFG_GET_STATUS" STATUS_LOGGEDIN PROCESS_THREADUNSAFE "HandleLfgGetStatus";
  DEFINE_SERVER_OPCODE_HANDLER 0x297 "SMSG_SHOW_MAILBOX" STATUS_NEVER;
  DEFINE_SERVER_OPCODE_HANDLER 0x298 "SMSG_RESET_RANGED_COMBAT_TIMER" STATUS_NEVER;
  DEFINE_SERVER_OPCODE_HANDLER 0x299 "SMSG_CHAT_NOT_IN_PARTY" STATUS_NEVER;
  DEFINE_SERVER_OPCODE_HANDLER 0x29A "CMSG_GMTICKETSYSTEM_TOGGLE" STATUS_NEVER;
  DEFINE_HANDLER 0x29B "CMSG_CANCEL_GROWTH_AURA" STATUS_LOGGEDIN PROCESS_THREADUNSAFE "HandleCancelGrowthAuraOpcode";
  DEFINE_SERVER_OPCODE_HANDLER 0x29C "SMSG_CANCEL_AUTO_REPEAT" STATUS_NEVER;
  DEFINE_SERVER_OPCODE_HANDLER 0x29D "SMSG_STANDSTATE_UPDATE" STATUS_NEVER;
  DEFINE_SERVER_OPCODE_HANDLER 0x29E "SMSG_LOOT_ALL_PASSED" STATUS_NEVER;
  DEFINE_SERVER_OPCODE_HANDLER 0x29F "SMSG_LOOT_ROLL_WON" STATUS_NEVER;
  DEFINE_HANDLER 0x2A0 "CMSG_LOOT_ROLL" STATUS_LOGGEDIN PROCESS_THREADUNSAFE "HandleLootRoll";
  DEFINE_SERVER_OPCODE_HANDLER 0x2A1 "SMSG_LOOT_START_ROLL" STATUS_NEVER;
  DEFINE_SERVER_OPCODE_HANDLER 0x2A2 "SMSG_LOOT_ROLL" STATUS_NEVER;
  DEFINE_HANDLER 0x2A3 "CMSG_LOOT_MASTER_GIVE" STATUS_LOGGEDIN PROCESS_THREADSAFE "HandleLootMasterGiveOpcode";
  DEFINE_SERVER_OPCODE_HANDLER 0x2A4 "SMSG_LOOT_MASTER_LIST" STATUS_NEVER;
  DEFINE_SERVER_OPCODE_HANDLER 0x2A5 "SMSG_SET_FORCED_REACTIONS" STATUS_NEVER;
  DEFINE_SERVER_OPCODE_HANDLER 0x2A6 "SMSG_SPELL_FAILED_OTHER" STATUS_NEVER;
  DEFINE_SERVER_OPCODE_HANDLER 0x2A7 "SMSG_GAMEOBJECT_RESET_STATE" STATUS_NEVER;
  DEFINE_HANDLER 0x2A8 "CMSG_REPAIR_ITEM" STATUS_LOGGEDIN PROCESS_INPLACE "HandleRepairItemOpcode";
  DEFINE_SERVER_OPCODE_HANDLER 0x2A9 "SMSG_CHAT_PLAYER_NOT_FOUND" STATUS_NEVER;
  DEFINE_HANDLER 0x2AA "MSG_TALENT_WIPE_CONFIRM" STATUS_LOGGEDIN PROCESS_INPLACE "HandleTalentWipeConfirmOpcode";
  DEFINE_SERVER_OPCODE_HANDLER 0x2AB "SMSG_SUMMON_REQUEST" STATUS_NEVER;
  DEFINE_HANDLER 0x2AC "CMSG_SUMMON_RESPONSE" STATUS_LOGGEDIN PROCESS_THREADUNSAFE "HandleSummonResponseOpcode";
  DEFINE_HANDLER 0x2AD "MSG_DEV_SHOWLABEL" STATUS_NEVER PROCESS_INPLACE "Handle_NULL";
  DEFINE_SERVER_OPCODE_HANDLER 0x2AE "SMSG_MONSTER_MOVE_TRANSPORT" STATUS_NEVER;
  DEFINE_SERVER_OPCODE_HANDLER 0x2AF "SMSG_PET_BROKEN" STATUS_NEVER;
  DEFINE_HANDLER 0x2B0 "MSG_MOVE_FEATHER_FALL" STATUS_NEVER PROCESS_INPLACE "Handle_NULL";
  DEFINE_HANDLER 0x2B1 "MSG_MOVE_WATER_WALK" STATUS_NEVER PROCESS_INPLACE "Handle_NULL";
  DEFINE_HANDLER 0x2B2 "CMSG_SERVER_BROADCAST" STATUS_NEVER PROCESS_INPLACE "Handle_NULL";
  DEFINE_HANDLER 0x2B3 "CMSG_SELF_RES" STATUS_LOGGEDIN PROCESS_THREADSAFE "HandleSelfResOpcode";
  DEFINE_SERVER_OPCODE_HANDLER 0x2B4 "SMSG_FEIGN_DEATH_RESISTED" STATUS_NEVER;
  DEFINE_HANDLER 0x2B5 "CMSG_RUN_SCRIPT" STATUS_NEVER PROCESS_INPLACE "Handle_NULL";
  DEFINE_SERVER_OPCODE_HANDLER 0x2B6 "SMSG_SCRIPT_MESSAGE" STATUS_NEVER;
  DEFINE_SERVER_OPCODE_HANDLER 0x2B7 "SMSG_DUEL_COUNTDOWN" STATUS_NEVER;
  DEFINE_SERVER_OPCODE_HANDLER 0x2B8 "SMSG_AREA_TRIGGER_MESSAGE" STATUS_NEVER;
  DEFINE_HANDLER 0x2B9 "CMSG_SHOWING_HELM" STATUS_LOGGEDIN PROCESS_INPLACE "HandleShowingHelmOpcode";
  DEFINE_HANDLER 0x2BA "CMSG_SHOWING_CLOAK" STATUS_LOGGEDIN PROCESS_INPLACE "HandleShowingCloakOpcode";
  DEFINE_SERVER_OPCODE_HANDLER 0x2BB "SMSG_LFG_ROLE_CHOSEN" STATUS_NEVER;
  DEFINE_SERVER_OPCODE_HANDLER 0x2BC "SMSG_PLAYER_SKINNED" STATUS_NEVER;
  DEFINE_SERVER_OPCODE_HANDLER 0x2BD "SMSG_DURABILITY_DAMAGE_DEATH" STATUS_NEVER;
  DEFINE_HANDLER 0x2BE "CMSG_SET_EXPLORATION" STATUS_NEVER PROCESS_INPLACE "Handle_NULL";
  DEFINE_HANDLER 0x2BF "CMSG_SET_ACTIONBAR_TOGGLES" STATUS_AUTHED PROCESS_THREADUNSAFE "HandleSetActionBarToggles";
  DEFINE_HANDLER 0x2C0 "UMSG_DELETE_GUILD_CHARTER" STATUS_NEVER PROCESS_INPLACE "Handle_NULL";
  DEFINE_HANDLER 0x2C1 "MSG_PETITION_RENAME" STATUS_LOGGEDIN PROCESS_THREADSAFE "HandlePetitionRenameOpcode";
  DEFINE_SERVER_OPCODE_HANDLER 0x2C2 "SMSG_INIT_WORLD_STATES" STATUS_NEVER;
  DEFINE_SERVER_OPCODE_HANDLER 0x2C3 "SMSG_UPDATE_WORLD_STATE" STATUS_NEVER;
  DEFINE_HANDLER 0x2C4 "CMSG_ITEM_NAME_QUERY" STATUS_LOGGEDIN PROCESS_INPLACE "HandleItemNameQueryOpcode";
  DEFINE_SERVER_OPCODE_HANDLER 0x2C5 "SMSG_ITEM_NAME_QUERY_RESPONSE" STATUS_NEVER;
  DEFINE_SERVER_OPCODE_HANDLER 0x2C6 "SMSG_PET_ACTION_FEEDBACK" STATUS_NEVER;
  DEFINE_HANDLER 0x2C7 "CMSG_CHAR_RENAME" STATUS_AUTHED PROCESS_THREADUNSAFE "HandleCharRenameOpcode";
  DEFINE_SERVER_OPCODE_HANDLER 0x2C8 "SMSG_CHAR_RENAME" STATUS_NEVER;
  DEFINE_HANDLER 0x2C9 "CMSG_MOVE_SPLINE_DONE" STATUS_LOGGEDIN PROCESS_THREADSAFE "HandleMoveSplineDoneOpcode";
  DEFINE_HANDLER 0x2CA "CMSG_MOVE_FALL_RESET" STATUS_LOGGEDIN PROCESS_THREADSAFE "HandleMovementOpcodes";
  DEFINE_SERVER_OPCODE_HANDLER 0x2CB "SMSG_INSTANCE_SAVE_CREATED" STATUS_NEVER;
  DEFINE_SERVER_OPCODE_HANDLER 0x2CC "SMSG_RAID_INSTANCE_INFO" STATUS_NEVER;
  DEFINE_HANDLER 0x2CD "CMSG_REQUEST_RAID_INFO" STATUS_LOGGEDIN PROCESS_THREADUNSAFE "HandleRequestRaidInfoOpcode";
  DEFINE_HANDLER 0x2CE "CMSG_MOVE_TIME_SKIPPED" STATUS_LOGGEDIN PROCESS_THREADSAFE "HandleMoveTimeSkippedOpcode";
  DEFINE_HANDLER 0x2CF "CMSG_MOVE_FEATHER_FALL_ACK" STATUS_LOGGEDIN PROCESS_THREADSAFE "HandleFeatherFallAck";
  DEFINE_HANDLER 0x2D0 "CMSG_MOVE_WATER_WALK_ACK" STATUS_LOGGEDIN PROCESS_THREADSAFE "HandleMoveWaterWalkAck";
  DEFINE_HANDLER 0x2D1 "CMSG_MOVE_NOT_ACTIVE_MOVER" STATUS_LOGGEDIN PROCESS_THREADSAFE "HandleMoveNotActiveMover";
  DEFINE_SERVER_OPCODE_HANDLER 0x2D2 "SMSG_PLAY_SOUND" STATUS_NEVER;
  DEFINE_HANDLER 0x2D3 "CMSG_BATTLEFIELD_STATUS" STATUS_LOGGEDIN PROCESS_THREADUNSAFE "HandleBattlefieldStatusOpcode";
  DEFINE_SERVER_OPCODE_HANDLER 0x2D4 "SMSG_BATTLEFIELD_STATUS" STATUS_NEVER;
  DEFINE_HANDLER 0x2D5 "CMSG_BATTLEFIELD_PORT" STATUS_LOGGEDIN PROCESS_THREADUNSAFE "HandleBattleFieldPortOpcode";
  DEFINE_HANDLER 0x2D6 "MSG_INSPECT_HONOR_STATS" STATUS_LOGGEDIN PROCESS_INPLACE "HandleInspectHonorStatsOpcode";
  DEFINE_HANDLER 0x2D7 "CMSG_BATTLEMASTER_HELLO" STATUS_LOGGEDIN PROCESS_THREADUNSAFE "HandleBattlemasterHelloOpcode";
  DEFINE_HANDLER 0x2D8 "CMSG_MOVE_START_SWIM_CHEAT" STATUS_NEVER PROCESS_INPLACE "Handle_NULL";
  DEFINE_HANDLER 0x2D9 "CMSG_MOVE_STOP_SWIM_CHEAT" STATUS_NEVER PROCESS_INPLACE "Handle_NULL";
  DEFINE_SERVER_OPCODE_HANDLER 0x2DA "SMSG_FORCE_WALK_SPEED_CHANGE" STATUS_NEVER;
  DEFINE_HANDLER 0x2DB "CMSG_FORCE_WALK_SPEED_CHANGE_ACK" STATUS_LOGGEDIN PROCESS_THREADSAFE "HandleForceSpeedChangeAck";
  DEFINE_SERVER_OPCODE_HANDLER 0x2DC "SMSG_FORCE_SWIM_BACK_SPEED_CHANGE" STATUS_NEVER;
  DEFINE_HANDLER 0x2DD "CMSG_FORCE_SWIM_BACK_SPEED_CHANGE_ACK" STATUS_LOGGEDIN PROCESS_THREADSAFE "HandleForceSpeedChangeAck";
  DEFINE_SERVER_OPCODE_HANDLER 0x2DE "SMSG_FORCE_TURN_RATE_CHANGE" STATUS_NEVER;
  DEFINE_HANDLER 0x2DF "CMSG_FORCE_TURN_RATE_CHANGE_ACK" STATUS_LOGGEDIN PROCESS_THREADSAFE "HandleForceSpeedChangeAck";
  DEFINE_HANDLER 0x2E0 "MSG_PVP_LOG_DATA" STATUS_LOGGEDIN PROCESS_THREADUNSAFE "HandlePVPLogDataOpcode";
  DEFINE_HANDLER 0x2E1 "CMSG_LEAVE_BATTLEFIELD" STATUS_LOGGEDIN PROCESS_THREADUNSAFE "HandleBattlefieldLeaveOpcode";
  DEFINE_HANDLER 0x2E2 "CMSG_AREA_SPIRIT_HEALER_QUERY" STATUS_LOGGEDIN PROCESS_THREADUNSAFE "HandleAreaSpiritHealerQueryOpcode";
  DEFINE_HANDLER 0x2E3 "CMSG_AREA_SPIRIT_HEALER_QUEUE" STATUS_LOGGEDIN PROCESS_THREADUNSAFE "HandleAreaSpiritHealerQueueOpcode";
  DEFINE_SERVER_OPCODE_HANDLER 0x2E4 "SMSG_AREA_SPIRIT_HEALER_TIME" STATUS_NEVER;
  DEFINE_HANDLER 0x2E5 "CMSG_GM_UNTEACH" STATUS_NEVER PROCESS_INPLACE "Handle_NULL";
  DEFINE_SERVER_OPCODE_HANDLER 0x2E6 "SMSG_WARDEN_DATA" STATUS_NEVER;
  DEFINE_HANDLER 0x2E7 "CMSG_WARDEN_DATA" STATUS_AUTHED PROCESS_THREADSAFE "HandleWardenDataOpcode";
  DEFINE_SERVER_OPCODE_HANDLER 0x2E8 "SMSG_GROUP_JOINED_BATTLEGROUND" STATUS_NEVER;
  DEFINE_HANDLER 0x2E9 "MSG_BATTLEGROUND_PLAYER_POSITIONS" STATUS_LOGGEDIN PROCESS_THREADUNSAFE "HandleBattlegroundPlayerPositionsOpcode";
  DEFINE_HANDLER 0x2EA "CMSG_PET_STOP_ATTACK" STATUS_LOGGEDIN PROCESS_INPLACE "HandlePetStopAttack";
  DEFINE_SERVER_OPCODE_HANDLER 0x2EB "SMSG_BINDER_CONFIRM" STATUS_NEVER;
  DEFINE_SERVER_OPCODE_HANDLER 0x2EC "SMSG_BATTLEGROUND_PLAYER_JOINED" STATUS_NEVER;
  DEFINE_SERVER_OPCODE_HANDLER 0x2ED "SMSG_BATTLEGROUND_PLAYER_LEFT" STATUS_NEVER;
  DEFINE_HANDLER 0x2EE "CMSG_BATTLEMASTER_JOIN" STATUS_LOGGEDIN PROCESS_THREADUNSAFE "HandleBattlemasterJoinOpcode";
  DEFINE_SERVER_OPCODE_HANDLER 0x2EF "SMSG_ADDON_INFO" STATUS_NEVER;
  DEFINE_HANDLER 0x2F0 "CMSG_PET_UNLEARN" STATUS_NEVER PROCESS_INPLACE "Handle_NULL";
  DEFINE_SERVER_OPCODE_HANDLER 0x2F1 "SMSG_PET_UNLEARN_CONFIRM" STATUS_NEVER;
  DEFINE_SERVER_OPCODE_HANDLER 0x2F2 "SMSG_PARTY_MEMBER_STATS_FULL" STATUS_NEVER;
  DEFINE_HANDLER 0x2F3 "CMSG_PET_SPELL_AUTOCAST" STATUS_LOGGEDIN PROCESS_INPLACE "HandlePetSpellAutocastOpcode";
  DEFINE_SERVER_OPCODE_HANDLER 0x2F4 "SMSG_WEATHER" STATUS_NEVER;
  DEFINE_SERVER_OPCODE_HANDLER 0x2F5 "SMSG_PLAY_TIME_WARNING" STATUS_NEVER;
  DEFINE_SERVER_OPCODE_HANDLER 0x2F6 "SMSG_MINIGAME_SETUP" STATUS_NEVER;
  DEFINE_SERVER_OPCODE_HANDLER 0x2F7 "SMSG_MINIGAME_STATE" STATUS_NEVER;
  DEFINE_HANDLER 0x2F8 "CMSG_MINIGAME_MOVE" STATUS_NEVER PROCESS_INPLACE "Handle_NULL";
  DEFINE_SERVER_OPCODE_HANDLER 0x2F9 "SMSG_MINIGAME_MOVE_FAILED" STATUS_NEVER;
  DEFINE_SERVER_OPCODE_HANDLER 0x2FA "SMSG_RAID_INSTANCE_MESSAGE" STATUS_NEVER;
  DEFINE_SERVER_OPCODE_HANDLER 0x2FB "SMSG_COMPRESSED_MOVES" STATUS_NEVER;
  DEFINE_HANDLER 0x2FC "CMSG_GUILD_INFO_TEXT" STATUS_LOGGEDIN PROCESS_THREADUNSAFE "HandleGuildChangeInfoTextOpcode";
  DEFINE_SERVER_OPCODE_HANDLER 0x2FD "SMSG_CHAT_RESTRICTED" STATUS_NEVER;
  DEFINE_SERVER_OPCODE_HANDLER 0x2FE "SMSG_SPLINE_SET_RUN_SPEED" STATUS_NEVER;
  DEFINE_SERVER_OPCODE_HANDLER 0x2FF "SMSG_SPLINE_SET_RUN_BACK_SPEED" STATUS_NEVER
].

Definition manifest_3xx : list ManifestEntry := [
  DEFINE_SERVER_OPCODE_HANDLER 0x300 "SMSG_SPLINE_SET_SWIM_SPEED" STATUS_NEVER;
  DEFINE_SERVER_OPCODE_HANDLER 0x301 "SMSG_SPLINE_SET_WALK_SPEED" STATUS_NEVER;
  DEFINE_SERVER_OPCODE_HANDLER 0x302 "SMSG_SPLINE_SET_SWIM_BACK_SPEED" STATUS_NEVER;
  DEFINE_SERVER_OPCODE_HANDLER 0x303 "SMSG_SPLINE_SET_TURN_RATE" STATUS_NEVER;
  DEFINE_SERVER_OPCODE_HANDLER 0x304 "SMSG_SPLINE_MOVE_UNROOT" STATUS_NEVER;
  DEFINE_SERVER_OPCODE_HANDLER 0x305 "SMSG_SPLINE_MOVE_FEATHER_FALL" STATUS_NEVER;
  DEFINE_SERVER_OPCODE_HANDLER 0x306 "SMSG_SPLINE_MOVE_NORMAL_FALL" STATUS_NEVER;
  DEFINE_SERVER_OPCODE_HANDLER 0x307 "SMSG_SPLINE_MOVE_SET_HOVER" STATUS_NEVER;
  DEFINE_SERVER_OPCODE_HANDLER 0x308 "SMSG_SPLINE_MOVE_UNSET_HOVER" STATUS_NEVER;
  DEFINE_SERVER_OPCODE_HANDLER 0x309 "SMSG_SPLINE_MOVE_WATER_WALK" STATUS_NEVER;
  DEFINE_SERVER_OPCODE_HANDLER 0x30A "SMSG_SPLINE_MOVE_LAND_WALK" STATUS_NEVER;
  DEFINE_SERVER_OPCODE_HANDLER 0x30B "SMSG_SPLINE_MOVE_START_SWIM" STATUS_NEVER;
  DEFINE_SERVER_OPCODE_HANDLER 0x30C "SMSG_SPLINE_MOVE_STOP_SWIM" STATUS_NEVER;
  DEFINE_SERVER_OPCODE_HANDLER 0x30D "SMSG_SPLINE_MOVE_SET_RUN_MODE" STATUS_NEVER;
  DEFINE_SERVER_OPCODE_HANDLER 0x30E "SMSG_SPLINE_MOVE_SET_WALK_MODE" STATUS_NEVER;
  DEFINE_HANDLER 0x30F "CMSG_GM_NUKE_ACCOUNT" STATUS_NEVER PROCESS_INPLACE "Handle_NULL";
  DEFINE_HANDLER 0x310 "MSG_GM_DESTROY_CORPSE" STATUS_NEVER PROCESS_INPLACE "Handle_NULL";
  DEFINE_HANDLER 0x311 "CMSG_GM_DESTROY_ONLINE_CORPSE" STATUS_NEVER PROCESS_INPLACE "Handle_NULL";
  DEFINE_HANDLER 0x312 "CMSG_ACTIVATETAXIEXPRESS" STATUS_LOGGEDIN PROCESS_THREADSAFE "HandleActivateTaxiExpressOpcode";
  DEFINE_SERVER_OPCODE_HANDLER 0x313 "SMSG_SET_FACTION_ATWAR" STATUS_NEVER;
  DEFINE_SERVER_OPCODE_HANDLER 0x314 "SMSG_GAMETIMEBIAS_SET" STATUS_NEVER;
  DEFINE_HANDLER 0x315 "CMSG_DEBUG_ACTIONS_START" STATUS_NEVER PROCESS_INPLACE "Handle_NULL";
  DEFINE_HANDLER 0x316 "CMSG_DEBUG_ACTIONS_STOP" STATUS_NEVER PROCESS_INPLACE "Handle_NULL";
  DEFINE_HANDLER 0x317 "CMSG_SET_FACTION_INACTIVE" STATUS_LOGGEDIN PROCESS_THREADUNSAFE "HandleSetFactionInactiveOpcode";
  DEFINE_HANDLER 0x318 "CMSG_SET_WATCHED_FACTION" STATUS_LOGGEDIN PROCESS_THREADUNSAFE "HandleSetWatchedFactionOpcode";
  DEFINE_HANDLER 0x319 "MSG_MOVE_TIME_SKIPPED" STATUS_NEVER PROCESS_INPLACE "Handle_NULL";
  DEFINE_SERVER_OPCODE_HANDLER 0x31A "SMSG_SPLINE_MOVE_ROOT" STATUS_NEVER;
  DEFINE_HANDLER 0x31B "CMSG_SET_EXPLORATION_ALL" STATUS_NEVER PROCESS_INPLACE "Handle_NULL";
  DEFINE_SERVER_OPCODE_HANDLER 0x31C "SMSG_INVALIDATE_PLAYER" STATUS_NEVER;
  DEFINE_HANDLER 0x31D "CMSG_RESET_INSTANCES" STATUS_LOGGEDIN PROCESS_THREADUNSAFE "HandleResetInstancesOpcode";
  DEFINE_SERVER_OPCODE_HANDLER 0x31E "SMSG_INSTANCE_RESET" STATUS_NEVER;
  DEFINE_SERVER_OPCODE_HANDLER 0x31F "SMSG_INSTANCE_RESET_FAILED" STATUS_NEVER;
  DEFINE_SERVER_OPCODE_HANDLER 0x320 "SMSG_UPDATE_LAST_INSTANCE" STATUS_NEVER;
  DEFINE_HANDLER 0x321 "MSG_RAID_TARGET_UPDATE" STATUS_LOGGEDIN PROCESS_THREADUNSAFE "HandleRaidTargetUpdateOpcode";
  DEFINE_HANDLER 0x322 "MSG_RAID_READY_CHECK" STATUS_LOGGEDIN PROCESS_THREADUNSAFE "HandleRaidReadyCheckOpcode";
  DEFINE_HANDLER 0x323 "CMSG_LUA_USAGE" STATUS_NEVER PROCESS_INPLACE "Handle_NULL";
  DEFINE_SERVER_OPCODE_HANDLER 0x324 "SMSG_PET_ACTION_SOUND" STATUS_NEVER;
  DEFINE_SERVER_OPCODE_HANDLER 0x325 "SMSG_PET_DISMISS_SOUND" STATUS_NEVER;
  DEFINE_SERVER_OPCODE_HANDLER 0x326 "SMSG_GHOSTEE_GONE" STATUS_NEVER;
  DEFINE_HANDLER 0x327 "CMSG_GM_UPDATE_TICKET_STATUS" STATUS_NEVER PROCESS_INPLACE "Handle_NULL";
  DEFINE_SERVER_OPCODE_HANDLER 0x328 "SMSG_GM_TICKET_STATUS_UPDATE" STATUS_NEVER;
  DEFINE_HANDLER 0x329 "MSG_SET_DUNGEON_DIFFICULTY" STATUS_LOGGEDIN PROCESS_THREADUNSAFE "HandleSetDungeonDifficultyOpcode";
  DEFINE_HANDLER 0x32A "CMSG_GMSURVEY_SUBMIT" STATUS_LOGGEDIN PROCESS_THREADUNSAFE "HandleGMSurveySubmit";
  DEFINE_SERVER_OPCODE_HANDLER 0x32B "SMSG_UPDATE_INSTANCE_OWNERSHIP" STATUS_NEVER;
  DEFINE_HANDLER 0x32C "CMSG_IGNORE_KNOCKBACK_CHEAT" STATUS_NEVER PROCESS_INPLACE "Handle_NULL";
  DEFINE_SERVER_OPCODE_HANDLER 0x32D "SMSG_CHAT_PLAYER_AMBIGUOUS" STATUS_NEVER;
  DEFINE_HANDLER 0x32E "MSG_DELAY_GHOST_TELEPORT" STATUS_NEVER PROCESS_INPLACE "Handle_NULL";
  DEFINE_SERVER_OPCODE_HANDLER 0x32F "SMSG_SPELLINSTAKILLLOG" STATUS_NEVER;
  DEFINE_SERVER_OPCODE_HANDLER 0x330 "SMSG_SPELL_UPDATE_CHAIN_TARGETS" STATUS_NEVER;
  DEFINE_HANDLER 0x331 "CMSG_CHAT_FILTERED" STATUS_NEVER PROCESS_INPLACE "Handle_NULL";
  DEFINE_SERVER_OPCODE_HANDLER 0x332 "SMSG_EXPECTED_SPAM_RECORDS" STATUS_NEVER;
  DEFINE_SERVER_OPCODE_HANDLER 0x333 "SMSG_SPELLSTEALLOG" STATUS_NEVER;
  DEFINE_HANDLER 0x334 "CMSG_LOTTERY_QUERY_OBSOLETE" STATUS_NEVER PROCESS_INPLACE "Handle_NULL";
  DEFINE_SERVER_OPCODE_HANDLER 0x335 "SMSG_LOTTERY_QUERY_RESULT_OBSOLETE" STATUS_NEVER;
  DEFINE_HANDLER 0x336 "CMSG_BUY_LOTTERY_TICKET_OBSOLETE" STATUS_NEVER PROCESS_INPLACE "Handle_NULL";
  DEFINE_SERVER_OPCODE_HANDLER 0x337 "SMSG_LOTTERY_RESULT_OBSOLETE" STATUS_NEVER;
  DEFINE_SERVER_OPCODE_HANDLER 0x338 "SMSG_CHARACTER_PROFILE" STATUS_NEVER;
  DEFINE_SERVER_OPCODE_HANDLER 0x339 "SMSG_CHARACTER_PROFILE_REALM_CONNECTED" STATUS_NEVER;
  DEFINE_SERVER_OPCODE_HANDLER 0x33A "SMSG_DEFENSE_MESSAGE" STATUS_NEVER;
  DEFINE_SERVER_OPCODE_HANDLER 0x33B "SMSG_INSTANCE_DIFFICULTY" STATUS_NEVER;
  DEFINE_HANDLER 0x33C "MSG_GM_RESETINSTANCELIMIT" STATUS_NEVER PROCESS_INPLACE "Handle_NULL";
  DEFINE_SERVER_OPCODE_HANDLER 0x33D "SMSG_MOTD" STATUS_NEVER;
  DEFINE_SERVER_OPCODE_HANDLER 0x33E "SMSG_MOVE_SET_CAN_TRANSITION_BETWEEN_SWIM_AND_FLY" STATUS_NEVER;
  DEFINE_SERVER_OPCODE_HANDLER 0x33F "SMSG_MOVE_UNSET_CAN_TRANSITION_BETWEEN_SWIM_AND_FLY" STATUS_NEVER;
  DEFINE_HANDLER 0x340 "CMSG_MOVE_SET_CAN_TRANSITION_BETWEEN_SWIM_AND_FLY_ACK" STATUS_NEVER PROCESS_INPLACE "Handle_NULL";
  DEFINE_HANDLER 0x341 "MSG_MOVE_START_SWIM_CHEAT" STATUS_NEVER PROCESS_INPLACE "Handle_NULL";
  DEFINE_HANDLER 0x342 "MSG_MOVE_STOP_SWIM_CHEAT" STATUS_NEVER PROCESS_INPLACE "Handle_NULL";
  DEFINE_SERVER_OPCODE_HANDLER 0x343 "SMSG_MOVE_SET_CAN_FLY" STATUS_NEVER;
  DEFINE_SERVER_OPCODE_HANDLER 0x344 "SMSG_MOVE_UNSET_CAN_FLY" STATUS_NEVER;
  DEFINE_HANDLER 0x345 "CMSG_MOVE_SET_CAN_FLY_ACK" STATUS_LOGGEDIN PROCESS_THREADSAFE "HandleMoveSetCanFlyAckOpcode";
  DEFINE_HANDLER 0x346 "CMSG_MOVE_SET_FLY" STATUS_LOGGEDIN PROCESS_THREADSAFE "HandleMovementOpcodes";
  DEFINE_HANDLER 0x347 "CMSG_SOCKET_GEMS" STATUS_LOGGEDIN PROCESS_INPLACE "HandleSocketOpcode";
  DEFINE_HANDLER 0x348 "CMSG_ARENA_TEAM_CREATE" STATUS_NEVER PROCESS_INPLACE "Handle_NULL";
  DEFINE_SERVER_OPCODE_HANDLER 0x349 "SMSG_ARENA_TEAM_COMMAND_RESULT" STATUS_NEVER;
  DEFINE_HANDLER 0x34A "MSG_MOVE_UPDATE_CAN_TRANSITION_BETWEEN_SWIM_AND_FLY" STATUS_NEVER PROCESS_INPLACE "Handle_NULL";
  DEFINE_HANDLER 0x34B "CMSG_ARENA_TEAM_QUERY" STATUS_LOGGEDIN PROCESS_THREADSAFE "HandleArenaTeamQueryOpcode";
  DEFINE_SERVER_OPCODE_HANDLER 0x34C "SMSG_ARENA_TEAM_QUERY_RESPONSE" STATUS_NEVER;
  DEFINE_HANDLER 0x34D "CMSG_ARENA_TEAM_ROSTER" STATUS_LOGGEDIN PROCESS_THREADSAFE "HandleArenaTeamRosterOpcode";
  DEFINE_SERVER_OPCODE_HANDLER 0x34E "SMSG_ARENA_TEAM_ROSTER" STATUS_NEVER;
  DEFINE_HANDLER 0x34F "CMSG_ARENA_TEAM_INVITE" STATUS_LOGGEDIN PROCESS_THREADUNSAFE "HandleArenaTeamInviteOpcode";
  DEFINE_SERVER_OPCODE_HANDLER 0x350 "SMSG_ARENA_TEAM_INVITE" STATUS_NEVER;
  DEFINE_HANDLER 0x351 "CMSG_ARENA_TEAM_ACCEPT" STATUS_LOGGEDIN PROCESS_THREADUNSAFE "HandleArenaTeamAcceptOpcode";
  DEFINE_HANDLER 0x352 "CMSG_ARENA_TEAM_DECLINE" STATUS_LOGGEDIN PROCESS_THREADUNSAFE "HandleArenaTeamDeclineOpcode";
  DEFINE_HANDLER 0x353 "CMSG_ARENA_TEAM_LEAVE" STATUS_LOGGEDIN PROCESS_THREADUNSAFE "HandleArenaTeamLeaveOpcode";
  DEFINE_HANDLER 0x354 "CMSG_ARENA_TEAM_REMOVE" STATUS_LOGGEDIN PROCESS_THREADUNSAFE "HandleArenaTeamRemoveOpcode";
  DEFINE_HANDLER 0x355 "CMSG_ARENA_TEAM_DISBAND" STATUS_LOGGEDIN PROCESS_THREADUNSAFE "HandleArenaTeamDisbandOpcode";
  DEFINE_HANDLER 0x356 "CMSG_ARENA_TEAM_LEADER" STATUS_LOGGEDIN PROCESS_THREADUNSAFE "HandleArenaTeamLeaderOpcode";
  DEFINE_SERVER_OPCODE_HANDLER 0x357 "SMSG_ARENA_TEAM_EVENT" STATUS_NEVER;
  DEFINE_HANDLER 0x358 "CMSG_BATTLEMASTER_JOIN_ARENA" STATUS_LOGGEDIN PROCESS_THREADUNSAFE "HandleBattlemasterJoinArena";
  DEFINE_HANDLER 0x359 "MSG_MOVE_START_ASCEND" STATUS_LOGGEDIN PROCESS_THREADSAFE "HandleMovementOpcodes";
  DEFINE_HANDLER 0x35A "MSG_MOVE_STOP_ASCEND" STATUS_LOGGEDIN PROCESS_THREADSAFE "HandleMovementOpcodes";
  DEFINE_SERVER_OPCODE_HANDLER 0x35B "SMSG_ARENA_TEAM_STATS" STATUS_NEVER;
  DEFINE_HANDLER 0x35C "CMSG_LFG_JOIN" STATUS_LOGGEDIN PROCESS_THREADUNSAFE "HandleLfgJoinOpcode";
  DEFINE_HANDLER 0x35D "CMSG_LFG_LEAVE" STATUS_LOGGEDIN PROCESS_THREADUNSAFE "HandleLfgLeaveOpcode";
  DEFINE_HANDLER 0x35E "CMSG_SEARCH_LFG_JOIN" STATUS_LOGGEDIN PROCESS_THREADUNSAFE "HandleLfrSearchJoinOpcode";
  DEFINE_HANDLER 0x35F "CMSG_SEARCH_LFG_LEAVE" STATUS_LOGGEDIN PROCESS_THREADUNSAFE "HandleLfrSearchLeaveOpcode";
  DEFINE_SERVER_OPCODE_HANDLER 0x360 "SMSG_UPDATE_LFG_LIST" STATUS_NEVER;
  DEFINE_SERVER_OPCODE_HANDLER 0x361 "SMSG_LFG_PROPOSAL_UPDATE" STATUS_NEVER;
  DEFINE_HANDLER 0x362 "CMSG_LFG_PROPOSAL_RESULT" STATUS_LOGGEDIN PROCESS_THREADUNSAFE "HandleLfgProposalResultOpcode";
  DEFINE_SERVER_OPCODE_HANDLER 0x363 "SMSG_LFG_ROLE_CHECK_UPDATE" STATUS_NEVER;
  DEFINE_SERVER_OPCODE_HANDLER 0x364 "SMSG_LFG_JOIN_RESULT" STATUS_NEVER;
  DEFINE_SERVER_OPCODE_HANDLER 0x365 "SMSG_LFG_QUEUE_STATUS" STATUS_NEVER;
  DEFINE_HANDLER 0x366 "CMSG_SET_LFG_COMMENT" STATUS_LOGGEDIN PROCESS_THREADUNSAFE "HandleLfgSetCommentOpcode";
  DEFINE_SERVER_OPCODE_HANDLER 0x367 "SMSG_LFG_UPDATE_PLAYER" STATUS_NEVER;
  DEFINE_SERVER_OPCODE_HANDLER 0x368 "SMSG_LFG_UPDATE_PARTY" STATUS_NEVER;
  DEFINE_SERVER_OPCODE_HANDLER 0x369 "SMSG_LFG_UPDATE_SEARCH" STATUS_NEVER;
  DEFINE_HANDLER 0x36A "CMSG_LFG_SET_ROLES" STATUS_LOGGEDIN PROCESS_THREADUNSAFE "HandleLfgSetRolesOpcode";
  DEFINE_HANDLER 0x36B "CMSG_LFG_SET_NEEDS" STATUS_NEVER PROCESS_INPLACE "Handle_NULL";
  DEFINE_HANDLER 0x36C "CMSG_LFG_SET_BOOT_VOTE" STATUS_LOGGEDIN PROCESS_THREADUNSAFE "HandleLfgSetBootVoteOpcode";
  DEFINE_SERVER_OPCODE_HANDLER 0x36D "SMSG_LFG_BOOT_PROPOSAL_UPDATE" STATUS_NEVER;
  DEFINE_HANDLER 0x36E "CMSG_LFD_PLAYER_LOCK_INFO_REQUEST" STATUS_LOGGEDIN PROCESS_THREADUNSAFE "HandleLfgPlayerLockInfoRequestOpcode";
  DEFINE_SERVER_OPCODE_HANDLER 0x36F "SMSG_LFG_PLAYER_INFO" STATUS_NEVER;
  DEFINE_HANDLER 0x370 "CMSG_LFG_TELEPORT" STATUS_LOGGEDIN PROCESS_THREADUNSAFE "HandleLfgTeleportOpcode";
  DEFINE_HANDLER 0x371 "CMSG_LFD_PARTY_LOCK_INFO_REQUEST" STATUS_LOGGEDIN PROCESS_THREADUNSAFE "HandleLfgPartyLockInfoRequestOpcode";
  DEFINE_SERVER_OPCODE_HANDLER 0x372 "SMSG_LFG_PARTY_INFO" STATUS_NEVER;
  DEFINE_SERVER_OPCODE_HANDLER 0x373 "SMSG_TITLE_EARNED" STATUS_NEVER;
  DEFINE_HANDLER 0x374 "CMSG_SET_TITLE" STATUS_LOGGEDIN PROCESS_INPLACE "HandleSetTitleOpcode";
  DEFINE_HANDLER 0x375 "CMSG_CANCEL_MOUNT_AURA" STATUS_LOGGEDIN PROCESS_INPLACE "HandleCancelMountAuraOpcode";
  DEFINE_SERVER_OPCODE_HANDLER 0x376 "SMSG_ARENA_ERROR" STATUS_NEVER;
  DEFINE_HANDLER 0x377 "MSG_INSPECT_ARENA_TEAMS" STATUS_LOGGEDIN PROCESS_INPLACE "HandleInspectArenaTeamsOpcode";
  DEFINE_SERVER_OPCODE_HANDLER 0x378 "SMSG_DEATH_RELEASE_LOC" STATUS_NEVER;
  DEFINE_HANDLER 0x379 "CMSG_CANCEL_TEMP_ENCHANTMENT" STATUS_LOGGEDIN PROCESS_INPLACE "HandleCancelTempEnchantmentOpcode";
  DEFINE_SERVER_OPCODE_HANDLER 0x37A "SMSG_FORCED_DEATH_UPDATE" STATUS_NEVER;
  DEFINE_HANDLER 0x37B "CMSG_CHEAT_SET_HONOR_CURRENCY" STATUS_NEVER PROCESS_INPLACE "Handle_NULL";
  DEFINE_HANDLER 0x37C "CMSG_CHEAT_SET_ARENA_CURRENCY" STATUS_NEVER PROCESS_INPLACE "Handle_NULL";
  DEFINE_HANDLER 0x37D "MSG_MOVE_SET_FLIGHT_SPEED_CHEAT" STATUS_NEVER PROCESS_INPLACE "Handle_NULL";
  DEFINE_HANDLER 0x37E "MSG_MOVE_SET_FLIGHT_SPEED" STATUS_NEVER PROCESS_INPLACE "Handle_NULL";
  DEFINE_HANDLER 0x37F "MSG_MOVE_SET_FLIGHT_BACK_SPEED_CHEAT" STATUS_NEVER PROCESS_INPLACE "Handle_NULL";
  DEFINE_HANDLER 0x380 "MSG_MOVE_SET_FLIGHT_BACK_SPEED" STATUS_NEVER PROCESS_INPLACE "Handle_NULL";
  DEFINE_SERVER_OPCODE_HANDLER 0x381 "SMSG_FORCE_FLIGHT_SPEED_CHANGE" STATUS_NEVER;
  DEFINE_HANDLER 0x382 "CMSG_FORCE_FLIGHT_SPEED_CHANGE_ACK" STATUS_LOGGEDIN PROCESS_THREADSAFE "HandleForceSpeedChangeAck";
  DEFINE_SERVER_OPCODE_HANDLER 0x383 "SMSG_FORCE_FLIGHT_BACK_SPEED_CHANGE" STATUS_NEVER;
  DEFINE_HANDLER 0x384 "CMSG_FORCE_FLIGHT_BACK_SPEED_CHANGE_ACK" STATUS_LOGGEDIN PROCESS_THREADSAFE "HandleForceSpeedChangeAck";
  DEFINE_SERVER_OPCODE_HANDLER 0x385 "SMSG_SPLINE_SET_FLIGHT_SPEED" STATUS_NEVER;
  DEFINE_SERVER_OPCODE_HANDLER 0x386 "SMSG_SPLINE_SET_FLIGHT_BACK_SPEED" STATUS_NEVER;
  DEFINE_HANDLER 0x387 "CMSG_MAELSTROM_INVALIDATE_CACHE" STATUS_NEVER PROCESS_INPLACE "Handle_NULL";
  DEFINE_SERVER_OPCODE_HANDLER 0x388 "SMSG_FLIGHT_SPLINE_SYNC" STATUS_NEVER;
  DEFINE_HANDLER 0x389 "CMSG_SET_TAXI_BENCHMARK_MODE" STATUS_LOGGEDIN PROCESS_THREADUNSAFE "HandleSetTaxiBenchmarkOpcode";
  DEFINE_SERVER_OPCODE_HANDLER 0x38A "SMSG_JOINED_BATTLEGROUND_QUEUE" STATUS_NEVER;
  DEFINE_SERVER_OPCODE_HANDLER 0x38B "SMSG_REALM_SPLIT" STATUS_NEVER;
  DEFINE_HANDLER 0x38C "CMSG_REALM_SPLIT" STATUS_AUTHED PROCESS_THREADUNSAFE "HandleRealmSplitOpcode";
  DEFINE_HANDLER 0x38D "CMSG_MOVE_CHNG_TRANSPORT" STATUS_LOGGEDIN PROCESS_THREADSAFE "HandleMovementOpcodes";
  DEFINE_HANDLER 0x38E "MSG_PARTY_ASSIGNMENT" STATUS_LOGGEDIN PROCESS_THREADUNSAFE "HandlePartyAssignmentOpcode";
  DEFINE_SERVER_OPCODE_HANDLER 0x38F "SMSG_OFFER_PETITION_ERROR" STATUS_NEVER;
  DEFINE_SERVER_OPCODE_HANDLER 0x390 "SMSG_TIME_SYNC_REQ" STATUS_NEVER;
  DEFINE_HANDLER 0x391 "CMSG_TIME_SYNC_RESP" STATUS_LOGGEDIN PROCESS_THREADSAFE "HandleTimeSyncResp";
  DEFINE_HANDLER 0x392 "CMSG_SEND_LOCAL_EVENT" STATUS_NEVER PROCESS_INPLACE "Handle_NULL";
  DEFINE_HANDLER 0x393 "CMSG_SEND_GENERAL_TRIGGER" STATUS_NEVER PROCESS_INPLACE "Handle_NULL";
  DEFINE_HANDLER 0x394 "CMSG_SEND_COMBAT_TRIGGER" STATUS_NEVER PROCESS_INPLACE "Handle_NULL";
  DEFINE_HANDLER 0x395 "CMSG_MAELSTROM_GM_SENT_MAIL" STATUS_NEVER PROCESS_INPLACE "Handle_NULL";
  DEFINE_SERVER_OPCODE_HANDLER 0x396 "SMSG_RESET_FAILED_NOTIFY" STATUS_NEVER;
  DEFINE_SERVER_OPCODE_HANDLER 0x397 "SMSG_REAL_GROUP_UPDATE" STATUS_NEVER;
  DEFINE_SERVER_OPCODE_HANDLER 0x398 "SMSG_LFG_DISABLED" STATUS_NEVER;
  DEFINE_HANDLER 0x399 "CMSG_ACTIVE_PVP_CHEAT" STATUS_NEVER PROCESS_INPLACE "Handle_NULL";
  DEFINE_HANDLER 0x39A "CMSG_CHEAT_DUMP_ITEMS_DEBUG_ONLY" STATUS_NEVER PROCESS_INPLACE "Handle_NULL";
  DEFINE_SERVER_OPCODE_HANDLER 0x39B "SMSG_CHEAT_DUMP_ITEMS_DEBUG_ONLY_RESPONSE" STATUS_NEVER;
  DEFINE_SERVER_OPCODE_HANDLER 0x39C "SMSG_CHEAT_DUMP_ITEMS_DEBUG_ONLY_RESPONSE_WRITE_FILE" STATUS_NEVER;
  DEFINE_SERVER_OPCODE_HANDLER 0x39D "SMSG_UPDATE_COMBO_POINTS" STATUS_NEVER;
  DEFINE_SERVER_OPCODE_HANDLER 0x39E "SMSG_VOICE_SESSION_ROSTER_UPDATE" STATUS_NEVER;
  DEFINE_SERVER_OPCODE_HANDLER 0x39F "SMSG_VOICE_SESSION_LEAVE" STATUS_NEVER;
  DEFINE_SERVER_OPCODE_HANDLER 0x3A0 "SMSG_VOICE_SESSION_ADJUST_PRIORITY" STATUS_NEVER;
  DEFINE_HANDLER 0x3A1 "CMSG_VOICE_SET_TALKER_MUTED_REQUEST" STATUS_NEVER PROCESS_INPLACE "Handle_NULL";
  DEFINE_SERVER_OPCODE_HANDLER 0x3A2 "SMSG_VOICE_SET_TALKER_MUTED" STATUS_NEVER;
  DEFINE_SERVER_OPCODE_HANDLER 0x3A3 "SMSG_INIT_EXTRA_AURA_INFO_OBSOLETE" STATUS_NEVER;
  DEFINE_SERVER_OPCODE_HANDLER 0x3A4 "SMSG_SET_EXTRA_AURA_INFO_OBSOLETE" STATUS_NEVER;
  DEFINE_SERVER_OPCODE_HANDLER 0x3A5 "SMSG_SET_EXTRA_AURA_INFO_NEED_UPDATE_OBSOLETE" STATUS_NEVER;
  DEFINE_SERVER_OPCODE_HANDLER 0x3A6 "SMSG_CLEAR_EXTRA_AURA_INFO_OBSOLETE" STATUS_NEVER;
  DEFINE_HANDLER 0x3A7 "MSG_MOVE_START_DESCEND" STATUS_LOGGEDIN PROCESS_THREADSAFE "HandleMovementOpcodes";
  DEFINE_HANDLER 0x3A8 "CMSG_IGNORE_REQUIREMENTS_CHEAT" STATUS_NEVER PROCESS_INPLACE "Handle_NULL";
  DEFINE_SERVER_OPCODE_HANDLER 0x3A9 "SMSG_IGNORE_REQUIREMENTS_CHEAT" STATUS_NEVER;
  DEFINE_SERVER_OPCODE_HANDLER 0x3AA "SMSG_SPELL_CHANCE_PROC_LOG" STATUS_NEVER;
  DEFINE_HANDLER 0x3AB "CMSG_MOVE_SET_RUN_SPEED" STATUS_NEVER PROCESS_INPLACE "Handle_NULL";
  DEFINE_SERVER_OPCODE_HANDLER 0x3AC "SMSG_DISMOUNT" STATUS_NEVER;
  DEFINE_HANDLER 0x3AD "MSG_MOVE_UPDATE_CAN_FLY" STATUS_NEVER PROCESS_INPLACE "Handle_NULL";
  DEFINE_HANDLER 0x3AE "MSG_RAID_READY_CHECK_CONFIRM" STATUS_NEVER PROCESS_INPLACE "Handle_NULL";
  DEFINE_HANDLER 0x3AF "CMSG_VOICE_SESSION_ENABLE" STATUS_AUTHED PROCESS_THREADUNSAFE "HandleVoiceSessionEnableOpcode";
  DEFINE_SERVER_OPCODE_HANDLER 0x3B0 "SMSG_VOICE_SESSION_ENABLE" STATUS_NEVER;
  DEFINE_SERVER_OPCODE_HANDLER 0x3B1 "SMSG_VOICE_PARENTAL_CONTROLS" STATUS_NEVER;
  DEFINE_HANDLER 0x3B2 "CMSG_GM_WHISPER" STATUS_NEVER PROCESS_INPLACE "Handle_NULL";
  DEFINE_SERVER_OPCODE_HANDLER 0x3B3 "SMSG_GM_MESSAGECHAT" STATUS_NEVER;
  DEFINE_HANDLER 0x3B4 "MSG_GM_GEARRATING" STATUS_NEVER PROCESS_INPLACE "Handle_NULL";
  DEFINE_HANDLER 0x3B5 "CMSG_COMMENTATOR_ENABLE" STATUS_NEVER PROCESS_INPLACE "Handle_NULL";
  DEFINE_SERVER_OPCODE_HANDLER 0x3B6 "SMSG_COMMENTATOR_STATE_CHANGED" STATUS_NEVER;
  DEFINE_HANDLER 0x3B7 "CMSG_COMMENTATOR_GET_MAP_INFO" STATUS_NEVER PROCESS_INPLACE "Handle_NULL";
  DEFINE_SERVER_OPCODE_HANDLER 0x3B8 "SMSG_COMMENTATOR_MAP_INFO" STATUS_NEVER;
  DEFINE_HANDLER 0x3B9 "CMSG_COMMENTATOR_GET_PLAYER_INFO" STATUS_NEVER PROCESS_INPLACE "Handle_NULL";
  DEFINE_SERVER_OPCODE_HANDLER 0x3BA "SMSG_COMMENTATOR_GET_PLAYER_INFO" STATUS_NEVER;
  DEFINE_SERVER_OPCODE_HANDLER 0x3BB "SMSG_COMMENTATOR_PLAYER_INFO" STATUS_NEVER;
  DEFINE_HANDLER 0x3BC "CMSG_COMMENTATOR_ENTER_INSTANCE" STATUS_NEVER PROCESS_INPLACE "Handle_NULL";
  DEFINE_HANDLER 0x3BD "CMSG_COMMENTATOR_EXIT_INSTANCE" STATUS_NEVER PROCESS_INPLACE "Handle_NULL";
  DEFINE_HANDLER 0x3BE "CMSG_COMMENTATOR_INSTANCE_COMMAND" STATUS_NEVER PROCESS_INPLACE "Handle_NULL";
  DEFINE_SERVER_OPCODE_HANDLER 0x3BF "SMSG_CLEAR_TARGET" STATUS_NEVER;
  DEFINE_HANDLER 0x3C0 "CMSG_BOT_DETECTED" STATUS_NEVER PROCESS_INPLACE "Handle_NULL";
  DEFINE_SERVER_OPCODE_HANDLER 0x3C1 "SMSG_CROSSED_INEBRIATION_THRESHOLD" STATUS_NEVER;
  DEFINE_HANDLER 0x3C2 "CMSG_CHEAT_PLAYER_LOGIN" STATUS_NEVER PROCESS_INPLACE "Handle_NULL";
  DEFINE_HANDLER 0x3C3 "CMSG_CHEAT_PLAYER_LOOKUP" STATUS_NEVER PROCESS_INPLACE "Handle_NULL";
  DEFINE_SERVER_OPCODE_HANDLER 0x3C4 "SMSG_CHEAT_PLAYER_LOOKUP" STATUS_NEVER;
  DEFINE_SERVER_OPCODE_HANDLER 0x3C5 "SMSG_KICK_REASON" STATUS_NEVER;
  DEFINE_HANDLER 0x3C6 "MSG_RAID_READY_CHECK_FINISHED" STATUS_LOGGEDIN PROCESS_THREADUNSAFE "HandleRaidReadyCheckFinishedOpcode";
  DEFINE_HANDLER 0x3C7 "CMSG_COMPLAIN" STATUS_LOGGEDIN PROCESS_THREADUNSAFE "HandleComplainOpcode";
  DEFINE_SERVER_OPCODE_HANDLER 0x3C8 "SMSG_COMPLAIN_RESULT" STATUS_NEVER;
  DEFINE_SERVER_OPCODE_HANDLER 0x3C9 "SMSG_FEATURE_SYSTEM_STATUS" STATUS_NEVER;
  DEFINE_HANDLER 0x3CA "CMSG_GM_SHOW_COMPLAINTS" STATUS_NEVER PROCESS_INPLACE "Handle_NULL";
  DEFINE_HANDLER 0x3CB "CMSG_GM_UNSQUELCH" STATUS_NEVER PROCESS_INPLACE "Handle_NULL";
  DEFINE_HANDLER 0x3CC "CMSG_CHANNEL_SILENCE_VOICE" STATUS_NEVER PROCESS_INPLACE "Handle_NULL";
  DEFINE_HANDLER 0x3CD "CMSG_CHANNEL_SILENCE_ALL" STATUS_NEVER PROCESS_INPLACE "Handle_NULL";
  DEFINE_HANDLER 0x3CE "CMSG_CHANNEL_UNSILENCE_VOICE" STATUS_NEVER PROCESS_INPLACE "Handle_NULL";
  DEFINE_HANDLER 0x3CF "CMSG_CHANNEL_UNSILENCE_ALL" STATUS_NEVER PROCESS_INPLACE "Handle_NULL";
  DEFINE_HANDLER 0x3D0 "CMSG_TARGET_CAST" STATUS_NEVER PROCESS_INPLACE "Handle_NULL";
  DEFINE_HANDLER 0x3D1 "CMSG_TARGET_SCRIPT_CAST" STATUS_NEVER PROCESS_INPLACE "Handle_NULL";
  DEFINE_HANDLER 0x3D2 "CMSG_CHANNEL_DISPLAY_LIST" STATUS_LOGGEDIN PROCESS_THREADSAFE "HandleChannelDisplayListQuery";
  DEFINE_HANDLER 0x3D3 "CMSG_SET_ACTIVE_VOICE_CHANNEL" STATUS_AUTHED PROCESS_THREADUNSAFE "HandleSetActiveVoiceChannel";
  DEFINE_HANDLER 0x3D4 "CMSG_GET_CHANNEL_MEMBER_COUNT" STATUS_LOGGEDIN PROCESS_THREADSAFE "HandleGetChannelMemberCount";
  DEFINE_SERVER_OPCODE_HANDLER 0x3D5 "SMSG_CHANNEL_MEMBER_COUNT" STATUS_NEVER;
  DEFINE_HANDLER 0x3D6 "CMSG_CHANNEL_VOICE_ON" STATUS_LOGGEDIN PROCESS_THREADSAFE "HandleChannelVoiceOnOpcode";
  DEFINE_HANDLER 0x3D7 "CMSG_CHANNEL_VOICE_OFF" STATUS_NEVER PROCESS_INPLACE "Handle_NULL";
  DEFINE_HANDLER 0x3D8 "CMSG_DEBUG_LIST_TARGETS" STATUS_NEVER PROCESS_INPLACE "Handle_NULL";
  DEFINE_SERVER_OPCODE_HANDLER 0x3D9 "SMSG_DEBUG_LIST_TARGETS" STATUS_NEVER;
  DEFINE_SERVER_OPCODE_HANDLER 0x3DA "SMSG_AVAILABLE_VOICE_CHANNEL" STATUS_NEVER;
  DEFINE_HANDLER 0x3DB "CMSG_ADD_VOICE_IGNORE" STATUS_NEVER PROCESS_INPLACE "Handle_NULL";
  DEFINE_HANDLER 0x3DC "CMSG_DEL_VOICE_IGNORE" STATUS_NEVER PROCESS_INPLACE "Handle_NULL";
  DEFINE_HANDLER 0x3DD "CMSG_PARTY_SILENCE" STATUS_NEVER PROCESS_INPLACE "Handle_NULL";
  DEFINE_HANDLER 0x3DE "CMSG_PARTY_UNSILENCE" STATUS_NEVER PROCESS_INPLACE "Handle_NULL";
  DEFINE_HANDLER 0x3DF "MSG_NOTIFY_PARTY_SQUELCH" STATUS_NEVER PROCESS_INPLACE "Handle_NULL";
  DEFINE_SERVER_OPCODE_HANDLER 0x3E0 "SMSG_COMSAT_RECONNECT_TRY" STATUS_NEVER;
  DEFINE_SERVER_OPCODE_HANDLER 0x3E1 "SMSG_COMSAT_DISCONNECT" STATUS_NEVER;
  DEFINE_SERVER_OPCODE_HANDLER 0x3E2 "SMSG_COMSAT_CONNECT_FAIL" STATUS_NEVER;
  DEFINE_SERVER_OPCODE_HANDLER 0x3E3 "SMSG_VOICE_CHAT_STATUS" STATUS_NEVER;
  DEFINE_HANDLER 0x3E4 "CMSG_REPORT_PVP_AFK" STATUS_LOGGEDIN PROCESS_THREADUNSAFE "HandleReportPvPAFK";
  DEFINE_SERVER_OPCODE_HANDLER 0x3E5 "SMSG_REPORT_PVP_AFK_RESULT" STATUS_NEVER;
  DEFINE_HANDLER 0x3E6 "CMSG_GUILD_BANKER_ACTIVATE" STATUS_LOGGEDIN PROCESS_THREADUNSAFE "HandleGuildBankerActivate";
  DEFINE_HANDLER 0x3E7 "CMSG_GUILD_BANK_QUERY_TAB" STATUS_LOGGEDIN PROCESS_THREADUNSAFE "HandleGuildBankQueryTab";
  DEFINE_SERVER_OPCODE_HANDLER 0x3E8 "SMSG_GUILD_BANK_LIST" STATUS_NEVER;
  DEFINE_HANDLER 0x3E9 "CMSG_GUILD_BANK_SWAP_ITEMS" STATUS_LOGGEDIN PROCESS_THREADUNSAFE "HandleGuildBankSwapItems";
  DEFINE_HANDLER 0x3EA "CMSG_GUILD_BANK_BUY_TAB" STATUS_LOGGEDIN PROCESS_THREADUNSAFE "HandleGuildBankBuyTab";
  DEFINE_HANDLER 0x3EB "CMSG_GUILD_BANK_UPDATE_TAB" STATUS_LOGGEDIN PROCESS_THREADUNSAFE "HandleGuildBankUpdateTab";
  DEFINE_HANDLER 0x3EC "CMSG_GUILD_BANK_DEPOSIT_MONEY" STATUS_LOGGEDIN PROCESS_THREADUNSAFE "HandleGuildBankDepositMoney";
  DEFINE_HANDLER 0x3ED "CMSG_GUILD_BANK_WITHDRAW_MONEY" STATUS_LOGGEDIN PROCESS_THREADUNSAFE "HandleGuildBankWithdrawMoney";
  DEFINE_HANDLER 0x3EE "MSG_GUILD_BANK_LOG_QUERY" STATUS_LOGGEDIN PROCESS_THREADUNSAFE "HandleGuildBankLogQuery";
  DEFINE_HANDLER 0x3EF "CMSG_SET_CHANNEL_WATCH" STATUS_LOGGEDIN PROCESS_THREADUNSAFE "HandleSetChannelWatch";
  DEFINE_SERVER_OPCODE_HANDLER 0x3F0 "SMSG_USERLIST_ADD" STATUS_NEVER;
  DEFINE_SERVER_OPCODE_HANDLER 0x3F1 "SMSG_USERLIST_REMOVE" STATUS_NEVER;
  DEFINE_SERVER_OPCODE_HANDLER 0x3F2 "SMSG_USERLIST_UPDATE" STATUS_NEVER;
  DEFINE_HANDLER 0x3F3 "CMSG_CLEAR_CHANNEL_WATCH" STATUS_LOGGEDIN PROCESS_THREADUNSAFE "HandleClearChannelWatch";
  DEFINE_SERVER_OPCODE_HANDLER 0x3F4 "SMSG_INSPECT_TALENT" STATUS_NEVER;
  DEFINE_SERVER_OPCODE_HANDLER 0x3F5 "SMSG_GOGOGO_OBSOLETE" STATUS_NEVER;
  DEFINE_SERVER_OPCODE_HANDLER 0x3F6 "SMSG_ECHO_PARTY_SQUELCH" STATUS_NEVER;
  DEFINE_HANDLER 0x3F7 "CMSG_SET_TITLE_SUFFIX" STATUS_NEVER PROCESS_INPLACE "Handle_NULL";
  DEFINE_HANDLER 0x3F8 "CMSG_SPELLCLICK" STATUS_LOGGEDIN PROCESS_INPLACE "HandleSpellClick";
  DEFINE_SERVER_OPCODE_HANDLER 0x3F9 "SMSG_LOOT_LIST" STATUS_NEVER;
  DEFINE_HANDLER 0x3FA "CMSG_GM_CHARACTER_RESTORE" STATUS_NEVER PROCESS_INPLACE "Handle_NULL";
  DEFINE_HANDLER 0x3FB "CMSG_GM_CHARACTER_SAVE" STATUS_NEVER PROCESS_INPLACE "Handle_NULL";
  DEFINE_SERVER_OPCODE_HANDLER 0x3FC "SMSG_VOICESESSION_FULL" STATUS_NEVER;
  DEFINE_HANDLER 0x3FD "MSG_GUILD_PERMISSIONS" STATUS_LOGGEDIN PROCESS_THREADUNSAFE "HandleGuildPermissions";
  DEFINE_HANDLER 0x3FE "MSG_GUILD_BANK_MONEY_WITHDRAWN" STATUS_LOGGEDIN PROCESS_THREADUNSAFE "HandleGuildBankMoneyWithdrawn";
  DEFINE_HANDLER 0x3FF "MSG_GUILD_EVENT_LOG_QUERY" STATUS_LOGGEDIN PROCESS_THREADUNSAFE "HandleGuildEventLogQueryOpcode"
].

Definition manifest_4xx : list ManifestEntry := [
  DEFINE_HANDLER 0x400 "CMSG_MAELSTROM_RENAME_GUILD" STATUS_NEVER PROCESS_INPLACE "Handle_NULL";
  DEFINE_HANDLER 0x401 "CMSG_GET_MIRRORIMAGE_DATA" STATUS_LOGGEDIN PROCESS_THREADUNSAFE "HandleMirrorImageDataRequest";
  DEFINE_SERVER_OPCODE_HANDLER 0x402 "SMSG_MIRRORIMAGE_DATA" STATUS_NEVER;
  DEFINE_SERVER_OPCODE_HANDLER 0x403 "SMSG_FORCE_DISPLAY_UPDATE" STATUS_NEVER;
  DEFINE_SERVER_OPCODE_HANDLER 0x404 "SMSG_SPELL_CHANCE_RESIST_PUSHBACK" STATUS_NEVER;
  DEFINE_HANDLER 0x405 "CMSG_IGNORE_DIMINISHING_RETURNS_CHEAT" STATUS_NEVER PROCESS_INPLACE "Handle_NULL";
  DEFINE_SERVER_OPCODE_HANDLER 0x406 "SMSG_IGNORE_DIMINISHING_RETURNS_CHEAT" STATUS_NEVER;
  DEFINE_HANDLER 0x407 "CMSG_KEEP_ALIVE" STATUS_NEVER PROCESS_THREADUNSAFE "Handle_EarlyProccess";
  DEFINE_SERVER_OPCODE_HANDLER 0x408 "SMSG_RAID_READY_CHECK_ERROR" STATUS_NEVER;
  DEFINE_HANDLER 0x409 "CMSG_OPT_OUT_OF_LOOT" STATUS_AUTHED PROCESS_THREADUNSAFE "HandleOptOutOfLootOpcode";
  DEFINE_HANDLER 0x40A "MSG_QUERY_GUILD_BANK_TEXT" STATUS_LOGGEDIN PROCESS_THREADUNSAFE "HandleQueryGuildBankTabText";
  DEFINE_HANDLER 0x40B "CMSG_SET_GUILD_BANK_TEXT" STATUS_LOGGEDIN PROCESS_THREADUNSAFE "HandleSetGuildBankTabText";
  DEFINE_HANDLER 0x40C "CMSG_SET_GRANTABLE_LEVELS" STATUS_NEVER PROCESS_INPLACE "Handle_NULL";
  DEFINE_HANDLER 0x40D "CMSG_GRANT_LEVEL" STATUS_LOGGEDIN PROCESS_THREADUNSAFE "HandleGrantLevel";
  DEFINE_HANDLER 0x40E "CMSG_REFER_A_FRIEND" STATUS_NEVER PROCESS_INPLACE "Handle_NULL";
  DEFINE_HANDLER 0x40F "MSG_GM_CHANGE_ARENA_RATING" STATUS_NEVER PROCESS_INPLACE "Handle_NULL";
  DEFINE_HANDLER 0x410 "CMSG_DECLINE_CHANNEL_INVITE" STATUS_LOGGEDIN PROCESS_INPLACE "HandleChannelDeclineInvite";
  DEFINE_SERVER_OPCODE_HANDLER 0x411 "SMSG_GROUPACTION_THROTTLED" STATUS_NEVER;
  DEFINE_SERVER_OPCODE_HANDLER 0x412 "SMSG_OVERRIDE_LIGHT" STATUS_NEVER;
  DEFINE_SERVER_OPCODE_HANDLER 0x413 "SMSG_TOTEM_CREATED" STATUS_NEVER;
  DEFINE_HANDLER 0x414 "CMSG_TOTEM_DESTROYED" STATUS_LOGGEDIN PROCESS_INPLACE "HandleTotemDestroyed";
  DEFINE_HANDLER 0x415 "CMSG_EXPIRE_RAID_INSTANCE" STATUS_NEVER PROCESS_INPLACE "Handle_NULL";
  DEFINE_HANDLER 0x416 "CMSG_NO_SPELL_VARIANCE" STATUS_NEVER PROCESS_INPLACE "Handle_NULL";
  DEFINE_HANDLER 0x417 "CMSG_QUESTGIVER_STATUS_MULTIPLE_QUERY" STATUS_LOGGEDIN PROCESS_THREADUNSAFE "HandleQuestgiverStatusMultipleQuery";
  DEFINE_SERVER_OPCODE_HANDLER 0x418 "SMSG_QUESTGIVER_STATUS_MULTIPLE" STATUS_NEVER;
  DEFINE_HANDLER 0x419 "CMSG_SET_PLAYER_DECLINED_NAMES" STATUS_AUTHED PROCESS_THREADUNSAFE "HandleSetPlayerDeclinedNames";
  DEFINE_SERVER_OPCODE_HANDLER 0x41A "SMSG_SET_PLAYER_DECLINED_NAMES_RESULT" STATUS_NEVER;
  DEFINE_HANDLER 0x41B "CMSG_QUERY_SERVER_BUCK_DATA" STATUS_NEVER PROCESS_INPLACE "Handle_NULL";
  DEFINE_HANDLER 0x41C "CMSG_CLEAR_SERVER_BUCK_DATA" STATUS_NEVER PROCESS_INPLACE "Handle_NULL";
  DEFINE_SERVER_OPCODE_HANDLER 0x41D "SMSG_SERVER_BUCK_DATA" STATUS_NEVER;
  DEFINE_SERVER_OPCODE_HANDLER 0x41E "SMSG_SEND_UNLEARN_SPELLS" STATUS_NEVER;
  DEFINE_SERVER_OPCODE_HANDLER 0x41F "SMSG_PROPOSE_LEVEL_GRANT" STATUS_NEVER;
  DEFINE_HANDLER 0x420 "CMSG_ACCEPT_LEVEL_GRANT" STATUS_LOGGEDIN PROCESS_THREADUNSAFE "HandleAcceptGrantLevel";
  DEFINE_SERVER_OPCODE_HANDLER 0x421 "SMSG_REFER_A_FRIEND_FAILURE" STATUS_NEVER;
  DEFINE_SERVER_OPCODE_HANDLER 0x422 "SMSG_SPLINE_MOVE_SET_FLYING" STATUS_NEVER;
  DEFINE_SERVER_OPCODE_HANDLER 0x423 "SMSG_SPLINE_MOVE_UNSET_FLYING" STATUS_NEVER;
  DEFINE_SERVER_OPCODE_HANDLER 0x424 "SMSG_SUMMON_CANCEL" STATUS_NEVER;
  DEFINE_HANDLER 0x425 "CMSG_CHANGE_PERSONAL_ARENA_RATING" STATUS_NEVER PROCESS_INPLACE "Handle_NULL";
  DEFINE_HANDLER 0x426 "CMSG_ALTER_APPEARANCE" STATUS_LOGGEDIN PROCESS_THREADUNSAFE "HandleAlterAppearance";
  DEFINE_SERVER_OPCODE_HANDLER 0x427 "SMSG_ENABLE_BARBER_SHOP" STATUS_NEVER;
  DEFINE_SERVER_OPCODE_HANDLER 0x428 "SMSG_BARBER_SHOP_RESULT" STATUS_NEVER;
  DEFINE_HANDLER 0x429 "CMSG_CALENDAR_GET_CALENDAR" STATUS_LOGGEDIN PROCESS_THREADUNSAFE "HandleCalendarGetCalendar";
  DEFINE_HANDLER 0x42A "CMSG_CALENDAR_GET_EVENT" STATUS_LOGGEDIN PROCESS_THREADUNSAFE "HandleCalendarGetEvent";
  DEFINE_HANDLER 0x42B "CMSG_CALENDAR_GUILD_FILTER" STATUS_LOGGEDIN PROCESS_THREADUNSAFE "HandleCalendarGuildFilter";
  DEFINE_HANDLER 0x42C "CMSG_CALENDAR_ARENA_TEAM" STATUS_LOGGEDIN PROCESS_THREADUNSAFE "HandleCalendarArenaTeam";
  DEFINE_HANDLER 0x42D "CMSG_CALENDAR_ADD_EVENT" STATUS_LOGGEDIN PROCESS_THREADUNSAFE "HandleCalendarAddEvent";
  DEFINE_HANDLER 0x42E "CMSG_CALENDAR_UPDATE_EVENT" STATUS_LOGGEDIN PROCESS_THREADUNSAFE "HandleCalendarUpdateEvent";
  DEFINE_HANDLER 0x42F "CMSG_CALENDAR_REMOVE_EVENT" STATUS_LOGGEDIN PROCESS_THREADUNSAFE "HandleCalendarRemoveEvent";
  DEFINE_HANDLER 0x430 "CMSG_CALENDAR_COPY_EVENT" STATUS_LOGGEDIN PROCESS_THREADUNSAFE "HandleCalendarCopyEvent";
  DEFINE_HANDLER 0x431 "CMSG_CALENDAR_EVENT_INVITE" STATUS_LOGGEDIN PROCESS_THREADUNSAFE "HandleCalendarEventInvite";
  DEFINE_HANDLER 0x432 "CMSG_CALENDAR_EVENT_RSVP" STATUS_LOGGEDIN PROCESS_THREADUNSAFE "HandleCalendarEventRsvp";
  DEFINE_HANDLER 0x433 "CMSG_CALENDAR_EVENT_REMOVE_INVITE" STATUS_LOGGEDIN PROCESS_THREADUNSAFE "HandleCalendarEventRemoveInvite";
  DEFINE_HANDLER 0x434 "CMSG_CALENDAR_EVENT_STATUS" STATUS_LOGGEDIN PROCESS_THREADUNSAFE "HandleCalendarEventStatus";
  DEFINE_HANDLER 0x435 "CMSG_CALENDAR_EVENT_MODERATOR_STATUS" STATUS_LOGGEDIN PROCESS_THREADUNSAFE "HandleCalendarEventModeratorStatus";
  DEFINE_SERVER_OPCODE_HANDLER 0x436 "SMSG_CALENDAR_SEND_CALENDAR" STATUS_NEVER;
  DEFINE_SERVER_OPCODE_HANDLER 0x437 "SMSG_CALENDAR_SEND_EVENT" STATUS_NEVER;
  DEFINE_SERVER_OPCODE_HANDLER 0x438 "SMSG_CALENDAR_FILTER_GUILD" STATUS_NEVER;
  DEFINE_SERVER_OPCODE_HANDLER 0x439 "SMSG_CALENDAR_ARENA_TEAM" STATUS_NEVER;
  DEFINE_SERVER_OPCODE_HANDLER 0x43A "SMSG_CALENDAR_EVENT_INVITE" STATUS_NEVER;
  DEFINE_SERVER_OPCODE_HANDLER 0x43B "SMSG_CALENDAR_EVENT_INVITE_REMOVED" STATUS_NEVER;
  DEFINE_SERVER_OPCODE_HANDLER 0x43C "SMSG_CALENDAR_EVENT_STATUS" STATUS_NEVER;
  DEFINE_SERVER_OPCODE_HANDLER 0x43D "SMSG_CALENDAR_COMMAND_RESULT" STATUS_NEVER;
  DEFINE_SERVER_OPCODE_HANDLER 0x43E "SMSG_CALENDAR_RAID_LOCKOUT_ADDED" STATUS_NEVER;
  DEFINE_SERVER_OPCODE_HANDLER 0x43F "SMSG_CALENDAR_RAID_LOCKOUT_REMOVED" STATUS_NEVER;
  DEFINE_SERVER_OPCODE_HANDLER 0x440 "SMSG_CALENDAR_EVENT_INVITE_ALERT" STATUS_NEVER;
  DEFINE_SERVER_OPCODE_HANDLER 0x441 "SMSG_CALENDAR_EVENT_INVITE_REMOVED_ALERT" STATUS_NEVER;
  DEFINE_SERVER_OPCODE_HANDLER 0x442 "SMSG_CALENDAR_EVENT_INVITE_STATUS_ALERT" STATUS_NEVER;
  DEFINE_SERVER_OPCODE_HANDLER 0x443 "SMSG_CALENDAR_EVENT_REMOVED_ALERT" STATUS_NEVER;
  DEFINE_SERVER_OPCODE_HANDLER 0x444 "SMSG_CALENDAR_EVENT_UPDATED_ALERT" STATUS_NEVER;
  DEFINE_SERVER_OPCODE_HANDLER 0x445 "SMSG_CALENDAR_EVENT_MODERATOR_STATUS_ALERT" STATUS_NEVER;
  DEFINE_HANDLER 0x446 "CMSG_CALENDAR_COMPLAIN" STATUS_LOGGEDIN PROCESS_THREADUNSAFE "HandleCalendarComplain";
  DEFINE_HANDLER 0x447 "CMSG_CALENDAR_GET_NUM_PENDING" STATUS_LOGGEDIN PROCESS_THREADUNSAFE "HandleCalendarGetNumPending";
  DEFINE_SERVER_OPCODE_HANDLER 0x448 "SMSG_CALENDAR_SEND_NUM_PENDING" STATUS_NEVER;
  DEFINE_HANDLER 0x449 "CMSG_SAVE_DANCE" STATUS_NEVER PROCESS_INPLACE "Handle_NULL";
  DEFINE_SERVER_OPCODE_HANDLER 0x44A "SMSG_NOTIFY_DANCE" STATUS_NEVER;
  DEFINE_HANDLER 0x44B "CMSG_PLAY_DANCE" STATUS_NEVER PROCESS_INPLACE "Handle_NULL";
  DEFINE_SERVER_OPCODE_HANDLER 0x44C "SMSG_PLAY_DANCE" STATUS_NEVER;
  DEFINE_HANDLER 0x44D "CMSG_LOAD_DANCES" STATUS_NEVER PROCESS_INPLACE "Handle_NULL";
  DEFINE_HANDLER 0x44E "CMSG_STOP_DANCE" STATUS_NEVER PROCESS_INPLACE "Handle_NULL";
  DEFINE_SERVER_OPCODE_HANDLER 0x44F "SMSG_STOP_DANCE" STATUS_NEVER;
  DEFINE_HANDLER 0x450 "CMSG_SYNC_DANCE" STATUS_NEVER PROCESS_INPLACE "Handle_NULL";
  DEFINE_HANDLER 0x451 "CMSG_DANCE_QUERY" STATUS_NEVER PROCESS_INPLACE "Handle_NULL";
  DEFINE_SERVER_OPCODE_HANDLER 0x452 "SMSG_DANCE_QUERY_RESPONSE" STATUS_NEVER;
  DEFINE_SERVER_OPCODE_HANDLER 0x453 "SMSG_INVALIDATE_DANCE" STATUS_NEVER;
  DEFINE_HANDLER 0x454 "CMSG_DELETE_DANCE" STATUS_NEVER PROCESS_INPLACE "Handle_NULL";
  DEFINE_SERVER_OPCODE_HANDLER 0x455 "SMSG_LEARNED_DANCE_MOVES" STATUS_NEVER;
  DEFINE_HANDLER 0x456 "CMSG_LEARN_DANCE_MOVE" STATUS_NEVER PROCESS_INPLACE "Handle_NULL";
  DEFINE_HANDLER 0x457 "CMSG_UNLEARN_DANCE_MOVE" STATUS_NEVER PROCESS_INPLACE "Handle_NULL";
  DEFINE_HANDLER 0x458 "CMSG_SET_RUNE_COUNT" STATUS_NEVER PROCESS_INPLACE "Handle_NULL";
  DEFINE_HANDLER 0x459 "CMSG_SET_RUNE_COOLDOWN" STATUS_NEVER PROCESS_INPLACE "Handle_NULL";
  DEFINE_HANDLER 0x45A "MSG_MOVE_SET_PITCH_RATE_CHEAT" STATUS_NEVER PROCESS_INPLACE "Handle_NULL";
  DEFINE_HANDLER 0x45B "MSG_MOVE_SET_PITCH_RATE" STATUS_NEVER PROCESS_INPLACE "Handle_NULL";
  DEFINE_SERVER_OPCODE_HANDLER 0x45C "SMSG_FORCE_PITCH_RATE_CHANGE" STATUS_NEVER;
  DEFINE_HANDLER 0x45D "CMSG_FORCE_PITCH_RATE_CHANGE_ACK" STATUS_NEVER PROCESS_INPLACE "Handle_NULL";
  DEFINE_SERVER_OPCODE_HANDLER 0x45E "SMSG_SPLINE_SET_PITCH_RATE" STATUS_NEVER;
  DEFINE_HANDLER 0x45F "CMSG_CALENDAR_EVENT_INVITE_NOTES" STATUS_NEVER PROCESS_INPLACE "Handle_NULL";
  DEFINE_SERVER_OPCODE_HANDLER 0x460 "SMSG_CALENDAR_EVENT_INVITE_NOTES" STATUS_NEVER;
  DEFINE_SERVER_OPCODE_HANDLER 0x461 "SMSG_CALENDAR_EVENT_INVITE_NOTES_ALERT" STATUS_NEVER;
  DEFINE_HANDLER 0x462 "CMSG_UPDATE_MISSILE_TRAJECTORY" STATUS_LOGGEDIN PROCESS_THREADUNSAFE "HandleUpdateMissileTrajectory";
  DEFINE_SERVER_OPCODE_HANDLER 0x463 "SMSG_UPDATE_ACCOUNT_DATA_COMPLETE" STATUS_NEVER;
  DEFINE_SERVER_OPCODE_HANDLER 0x464 "SMSG_TRIGGER_MOVIE" STATUS_NEVER;
  DEFINE_HANDLER 0x465 "CMSG_COMPLETE_MOVIE" STATUS_NEVER PROCESS_INPLACE "Handle_NULL";
  DEFINE_HANDLER 0x466 "CMSG_SET_GLYPH_SLOT" STATUS_NEVER PROCESS_INPLACE "Handle_NULL";
  DEFINE_HANDLER 0x467 "CMSG_SET_GLYPH" STATUS_NEVER PROCESS_INPLACE "Handle_NULL";
  DEFINE_SERVER_OPCODE_HANDLER 0x468 "SMSG_ACHIEVEMENT_EARNED" STATUS_NEVER;
  DEFINE_SERVER_OPCODE_HANDLER 0x469 "SMSG_DYNAMIC_DROP_ROLL_RESULT" STATUS_NEVER;
  DEFINE_SERVER_OPCODE_HANDLER 0x46A "SMSG_CRITERIA_UPDATE" STATUS_NEVER;
  DEFINE_HANDLER 0x46B "CMSG_QUERY_INSPECT_ACHIEVEMENTS" STATUS_LOGGEDIN PROCESS_INPLACE "HandleQueryInspectAchievements";
  DEFINE_SERVER_OPCODE_HANDLER 0x46C "SMSG_RESPOND_INSPECT_ACHIEVEMENTS" STATUS_NEVER;
  DEFINE_HANDLER 0x46D "CMSG_DISMISS_CONTROLLED_VEHICLE" STATUS_LOGGEDIN PROCESS_INPLACE "HandleDismissControlledVehicle";
  DEFINE_HANDLER 0x46E "CMSG_COMPLETE_ACHIEVEMENT_CHEAT" STATUS_NEVER PROCESS_INPLACE "Handle_NULL";
  DEFINE_SERVER_OPCODE_HANDLER 0x46F "SMSG_QUESTUPDATE_ADD_PVP_KILL" STATUS_NEVER;
  DEFINE_HANDLER 0x470 "CMSG_SET_CRITERIA_CHEAT" STATUS_NEVER PROCESS_INPLACE "Handle_NULL";
  DEFINE_SERVER_OPCODE_HANDLER 0x471 "SMSG_CALENDAR_RAID_LOCKOUT_UPDATED" STATUS_NEVER;
  DEFINE_HANDLER 0x472 "CMSG_UNITANIMTIER_CHEAT" STATUS_NEVER PROCESS_INPLACE "Handle_NULL";
  DEFINE_HANDLER 0x473 "CMSG_CHAR_CUSTOMIZE" STATUS_AUTHED PROCESS_THREADUNSAFE "HandleCharCustomize";
  DEFINE_SERVER_OPCODE_HANDLER 0x474 "SMSG_CHAR_CUSTOMIZE" STATUS_NEVER;
  DEFINE_SERVER_OPCODE_HANDLER 0x475 "SMSG_PET_RENAMEABLE" STATUS_NEVER;
  DEFINE_HANDLER 0x476 "CMSG_REQUEST_VEHICLE_EXIT" STATUS_LOGGEDIN PROCESS_INPLACE "HandleRequestVehicleExit";
  DEFINE_HANDLER 0x477 "CMSG_REQUEST_VEHICLE_PREV_SEAT" STATUS_LOGGEDIN PROCESS_INPLACE "HandleChangeSeatsOnControlledVehicle";
  DEFINE_HANDLER 0x478 "CMSG_REQUEST_VEHICLE_NEXT_SEAT" STATUS_LOGGEDIN PROCESS_INPLACE "HandleChangeSeatsOnControlledVehicle";
  DEFINE_HANDLER 0x479 "CMSG_REQUEST_VEHICLE_SWITCH_SEAT" STATUS_LOGGEDIN PROCESS_INPLACE "HandleChangeSeatsOnControlledVehicle";
  DEFINE_HANDLER 0x47A "CMSG_PET_LEARN_TALENT" STATUS_LOGGEDIN PROCESS_INPLACE "HandlePetLearnTalent";
  DEFINE_HANDLER 0x47B "CMSG_PET_UNLEARN_TALENTS" STATUS_NEVER PROCESS_INPLACE "Handle_NULL";
  DEFINE_SERVER_OPCODE_HANDLER 0x47C "SMSG_SET_PHASE_SHIFT" STATUS_NEVER;
  DEFINE_SERVER_OPCODE_HANDLER 0x47D "SMSG_ALL_ACHIEVEMENT_DATA" STATUS_NEVER;
  DEFINE_HANDLER 0x47E "CMSG_FORCE_SAY_CHEAT" STATUS_NEVER PROCESS_INPLACE "Handle_NULL";
  DEFINE_SERVER_OPCODE_HANDLER 0x47F "SMSG_HEALTH_UPDATE" STATUS_NEVER;
  DEFINE_SERVER_OPCODE_HANDLER 0x480 "SMSG_POWER_UPDATE" STATUS_NEVER;
  DEFINE_HANDLER 0x481 "CMSG_GAMEOBJ_REPORT_USE" STATUS_LOGGEDIN PROCESS_INPLACE "HandleGameobjectReportUse";
  DEFINE_SERVER_OPCODE_HANDLER 0x482 "SMSG_HIGHEST_THREAT_UPDATE" STATUS_NEVER;
  DEFINE_SERVER_OPCODE_HANDLER 0x483 "SMSG_THREAT_UPDATE" STATUS_NEVER;
  DEFINE_SERVER_OPCODE_HANDLER 0x484 "SMSG_THREAT_REMOVE" STATUS_NEVER;
  DEFINE_SERVER_OPCODE_HANDLER 0x485 "SMSG_THREAT_CLEAR" STATUS_NEVER;
  DEFINE_SERVER_OPCODE_HANDLER 0x486 "SMSG_CONVERT_RUNE" STATUS_NEVER;
  DEFINE_SERVER_OPCODE_HANDLER 0x487 "SMSG_RESYNC_RUNES" STATUS_NEVER;
  DEFINE_SERVER_OPCODE_HANDLER 0x488 "SMSG_ADD_RUNE_POWER" STATUS_NEVER;
  DEFINE_HANDLER 0x489 "CMSG_START_QUEST" STATUS_NEVER PROCESS_INPLACE "Handle_NULL";
  DEFINE_HANDLER 0x48A "CMSG_REMOVE_GLYPH" STATUS_LOGGEDIN PROCESS_INPLACE "HandleRemoveGlyph";
  DEFINE_HANDLER 0x48B "CMSG_DUMP_OBJECTS" STATUS_NEVER PROCESS_INPLACE "Handle_NULL";
  DEFINE_SERVER_OPCODE_HANDLER 0x48C "SMSG_DUMP_OBJECTS_DATA" STATUS_NEVER;
  DEFINE_HANDLER 0x48D "CMSG_DISMISS_CRITTER" STATUS_LOGGEDIN PROCESS_THREADUNSAFE "HandleDismissCritter";
  DEFINE_SERVER_OPCODE_HANDLER 0x48E "SMSG_NOTIFY_DEST_LOC_SPELL_CAST" STATUS_NEVER;
  DEFINE_HANDLER 0x48F "CMSG_AUCTION_LIST_PENDING_SALES" STATUS_LOGGEDIN PROCESS_THREADUNSAFE "HandleAuctionListPendingSales";
  DEFINE_SERVER_OPCODE_HANDLER 0x490 "SMSG_AUCTION_LIST_PENDING_SALES" STATUS_NEVER;
  DEFINE_SERVER_OPCODE_HANDLER 0x491 "SMSG_MODIFY_COOLDOWN" STATUS_NEVER;
  DEFINE_SERVER_OPCODE_HANDLER 0x492 "SMSG_PET_UPDATE_COMBO_POINTS" STATUS_NEVER;
  DEFINE_HANDLER 0x493 "CMSG_ENABLETAXI" STATUS_LOGGEDIN PROCESS_THREADSAFE "HandleTaxiQueryAvailableNodes";
  DEFINE_SERVER_OPCODE_HANDLER 0x494 "SMSG_PRE_RESURRECT" STATUS_NEVER;
  DEFINE_SERVER_OPCODE_HANDLER 0x495 "SMSG_AURA_UPDATE_ALL" STATUS_NEVER;
  DEFINE_SERVER_OPCODE_HANDLER 0x496 "SMSG_AURA_UPDATE" STATUS_NEVER;
  DEFINE_HANDLER 0x497 "CMSG_FLOOD_GRACE_CHEAT" STATUS_NEVER PROCESS_INPLACE "Handle_NULL";
  DEFINE_SERVER_OPCODE_HANDLER 0x498 "SMSG_SERVER_FIRST_ACHIEVEMENT" STATUS_NEVER;
  DEFINE_SERVER_OPCODE_HANDLER 0x499 "SMSG_PET_LEARNED_SPELL" STATUS_NEVER;
  DEFINE_SERVER_OPCODE_HANDLER 0x49A "SMSG_PET_UNLEARNED_SPELL" STATUS_NEVER;
  DEFINE_HANDLER 0x49B "CMSG_CHANGE_SEATS_ON_CONTROLLED_VEHICLE" STATUS_LOGGEDIN PROCESS_INPLACE "HandleChangeSeatsOnControlledVehicle";
  DEFINE_HANDLER 0x49C "CMSG_HEARTH_AND_RESURRECT" STATUS_LOGGEDIN PROCESS_THREADSAFE "HandleHearthAndResurrect";
  DEFINE_SERVER_OPCODE_HANDLER 0x49D "SMSG_ON_CANCEL_EXPECTED_RIDE_VEHICLE_AURA" STATUS_NEVER;
  DEFINE_SERVER_OPCODE_HANDLER 0x49E "SMSG_CRITERIA_DELETED" STATUS_NEVER;
  DEFINE_SERVER_OPCODE_HANDLER 0x49F "SMSG_ACHIEVEMENT_DELETED" STATUS_NEVER;
  DEFINE_HANDLER 0x4A0 "CMSG_SERVER_INFO_QUERY" STATUS_NEVER PROCESS_INPLACE "Handle_NULL";
  DEFINE_SERVER_OPCODE_HANDLER 0x4A1 "SMSG_SERVER_INFO_RESPONSE" STATUS_NEVER;
  DEFINE_HANDLER 0x4A2 "CMSG_CHECK_LOGIN_CRITERIA" STATUS_NEVER PROCESS_INPLACE "Handle_NULL";
  DEFINE_SERVER_OPCODE_HANDLER 0x4A3 "SMSG_SERVER_BUCK_DATA_START" STATUS_NEVER;
  DEFINE_HANDLER 0x4A4 "CMSG_SET_BREATH" STATUS_NEVER PROCESS_INPLACE "Handle_NULL";
  DEFINE_HANDLER 0x4A5 "CMSG_QUERY_VEHICLE_STATUS" STATUS_NEVER PROCESS_INPLACE "Handle_NULL";
  DEFINE_SERVER_OPCODE_HANDLER 0x4A6 "SMSG_BATTLEGROUND_INFO_THROTTLED" STATUS_NEVER;
  DEFINE_SERVER_OPCODE_HANDLER 0x4A7 "SMSG_PLAYER_VEHICLE_DATA" STATUS_NEVER;
  DEFINE_HANDLER 0x4A8 "CMSG_PLAYER_VEHICLE_ENTER" STATUS_LOGGEDIN PROCESS_THREADUNSAFE "HandleEnterPlayerVehicle";
  DEFINE_HANDLER 0x4A9 "CMSG_CONTROLLER_EJECT_PASSENGER" STATUS_LOGGEDIN PROCESS_THREADUNSAFE "HandleEjectPassenger";
  DEFINE_SERVER_OPCODE_HANDLER 0x4AA "SMSG_PET_GUIDS" STATUS_NEVER;
  DEFINE_SERVER_OPCODE_HANDLER 0x4AB "SMSG_CLIENTCACHE_VERSION" STATUS_NEVER;
  DEFINE_HANDLER 0x4AC "CMSG_CHANGE_GDF_ARENA_RATING" STATUS_NEVER PROCESS_INPLACE "Handle_NULL";
  DEFINE_HANDLER 0x4AD "CMSG_SET_ARENA_TEAM_RATING_BY_INDEX" STATUS_NEVER PROCESS_INPLACE "Handle_NULL";
  DEFINE_HANDLER 0x4AE "CMSG_SET_ARENA_TEAM_WEEKLY_GAMES" STATUS_NEVER PROCESS_INPLACE "Handle_NULL";
  DEFINE_HANDLER 0x4AF "CMSG_SET_ARENA_TEAM_SEASON_GAMES" STATUS_NEVER PROCESS_INPLACE "Handle_NULL";
  DEFINE_HANDLER 0x4B0 "CMSG_SET_ARENA_MEMBER_WEEKLY_GAMES" STATUS_NEVER PROCESS_INPLACE "Handle_NULL";
  DEFINE_HANDLER 0x4B1 "CMSG_SET_ARENA_MEMBER_SEASON_GAMES" STATUS_NEVER PROCESS_INPLACE "Handle_NULL";
  DEFINE_SERVER_OPCODE_HANDLER 0x4B2 "SMSG_ITEM_REFUND_INFO_RESPONSE" STATUS_NEVER;
  DEFINE_HANDLER 0x4B3 "CMSG_ITEM_REFUND_INFO" STATUS_LOGGEDIN PROCESS_INPLACE "HandleItemRefundInfoRequest";
  DEFINE_HANDLER 0x4B4 "CMSG_ITEM_REFUND" STATUS_LOGGEDIN PROCESS_INPLACE "HandleItemRefund";
  DEFINE_SERVER_OPCODE_HANDLER 0x4B5 "SMSG_ITEM_REFUND_RESULT" STATUS_NEVER;
  DEFINE_HANDLER 0x4B6 "CMSG_CORPSE_MAP_POSITION_QUERY" STATUS_LOGGEDIN PROCESS_THREADUNSAFE "HandleCorpseMapPositionQuery";
  DEFINE_SERVER_OPCODE_HANDLER 0x4B7 "SMSG_CORPSE_MAP_POSITION_QUERY_RESPONSE" STATUS_NEVER;
  DEFINE_HANDLER 0x4B8 "CMSG_UNUSED5" STATUS_LOGGEDIN PROCESS_THREADUNSAFE "Handle_NULL";
  DEFINE_HANDLER 0x4B9 "CMSG_UNUSED6" STATUS_NEVER PROCESS_INPLACE "Handle_NULL";
  DEFINE_HANDLER 0x4BA "CMSG_CALENDAR_EVENT_SIGNUP" STATUS_LOGGEDIN PROCESS_THREADUNSAFE "HandleCalendarEventSignup";
  DEFINE_SERVER_OPCODE_HANDLER 0x4BB "SMSG_CALENDAR_CLEAR_PENDING_ACTION" STATUS_NEVER;
  DEFINE_SERVER_OPCODE_HANDLER 0x4BC "SMSG_EQUIPMENT_SET_LIST" STATUS_NEVER;
  DEFINE_HANDLER 0x4BD "CMSG_EQUIPMENT_SET_SAVE" STATUS_LOGGEDIN PROCESS_THREADUNSAFE "HandleEquipmentSetSave";
  DEFINE_HANDLER 0x4BE "CMSG_UPDATE_PROJECTILE_POSITION" STATUS_LOGGEDIN PROCESS_THREADUNSAFE "HandleUpdateProjectilePosition";
  DEFINE_SERVER_OPCODE_HANDLER 0x4BF "SMSG_SET_PROJECTILE_POSITION" STATUS_NEVER;
  DEFINE_SERVER_OPCODE_HANDLER 0x4C0 "SMSG_TALENTS_INFO" STATUS_NEVER;
  DEFINE_HANDLER 0x4C1 "CMSG_LEARN_PREVIEW_TALENTS" STATUS_LOGGEDIN PROCESS_INPLACE "HandleLearnPreviewTalents";
  DEFINE_HANDLER 0x4C2 "CMSG_LEARN_PREVIEW_TALENTS_PET" STATUS_LOGGEDIN PROCESS_INPLACE "HandleLearnPreviewTalentsPet";
  DEFINE_HANDLER 0x4C3 "CMSG_SET_ACTIVE_TALENT_GROUP_OBSOLETE" STATUS_NEVER PROCESS_INPLACE "Handle_NULL";
  DEFINE_HANDLER 0x4C4 "CMSG_GM_GRANT_ACHIEVEMENT" STATUS_NEVER PROCESS_INPLACE "Handle_NULL";
  DEFINE_HANDLER 0x4C5 "CMSG_GM_REMOVE_ACHIEVEMENT" STATUS_NEVER PROCESS_INPLACE "Handle_NULL";
  DEFINE_HANDLER 0x4C6 "CMSG_GM_SET_CRITERIA_FOR_PLAYER" STATUS_NEVER PROCESS_INPLACE "Handle_NULL";
  DEFINE_SERVER_OPCODE_HANDLER 0x4C7 "SMSG_ARENA_UNIT_DESTROYED" STATUS_NEVER;
  DEFINE_SERVER_OPCODE_HANDLER 0x4C8 "SMSG_ARENA_TEAM_CHANGE_FAILED_QUEUED" STATUS_NEVER;
  DEFINE_HANDLER 0x4C9 "CMSG_PROFILEDATA_REQUEST" STATUS_NEVER PROCESS_INPLACE "Handle_NULL";
  DEFINE_SERVER_OPCODE_HANDLER 0x4CA "SMSG_PROFILEDATA_RESPONSE" STATUS_NEVER;
  DEFINE_HANDLER 0x4CB "CMSG_START_BATTLEFIELD_CHEAT" STATUS_NEVER PROCESS_INPLACE "Handle_NULL";
  DEFINE_HANDLER 0x4CC "CMSG_END_BATTLEFIELD_CHEAT" STATUS_NEVER PROCESS_INPLACE "Handle_NULL";
  DEFINE_SERVER_OPCODE_HANDLER 0x4CD "SMSG_MULTIPLE_PACKETS" STATUS_NEVER;
  DEFINE_SERVER_OPCODE_HANDLER 0x4CE "SMSG_MOVE_GRAVITY_DISABLE" STATUS_NEVER;
  DEFINE_HANDLER 0x4CF "CMSG_MOVE_GRAVITY_DISABLE_ACK" STATUS_NEVER PROCESS_INPLACE "Handle_NULL";
  DEFINE_SERVER_OPCODE_HANDLER 0x4D0 "SMSG_MOVE_GRAVITY_ENABLE" STATUS_NEVER;
  DEFINE_HANDLER 0x4D1 "CMSG_MOVE_GRAVITY_ENABLE_ACK" STATUS_NEVER PROCESS_INPLACE "Handle_NULL";
  DEFINE_SERVER_OPCODE_HANDLER 0x4D2 "MSG_MOVE_GRAVITY_CHNG" STATUS_NEVER;
  DEFINE_SERVER_OPCODE_HANDLER 0x4D3 "SMSG_SPLINE_MOVE_GRAVITY_DISABLE" STATUS_NEVER;
  DEFINE_SERVER_OPCODE_HANDLER 0x4D4 "SMSG_SPLINE_MOVE_GRAVITY_ENABLE" STATUS_NEVER;
  DEFINE_HANDLER 0x4D5 "CMSG_EQUIPMENT_SET_USE" STATUS_LOGGEDIN PROCESS_INPLACE "HandleEquipmentSetUse";
  DEFINE_SERVER_OPCODE_HANDLER 0x4D6 "SMSG_EQUIPMENT_SET_USE_RESULT" STATUS_NEVER;
  DEFINE_HANDLER 0x4D7 "CMSG_FORCE_ANIM" STATUS_NEVER PROCESS_INPLACE "Handle_NULL";
  DEFINE_SERVER_OPCODE_HANDLER 0x4D8 "SMSG_FORCE_ANIM" STATUS_NEVER;
  DEFINE_HANDLER 0x4D9 "CMSG_CHAR_FACTION_CHANGE" STATUS_AUTHED PROCESS_THREADUNSAFE "HandleCharFactionOrRaceChange";
  DEFINE_SERVER_OPCODE_HANDLER 0x4DA "SMSG_CHAR_FACTION_CHANGE" STATUS_NEVER;
  DEFINE_HANDLER 0x4DB "CMSG_PVP_QUEUE_STATS_REQUEST" STATUS_NEVER PROCESS_INPLACE "Handle_NULL";
  DEFINE_SERVER_OPCODE_HANDLER 0x4DC "SMSG_PVP_QUEUE_STATS" STATUS_NEVER;
  DEFINE_HANDLER 0x4DD "CMSG_SET_PAID_SERVICE_CHEAT" STATUS_NEVER PROCESS_INPLACE "Handle_NULL";
  DEFINE_SERVER_OPCODE_HANDLER 0x4DE "SMSG_BATTLEFIELD_MGR_ENTRY_INVITE" STATUS_NEVER;
  DEFINE_HANDLER 0x4DF "CMSG_BATTLEFIELD_MGR_ENTRY_INVITE_RESPONSE" STATUS_LOGGEDIN PROCESS_THREADUNSAFE "HandleBfEntryInviteResponse";
  DEFINE_SERVER_OPCODE_HANDLER 0x4E0 "SMSG_BATTLEFIELD_MGR_ENTERED" STATUS_NEVER;
  DEFINE_SERVER_OPCODE_HANDLER 0x4E1 "SMSG_BATTLEFIELD_MGR_QUEUE_INVITE" STATUS_NEVER;
  DEFINE_HANDLER 0x4E2 "CMSG_BATTLEFIELD_MGR_QUEUE_INVITE_RESPONSE" STATUS_LOGGEDIN PROCESS_THREADUNSAFE "HandleBfQueueInviteResponse";
  DEFINE_HANDLER 0x4E3 "CMSG_BATTLEFIELD_MGR_QUEUE_REQUEST" STATUS_NEVER PROCESS_INPLACE "Handle_NULL";
  DEFINE_SERVER_OPCODE_HANDLER 0x4E4 "SMSG_BATTLEFIELD_MGR_QUEUE_REQUEST_RESPONSE" STATUS_NEVER;
  DEFINE_SERVER_OPCODE_HANDLER 0x4E5 "SMSG_BATTLEFIELD_MGR_EJECT_PENDING" STATUS_NEVER;
  DEFINE_SERVER_OPCODE_HANDLER 0x4E6 "SMSG_BATTLEFIELD_MGR_EJECTED" STATUS_NEVER;
  DEFINE_HANDLER 0x4E7 "CMSG_BATTLEFIELD_MGR_EXIT_REQUEST" STATUS_LOGGEDIN PROCESS_THREADUNSAFE "HandleBfExitRequest";
  DEFINE_SERVER_OPCODE_HANDLER 0x4E8 "SMSG_BATTLEFIELD_MGR_STATE_CHANGE" STATUS_NEVER;
  DEFINE_HANDLER 0x4E9 "CMSG_BATTLEFIELD_MANAGER_ADVANCE_STATE" STATUS_NEVER PROCESS_INPLACE "Handle_NULL";
  DEFINE_HANDLER 0x4EA "CMSG_BATTLEFIELD_MANAGER_SET_NEXT_TRANSITION_TIME" STATUS_NEVER PROCESS_INPLACE "Handle_NULL";
  DEFINE_HANDLER 0x4EB "MSG_SET_RAID_DIFFICULTY" STATUS_LOGGEDIN PROCESS_THREADUNSAFE "HandleSetRaidDifficultyOpcode";
  DEFINE_HANDLER 0x4EC "CMSG_TOGGLE_XP_GAIN" STATUS_NEVER PROCESS_INPLACE "Handle_NULL";
  DEFINE_SERVER_OPCODE_HANDLER 0x4ED "SMSG_TOGGLE_XP_GAIN" STATUS_NEVER;
  DEFINE_SERVER_OPCODE_HANDLER 0x4EE "SMSG_GMRESPONSE_DB_ERROR" STATUS_NEVER;
  DEFINE_SERVER_OPCODE_HANDLER 0x4EF "SMSG_GMRESPONSE_RECEIVED" STATUS_NEVER;
  DEFINE_HANDLER 0x4F0 "CMSG_GMRESPONSE_RESOLVE" STATUS_LOGGEDIN PROCESS_THREADUNSAFE "HandleGMResponseResolve";
  DEFINE_SERVER_OPCODE_HANDLER 0x4F1 "SMSG_GMRESPONSE_STATUS_UPDATE" STATUS_NEVER;
  DEFINE_SERVER_OPCODE_HANDLER 0x4F2 "SMSG_GMRESPONSE_CREATE_TICKET" STATUS_NEVER;
  DEFINE_HANDLER 0x4F3 "CMSG_GMRESPONSE_CREATE_TICKET" STATUS_NEVER PROCESS_INPLACE "Handle_NULL";
  DEFINE_HANDLER 0x4F4 "CMSG_SERVERINFO" STATUS_NEVER PROCESS_INPLACE "Handle_NULL";
  DEFINE_SERVER_OPCODE_HANDLER 0x4F5 "SMSG_SERVERINFO" STATUS_NEVER;
  DEFINE_HANDLER 0x4F6 "CMSG_WORLD_STATE_UI_TIMER_UPDATE" STATUS_LOGGEDIN PROCESS_INPLACE "HandleWorldStateUITimerUpdate";
  DEFINE_SERVER_OPCODE_HANDLER 0x4F7 "SMSG_WORLD_STATE_UI_TIMER_UPDATE" STATUS_NEVER;
  DEFINE_HANDLER 0x4F8 "CMSG_CHAR_RACE_CHANGE" STATUS_AUTHED PROCESS_THREADUNSAFE "HandleCharFactionOrRaceChange";
  DEFINE_HANDLER 0x4F9 "MSG_VIEW_PHASE_SHIFT" STATUS_NEVER PROCESS_INPLACE "Handle_NULL";
  DEFINE_SERVER_OPCODE_HANDLER 0x4FA "SMSG_TALENTS_INVOLUNTARILY_RESET" STATUS_NEVER;
  DEFINE_HANDLER 0x4FB "CMSG_DEBUG_SERVER_GEO" STATUS_NEVER PROCESS_INPLACE "Handle_NULL";
  DEFINE_SERVER_OPCODE_HANDLER 0x4FC "SMSG_DEBUG_SERVER_GEO" STATUS_NEVER;
  DEFINE_SERVER_OPCODE_HANDLER 0x4FD "SMSG_LOOT_SLOT_CHANGED" STATUS_NEVER;
  DEFINE_HANDLER 0x4FE "UMSG_UPDATE_GROUP_INFO" STATUS_NEVER PROCESS_INPLACE "Handle_NULL";
  DEFINE_HANDLER 0x4FF "CMSG_READY_FOR_ACCOUNT_DATA_TIMES" STATUS_AUTHED PROCESS_THREADUNSAFE "HandleReadyForAccountDataTimes"
].

Definition manifest_5xx : list ManifestEntry := [
  DEFINE_HANDLER 0x500 "CMSG_QUERY_QUESTS_COMPLETED" STATUS_LOGGEDIN PROCESS_INPLACE "HandleQueryQuestsCompleted";
  DEFINE_SERVER_OPCODE_HANDLER 0x501 "SMSG_QUERY_QUESTS_COMPLETED_RESPONSE" STATUS_NEVER;
  DEFINE_HANDLER 0x502 "CMSG_GM_REPORT_LAG" STATUS_LOGGEDIN PROCESS_THREADUNSAFE "HandleReportLag";
  DEFINE_HANDLER 0x503 "CMSG_AFK_MONITOR_INFO_REQUEST" STATUS_NEVER PROCESS_INPLACE "Handle_NULL";
  DEFINE_SERVER_OPCODE_HANDLER 0x504 "SMSG_AFK_MONITOR_INFO_RESPONSE" STATUS_NEVER;
  DEFINE_HANDLER 0x505 "CMSG_AFK_MONITOR_INFO_CLEAR" STATUS_NEVER PROCESS_INPLACE "Handle_NULL";
  DEFINE_SERVER_OPCODE_HANDLER 0x506 "SMSG_CORPSE_NOT_IN_INSTANCE" STATUS_NEVER;
  DEFINE_HANDLER 0x507 "CMSG_GM_NUKE_CHARACTER" STATUS_NEVER PROCESS_INPLACE "Handle_NULL";
  DEFINE_HANDLER 0x508 "CMSG_SET_ALLOW_LOW_LEVEL_RAID1" STATUS_NEVER PROCESS_INPLACE "Handle_NULL";
  DEFINE_HANDLER 0x509 "CMSG_SET_ALLOW_LOW_LEVEL_RAID2" STATUS_NEVER PROCESS_INPLACE "Handle_NULL";
  DEFINE_SERVER_OPCODE_HANDLER 0x50A "SMSG_CAMERA_SHAKE" STATUS_NEVER;
  DEFINE_SERVER_OPCODE_HANDLER 0x50B "SMSG_SOCKET_GEMS_RESULT" STATUS_NEVER;
  DEFINE_HANDLER 0x50C "CMSG_SET_CHARACTER_MODEL" STATUS_NEVER PROCESS_INPLACE "Handle_NULL";
  DEFINE_SERVER_OPCODE_HANDLER 0x50D "SMSG_REDIRECT_CLIENT" STATUS_NEVER;
  DEFINE_HANDLER 0x50E "CMSG_REDIRECTION_FAILED" STATUS_NEVER PROCESS_INPLACE "Handle_NULL";
  DEFINE_SERVER_OPCODE_HANDLER 0x50F "SMSG_SUSPEND_COMMS" STATUS_NEVER;
  DEFINE_HANDLER 0x510 "CMSG_SUSPEND_COMMS_ACK" STATUS_NEVER PROCESS_INPLACE "Handle_NULL";
  DEFINE_SERVER_OPCODE_HANDLER 0x511 "SMSG_FORCE_SEND_QUEUED_PACKETS" STATUS_NEVER;
  DEFINE_HANDLER 0x512 "CMSG_REDIRECTION_AUTH_PROOF" STATUS_NEVER PROCESS_INPLACE "Handle_NULL";
  DEFINE_HANDLER 0x513 "CMSG_DROP_NEW_CONNECTION" STATUS_NEVER PROCESS_INPLACE "Handle_NULL";
  DEFINE_SERVER_OPCODE_HANDLER 0x514 "SMSG_SEND_ALL_COMBAT_LOG" STATUS_NEVER;
  DEFINE_SERVER_OPCODE_HANDLER 0x515 "SMSG_OPEN_LFG_DUNGEON_FINDER" STATUS_NEVER;
  DEFINE_SERVER_OPCODE_HANDLER 0x516 "SMSG_MOVE_SET_COLLISION_HGT" STATUS_NEVER;
  DEFINE_HANDLER 0x517 "CMSG_MOVE_SET_COLLISION_HGT_ACK" STATUS_UNHANDLED PROCESS_INPLACE "Handle_NULL";
  DEFINE_HANDLER 0x518 "MSG_MOVE_SET_COLLISION_HGT" STATUS_NEVER PROCESS_INPLACE "Handle_NULL";
  DEFINE_HANDLER 0x519 "CMSG_CLEAR_RANDOM_BG_WIN_TIME" STATUS_NEVER PROCESS_INPLACE "Handle_NULL";
  DEFINE_HANDLER 0x51A "CMSG_CLEAR_HOLIDAY_BG_WIN_TIME" STATUS_NEVER PROCESS_INPLACE "Handle_NULL";
  DEFINE_HANDLER 0x51B "CMSG_COMMENTATOR_SKIRMISH_QUEUE_COMMAND" STATUS_NEVER PROCESS_INPLACE "Handle_NULL";
  DEFINE_SERVER_OPCODE_HANDLER 0x51C "SMSG_COMMENTATOR_SKIRMISH_QUEUE_RESULT1" STATUS_NEVER;
  DEFINE_SERVER_OPCODE_HANDLER 0x51D "SMSG_COMMENTATOR_SKIRMISH_QUEUE_RESULT2" STATUS_NEVER;
  DEFINE_SERVER_OPCODE_HANDLER 0x51E "SMSG_MULTIPLE_MOVES" STATUS_NEVER
].

Definition manifest : list ManifestEntry :=
  manifest_0xx ++ manifest_1xx ++ manifest_2xx ++ manifest_3xx ++ manifest_4xx ++ manifest_5xx.

(** ** The table *)

(** [ClientOpcodeHandler* _internalTableClient[NUM_OPCODE_HANDLERS]]; a null
    pointer is [None]. *)
Abbreviation InternalTable := (list (option ClientOpcodeHandler)).

(** The effect of a registration call: the table it leaves and the lines it
    logs.  [None] stands for undefined behaviour (an array access outside the
    array, a null pointer dereferenced). *)
Abbreviation Effect := (option (InternalTable * list LogLine)).

Section OpcodeTable.

(** [NUM_OPCODE_HANDLERS] and [NULL_OPCODE] of [Opcodes.h]. *)
Variable NUM_OPCODE_HANDLERS : N.
Variable NULL_OPCODE : N.

(** The size the array has by its type. *)
Definition table_wf (tbl : InternalTable) : Prop :=
  length tbl = N.to_nat NUM_OPCODE_HANDLERS.

(** [OpcodeTable::OpcodeTable()]: [memset] of the array to zero. *)
Definition OpcodeTable_new : InternalTable :=
  replicate (N.to_nat NUM_OPCODE_HANDLERS) None.

(** Modelled from the spec: [OpcodeTable::operator[]] is declared in
    [Opcodes.h], which is not among the sources.  The specification's
    [lookup(id)] returns the descriptor registered at [id], and none for an
    out-of-range or unregistered id. *)
Definition lookup (tbl : InternalTable) (index : N) : option ClientOpcodeHandler :=
  if index <? NUM_OPCODE_HANDLERS
  then match tbl !! N.to_nat index with
       | Some (Some handler) => Some handler
       | _ => None
       end
  else None.

(** [OpcodeTable::ValidateAndSetClientOpcode<Handler, HandlerFunction>]. *)
Definition ValidateAndSetClientOpcode (handlerFunction : string)
    (opcode : N) (name : string) (status : SessionStatus)
    (processing : PacketProcessing) (tbl : InternalTable) : Effect :=
  if uint32 opcode =? NULL_OPCODE then
    Some (tbl, [LOG_ERROR "network" "Opcode {} does not have a value"
                  [ArgString name]])
  else if NUM_OPCODE_HANDLERS <=? uint32 opcode then
    Some (tbl, [LOG_ERROR "network" "Tried to set handler for an invalid opcode {}"
                  [ArgUInt32 (uint32 opcode)]])
  else
    match tbl !! N.to_nat opcode with
    | None => None
    | Some (Some _) =>
        match lookup tbl opcode with
        | None => None
        | Some existing =>
            Some (tbl, [LOG_ERROR "network"
                          "Tried to override client handler of {} with {} (opcode {})"
                          [ArgString (Name existing); ArgString name;
                           ArgUInt32 (uint32 opcode)]])
        end
    | Some None =>
        Some (<[N.to_nat opcode := Some (PacketHandler name status processing
                                           handlerFunction)]> tbl, [])
    end.

(** [OpcodeTable::ValidateAndSetServerOpcode]. *)
Definition ValidateAndSetServerOpcode
    (opcode : N) (name : string) (status : SessionStatus)
    (tbl : InternalTable) : Effect :=
  if uint32 opcode =? NULL_OPCODE then
    Some (tbl, [LOG_ERROR "network" "Opcode {} does not have a value"
                  [ArgString name]])
  else if NUM_OPCODE_HANDLERS <=? uint32 opcode then
    Some (tbl, [LOG_ERROR "network" "Tried to set handler for an invalid opcode {}"
                  [ArgUInt32 (uint32 opcode)]])
  else
    match tbl !! N.to_nat opcode with
    | None => None
    | Some (Some _) =>
        match lookup tbl opcode with
        | None => None
        | Some existing =>
            Some (tbl, [LOG_ERROR "network"
                          "Tried to override server handler of {} with {} (opcode {})"
                          [ArgString (Name existing); ArgString name;
                           ArgUInt32 (uint32 opcode)]])
        end
    | Some None =>
        Some (<[N.to_nat opcode := Some (PacketHandler name status PROCESS_INPLACE
                                           "Handle_ServerSide")]> tbl, [])
    end.

(** [GetOpcodeNameForLoggingImpl<T>(T id)].  The range check and the number
    printed use [uint16(id)]; the table is indexed with [id] itself,
    [opcodeTable[id]].  The one instantiation is at [T = Opcodes]
    ([GetOpcodeNameForLogging]), whose values have 16 bits. *)
Definition GetOpcodeNameForLoggingImpl (opcodeTable : InternalTable) (id : N) : string :=
  let opcode := uint16 id in
  let ss := "[" in
  let ss :=
    if uint16 id <? NUM_OPCODE_HANDLERS then
      match lookup opcodeTable id with
      | Some handler => ss +:+ Name handler
      | None => ss +:+ "UNKNOWN OPCODE"
      end
    else ss +:+ "INVALID OPCODE" in
  let ss := ss +:+ " 0x" in
  let ss := ss +:+ setw_fill 4 "0"%char (put_uint16 16 true opcode) in
  let ss := ss +:+ " (" in
  let ss := ss +:+ put_uint16 10 false opcode in
  ss +:+ ")]".

(** [GetOpcodeNameForLogging(Opcodes opcode)]. *)
Definition GetOpcodeNameForLogging (opcodeTable : InternalTable) (opcode : N) : string :=
  GetOpcodeNameForLoggingImpl opcodeTable opcode.

(** *** Registration calls *)

(** A call of one of the two registration functions, with its arguments. *)
Inductive Registration : Set :=
| ClientOpcode (handlerFunction : string) (opcode : N) (name : string)
    (status : SessionStatus) (processing : PacketProcessing)
| ServerOpcode (opcode : N) (name : string) (status : SessionStatus).

Definition reg_opcode (r : Registration) : N :=
  match r with
  | ClientOpcode _ opcode _ _ _ => opcode
  | ServerOpcode opcode _ _ => opcode
  end.

(** The handler object the call allocates when it reaches its last
    statement. *)
Definition descriptor (r : Registration) : ClientOpcodeHandler :=
  match r with
  | ClientOpcode handlerFunction _ name status processing =>
      PacketHandler name status processing handlerFunction
  | ServerOpcode _ name status =>
      PacketHandler name status PROCESS_INPLACE "Handle_ServerSide"
  end.

Definition perform (r : Registration) (tbl : InternalTable) : Effect :=
  match r with
  | ClientOpcode handlerFunction opcode name status processing =>
      ValidateAndSetClientOpcode handlerFunction opcode name status processing tbl
  | ServerOpcode opcode name status =>
      ValidateAndSetServerOpcode opcode name status tbl
  end.

(** A sequence of calls, one after the other; the lines logged accumulate. *)
Fixpoint run (calls : list Registration) (tbl : InternalTable) : Effect :=
  match calls with
  | [] => Some (tbl, [])
  | r :: rest =>
      match perform r tbl with
      | None => None
      | Some (tbl', lines) =>
          match run rest tbl' with
          | None => None
          | Some (tbl'', lines') => Some (tbl'', (lines ++ lines')%list)
          end
      end
  end.

(** Whether some call of the sequence aimed at [id] went through to the
    installation (it logged nothing). *)
Fixpoint succeeded_at (id : N) (calls : list Registration)
    (tbl : InternalTable) : bool :=
  match calls with
  | [] => false
  | r :: rest =>
      match perform r tbl with
      | None => false
      | Some (tbl', lines) =>
          ((reg_opcode r =? id) && bool_decide (lines = []))
          || succeeded_at id rest tbl'
      end
  end.

(** *** The macros of [OpcodeTable::Initialize] *)

(** The condition of the [static_assert] in
    [DEFINE_SERVER_OPCODE_HANDLER]. *)
Definition server_status_ok (status : SessionStatus) : bool :=
  SessionStatus_eqb status STATUS_NEVER || SessionStatus_eqb status STATUS_UNHANDLED.

(** Whether an entry passes the static assertions of its macro:
    [DEFINE_HANDLER] has none. *)
Definition static_assert_ok (e : ManifestEntry) : bool :=
  match e with
  | DEFINE_HANDLER _ _ _ _ _ => true
  | DEFINE_SERVER_OPCODE_HANDLER _ _ status => server_status_ok status
  end.

(** A body of [Initialize] made of these entries compiles when every static
    assertion holds. *)
Definition compiles (entries : list ManifestEntry) : bool :=
  forallb static_assert_ok entries.

(** The call an entry expands to. *)
Definition expand (e : ManifestEntry) : Registration :=
  match e with
  | DEFINE_HANDLER value opcode status processing handler =>
      ClientOpcode handler value opcode status processing
  | DEFINE_SERVER_OPCODE_HANDLER value opcode status =>
      ServerOpcode value opcode status
  end.

(** [OpcodeTable::Initialize()] for a body made of the given entries, and for
    the entries of the source. *)
Definition Initialize_with (entries : list ManifestEntry)
    (tbl : InternalTable) : Effect :=
  run (map expand entries) tbl.

Definition Initialize (tbl : InternalTable) : Effect :=
  Initialize_with manifest tbl.

End OpcodeTable.

(** ** Reading a number back from its digits *)

(** These functions are the reading side of the formatting: they say which
    number a string of digits denotes, and are what the formatting is checked
    against. *)

Definition is_dec_digit (c : ascii) : bool :=
  let n := N_of_ascii c in (48 <=? n) && (n <=? 57).

Definition is_upper_hex_digit (c : ascii) : bool :=
  let n := N_of_ascii c in
  ((48 <=? n) && (n <=? 57)) || ((65 <=? n) && (n <=? 70)).

Definition digit_value (c : ascii) : option N :=
  let n := N_of_ascii c in
  if (48 <=? n) && (n <=? 57) then Some (n - 48)
  else if (65 <=? n) && (n <=? 70) then Some (n - 55)
  else if (97 <=? n) && (n <=? 102) then Some (n - 87)
  else None.

(** Value of the digits read so far, then of the rest of the string; [None]
    when a character is not a digit of the base. *)
Fixpoint read_digits (base : N) (acc : N) (s : string) : option N :=
  match s with
  | EmptyString => Some acc
  | String c rest =>
      match digit_value c with
      | Some d => if d <? base then read_digits base (acc * base + d) rest else None
      | None => None
      end
  end.

Definition read_number (base : N) (s : string) : option N :=
  match s with
  | EmptyString => None
  | _ => read_digits base 0 s
  end.

Fixpoint string_forallb (p : ascii -> bool) (s : string) : bool :=
  match s with
  | EmptyString => true
  | String c rest => p c && string_forallb p rest
  end.

(** A decimal numeral as a stream prints it: digits only, and no leading zero
    except for zero itself. *)
Definition canonical_decimal (s : string) : bool :=
  string_forallb is_dec_digit s &&
  match s with
  | EmptyString => false
  | String _ EmptyString => true
  | String c _ => negb (Ascii.eqb c "0")
  end.

(** The number a list of digits denotes, least significant digit first. *)
Definition value_lsb (base : N) (ds : list N) : N :=
  fold_right (fun d acc => acc * base + d) 0 ds.

(** ** The dispatch of the specification *)

(** Modelled from the spec: the state a session is in when a packet arrives
    (the session is not among the sources). *)
Inductive SessionState : Set :=
| SessionAuthed
| SessionRecentlyLoggedOut
| SessionLoggedIn
| SessionTransfer.

(** Modelled from the spec: the admission gate (the session update loop that
    implements it is not among the sources).  [Never] is never satisfied and
    [Unhandled] always is; a requirement of [LoggedIn] is satisfied by a
    session that is logged in or in transfer, not by one that is only
    authenticated; in the grace window after logout only the opcodes that
    require [LoggedInOrRecentlyLoggedOut] are granted besides those open to
    every authenticated session. *)
Definition AdmissionGate (actual : SessionState) (required : SessionStatus) : bool :=
  match required with
  | STATUS_NEVER => false
  | STATUS_UNHANDLED => true
  | STATUS_AUTHED => true
  | STATUS_LOGGEDIN_OR_RECENTLY_LOGGOUT =>
      match actual with
      | SessionAuthed => false
      | _ => true
      end
  | STATUS_LOGGEDIN =>
      match actual with
      | SessionLoggedIn | SessionTransfer => true
      | _ => false
      end
  | STATUS_TRANSFER =>
      match actual with
      | SessionTransfer => true
      | _ => false
      end
  end.

(** Modelled from the spec: the packet envelope, without its payload. *)
Record PacketEnvelope : Set := {
  envelope_opcode : N;
  envelope_session : N;
  arrival_sequence : N
}.

(** Modelled from the spec: the execution contexts.  What ran in place, what
    was handed to the worker pool, and the single queue the world tick drains
    from its head; each in the order of hand-off. *)
Record Scheduler : Set := {
  ran_in_place : list PacketEnvelope;
  worker_pool : list PacketEnvelope;
  serialized_queue : list PacketEnvelope
}.

(** Modelled from the spec: the two drop outcomes of steps 1 and 2, and the
    three execution paths of step 3. *)
Inductive DispatchOutcome : Set :=
| UnknownOpcode
| AdmissionDenied
| ExecutedInPlace
| SubmittedToWorkerPool
| EnqueuedSerialized.

(** Modelled from the spec: [dispatch], steps 1 to 3 (the dispatch engine is
    not among the sources).  The descriptor is looked up, the gate is asked,
    and the processing place of the descriptor selects the context. *)
Definition dispatch (NUM_OPCODE_HANDLERS : N) (tbl : InternalTable)
    (session_status : SessionState) (packet : PacketEnvelope)
    (sched : Scheduler) : DispatchOutcome * Scheduler :=
  match lookup NUM_OPCODE_HANDLERS tbl (envelope_opcode packet) with
  | None => (UnknownOpcode, sched)
  | Some handler =>
      if AdmissionGate session_status (Status handler) then
        match ProcessingPlace handler with
        | PROCESS_INPLACE =>
            (ExecutedInPlace,
             {| ran_in_place := ran_in_place sched ++ [packet];
                worker_pool := worker_pool sched;
                serialized_queue := serialized_queue sched |})
        | PROCESS_THREADSAFE =>
            (SubmittedToWorkerPool,
             {| ran_in_place := ran_in_place sched;
                worker_pool := worker_pool sched ++ [packet];
                serialized_queue := serialized_queue sched |})
        | PROCESS_THREADUNSAFE =>
            (EnqueuedSerialized,
             {| ran_in_place := ran_in_place sched;
                worker_pool := worker_pool sched;
                serialized_queue := serialized_queue sched ++ [packet] |})
        end
      else (AdmissionDenied, sched)
  end.

(** ** The manifest, entry by entry *)

Definition entry_name (e : ManifestEntry) : string :=
  match e with
  | DEFINE_HANDLER _ opcode _ _ _ => opcode
  | DEFINE_SERVER_OPCODE_HANDLER _ opcode _ => opcode
  end.

(** An opcode is server-originated when its name starts with [SMSG_], and
    client-originated when it starts with [CMSG_]. *)
Definition server_originated (e : ManifestEntry) : bool :=
  String.prefix "SMSG_" (entry_name e).

Definition client_originated (e : ManifestEntry) : bool :=
  String.prefix "CMSG_" (entry_name e).

Definition through_client_path (e : ManifestEntry) : bool :=
  match e with
  | DEFINE_HANDLER _ _ _ _ _ => true
  | DEFINE_SERVER_OPCODE_HANDLER _ _ _ => false
  end.

(** The registration path of a call, and the line a call logs when it finds
    its slot taken by a handler of the given name. *)
Definition client_path (r : Registration) : bool :=
  match r with
  | ClientOpcode _ _ _ _ _ => true
  | ServerOpcode _ _ _ => false
  end.

Definition override_line (r : Registration) (existing : string) : LogLine :=
  match r with
  | ClientOpcode _ opcode name _ _ =>
      LOG_ERROR "network" "Tried to override client handler of {} with {} (opcode {})"
        [ArgString existing; ArgString name; ArgUInt32 (uint32 opcode)]
  | ServerOpcode opcode name _ =>
      LOG_ERROR "network" "Tried to override server handler of {} with {} (opcode {})"
        [ArgString existing; ArgString name; ArgUInt32 (uint32 opcode)]
  end.

(** A call that installs a handler bound to [Handle_ServerSide] gives it a
    status the static assertion accepts. *)
Definition server_side_status_ok (r : Registration) : bool :=
  if String.eqb (HandlerFunction (descriptor r)) "Handle_ServerSide"
  then server_status_ok (Status (descriptor r))
  else true.

(** The opcodes of the calls fit the type of their parameter. *)
Definition is_typed (r : Registration) : bool := reg_opcode r <? 2 ^ 16.

Definition well_typed (calls : list Registration) : Prop :=
  Forall (fun r => is_Opcodes (reg_opcode r)) calls.

(** ** Handler objects and the destructor *)

(** The table holds pointers.  A store is the array of pointers together with
    the handler objects that are alive, by address; a null pointer is
    [None]. *)
Record Store : Type := {
  slots : list (option nat);
  objects : gmap nat ClientOpcodeHandler
}.

(** The outcome of a function with a loop: it returns, it runs into undefined
    behaviour, or the fuel given to the model runs out first. *)
Inductive Completion (A : Type) : Type :=
| Finished (a : A)
| Undefined
| OutOfFuel.

Arguments Finished {A} a.
Arguments Undefined {A}.
Arguments OutOfFuel {A}.

Section OpcodeTable_store.

Variable NUM_OPCODE_HANDLERS : N.
Variable NULL_OPCODE : N.

(** [OpcodeTable::OpcodeTable()]: every pointer null, no object allocated. *)
Definition Store_new : Store :=
  {| slots := replicate (N.to_nat NUM_OPCODE_HANDLERS) None; objects := ∅ |}.

(** Modelled from the spec: [OpcodeTable::operator[]] on pointers, the null
    pointer for an out-of-range or unregistered id (see [lookup]). *)
Definition pointer_at (st : Store) (index : N) : option nat :=
  if index <? NUM_OPCODE_HANDLERS
  then match slots st !! N.to_nat index with
       | Some (Some p) => Some p
       | _ => None
       end
  else None.

(** [new PacketHandler<...>(...)]: the object is placed at an address that
    holds no live object, here the first one, and the pointer is stored in
    the slot. *)
Definition install (st : Store) (index : nat) (handler : ClientOpcodeHandler) : Store :=
  let p := fresh (dom (objects st)) in
  {| slots := <[index := Some p]> (slots st);
     objects := <[p := handler]> (objects st) |}.

(** [OpcodeTable::ValidateAndSetClientOpcode] on the store.  [None] is
    undefined behaviour: an access outside the array, or a null or dangling
    pointer dereferenced. *)
Definition ValidateAndSetClientOpcode_store (handlerFunction : string)
    (opcode : N) (name : string) (status : SessionStatus)
    (processing : PacketProcessing) (st : Store) : option (Store * list LogLine) :=
  if uint32 opcode =? NULL_OPCODE then
    Some (st, [LOG_ERROR "network" "Opcode {} does not have a value"
                 [ArgString name]])
  else if NUM_OPCODE_HANDLERS <=? uint32 opcode then
    Some (st, [LOG_ERROR "network" "Tried to set handler for an invalid opcode {}"
                 [ArgUInt32 (uint32 opcode)]])
  else
    match slots st !! N.to_nat opcode with
    | None => None
    | Some (Some _) =>
        match pointer_at st opcode with
        | None => None
        | Some p =>
            match objects st !! p with
            | None => None
            | Some existing =>
                Some (st, [LOG_ERROR "network"
                             "Tried to override client handler of {} with {} (opcode {})"
                             [ArgString (Name existing); ArgString name;
                              ArgUInt32 (uint32 opcode)]])
            end
        end
    | Some None =>
        Some (install st (N.to_nat opcode)
                (PacketHandler name status processing handlerFunction), [])
    end.

(** [OpcodeTable::ValidateAndSetServerOpcode] on the store. *)
Definition ValidateAndSetServerOpcode_store
    (opcode : N) (name : string) (status : SessionStatus)
    (st : Store) : option (Store * list LogLine) :=
  if uint32 opcode =? NULL_OPCODE then
    Some (st, [LOG_ERROR "network" "Opcode {} does not have a value"
                 [ArgString name]])
  else if NUM_OPCODE_HANDLERS <=? uint32 opcode then
    Some (st, [LOG_ERROR "network" "Tried to set handler for an invalid opcode {}"
                 [ArgUInt32 (uint32 opcode)]])
  else
    match slots st !! N.to_nat opcode with
    | None => None
    | Some (Some _) =>
        match pointer_at st opcode with
        | None => None
        | Some p =>
            match objects st !! p with
            | None => None
            | Some existing =>
                Some (st, [LOG_ERROR "network"
                             "Tried to override server handler of {} with {} (opcode {})"
                             [ArgString (Name existing); ArgString name;
                              ArgUInt32 (uint32 opcode)]])
            end
        end
    | Some None =>
        Some (install st (N.to_nat opcode)
                (PacketHandler name status PROCESS_INPLACE "Handle_ServerSide"), [])
    end.

Definition perform_store (r : Registration) (st : Store) : option (Store * list LogLine) :=
  match r with
  | ClientOpcode handlerFunction opcode name status processing =>
      ValidateAndSetClientOpcode_store handlerFunction opcode name status processing st
  | ServerOpcode opcode name status =>
      ValidateAndSetServerOpcode_store opcode name status st
  end.

Fixpoint run_store (calls : list Registration) (st : Store) : option (Store * list LogLine) :=
  match calls with
  | [] => Some (st, [])
  | r :: rest =>
      match perform_store r st with
      | None => None
      | Some (st', lines) =>
          match run_store rest st' with
          | None => None
          | Some (st'', lines') => Some (st'', (lines ++ lines')%list)
          end
      end
  end.

(** The loop of [OpcodeTable::~OpcodeTable()], from counter [i] on:
    [for (uint16 i = 0; i < NUM_OPCODE_HANDLERS; ++i) delete
    _internalTableClient[i];].  Deleting a null pointer does nothing;
    deleting an object that is not alive is undefined; the pointer stays in
    its slot; the counter wraps at 16 bits. *)
Fixpoint destructor_loop (fuel : nat) (i : N) (st : Store) : Completion Store :=
  match fuel with
  | O => OutOfFuel
  | S fuel' =>
      if i <? NUM_OPCODE_HANDLERS then
        match slots st !! N.to_nat i with
        | None => Undefined
        | Some None => destructor_loop fuel' (uint16 (i + 1)) st
        | Some (Some p) =>
            match objects st !! p with
            | None => Undefined
            | Some _ =>
                destructor_loop fuel' (uint16 (i + 1))
                  {| slots := slots st; objects := delete p (objects st) |}
            end
        end
      else Finished st
  end.

(** [OpcodeTable::~OpcodeTable()]. *)
Definition destructor (fuel : nat) (st : Store) : Completion Store :=
  destructor_loop fuel 0 st.

End OpcodeTable_store.

(** The handlers a store holds, slot by slot: what the pointers point to. *)
Definition contents (st : Store) : InternalTable :=
  map (fun slot : option nat =>
         match slot with
         | Some p => objects st !! p
         | None => None
         end) (slots st).

(** The pointers of the table and the live objects correspond one to one:
    every pointer of a slot at index [from] or above points to a live object,
    no two such slots share a pointer, and every live object is pointed to by
    such a slot. *)
Definition owns_from (NUM : N) (from : nat) (st : Store) : Prop :=
  length (slots st) = N.to_nat NUM
  /\ (forall i p, (from <= i)%nat -> slots st !! i = Some (Some p) ->
        is_Some (objects st !! p))
  /\ (forall i j p, (from <= i)%nat -> (from <= j)%nat ->
        slots st !! i = Some (Some p) -> slots st !! j = Some (Some p) -> i = j)
  /\ (forall p, is_Some (objects st !! p) ->
        exists i, (from <= i)%nat /\ slots st !! i = Some (Some p)).

(** ** Counting *)

(** The number of slots of the table that hold a handler. *)
Definition occupied (tbl : InternalTable) : nat :=
  length (List.filter (fun slot : option ClientOpcodeHandler =>
                         match slot with Some _ => true | None => false end) tbl).

(** The value of the enumerator an entry names. *)
Definition entry_value (e : ManifestEntry) : N :=
  match e with
  | DEFINE_HANDLER value _ _ _ _ => value
  | DEFINE_SERVER_OPCODE_HANDLER value _ _ => value
  end.

Example log_unknown :
  GetOpcodeNameForLogging 0x51F (OpcodeTable_new 0x51F) 0x36 = "[UNKNOWN OPCODE 0x0036 (54)]".
Proof. vm_compute. reflexivity. Qed.

Example log_invalid :
  GetOpcodeNameForLogging 0x51F (OpcodeTable_new 0x51F) 0xABCD = "[INVALID OPCODE 0xABCD (43981)]".
Proof. vm_compute. reflexivity. Qed.

Example initialize_runs :
  exists tbl, Initialize 0x51F 0 (OpcodeTable_new 0x51F) = Some (tbl, [])
    /\ GetOpcodeNameForLogging 0x51F tbl 0x36 = "[CMSG_CHAR_CREATE 0x0036 (54)]".
Proof. vm_compute. eexists. split; reflexivity. Qed.

Example manifest_paths :
  (length (List.filter (fun e => server_originated e && through_client_path e) manifest),
   List.filter (fun e => client_originated e && negb (through_client_path e)) manifest)
  = (0%nat, [DEFINE_SERVER_OPCODE_HANDLER 0x29A "CMSG_GMTICKETSYSTEM_TOGGLE" STATUS_NEVER]).
Proof. vm_compute. reflexivity. Qed.

Example read_back :
  read_number 16 "0036" = Some 54 /\ read_number 10 "54" = Some 54
  /\ canonical_decimal "54" = true /\ canonical_decimal "054" = false.
Proof. vm_compute. auto. Qed.

(** ** Formatting *)

Lemma string_app_assoc (a b c : string) : (a +:+ b) +:+ c = a +:+ (b +:+ c).
Proof.
  induction a as [|x a IH]; [reflexivity|].
  change (String x ((a +:+ b) +:+ c) = String x (a +:+ (b +:+ c))).
  rewrite IH. reflexivity.
Qed.

Lemma string_length_app (a b : string) :
  String.length (a +:+ b) = (String.length a + String.length b)%nat.
Proof.
  induction a as [|x a IH]; [reflexivity|].
  change (S (String.length (a +:+ b)) = S (String.length a + String.length b)).
  rewrite IH. reflexivity.
Qed.

Lemma string_forallb_app (p : ascii -> bool) (a b : string) :
  string_forallb p (a +:+ b) = string_forallb p a && string_forallb p b.
Proof.
  induction a as [|x a IH]; [reflexivity|].
  change (p x && string_forallb p (a +:+ b)
          = p x && string_forallb p a && string_forallb p b).
  rewrite IH, andb_assoc. reflexivity.
Qed.

Lemma string_of_list_length (l : list ascii) :
  String.length (string_of_list_ascii l) = length l.
Proof. induction l as [|x l IH]; cbn; [reflexivity|]. rewrite IH. reflexivity. Qed.

Lemma string_forallb_of_list (p : ascii -> bool) (l : list ascii) :
  string_forallb p (string_of_list_ascii l) = forallb p l.
Proof. induction l as [|x l IH]; cbn; [reflexivity|]. rewrite IH. reflexivity. Qed.

(** *** Digits *)

Section Digits.

Variable base : N.
Hypothesis base_ge_2 : 2 <= base.

Lemma digits_lsb_value (fuel : nat) (n : N) :
  n < base ^ N.of_nat fuel -> (0 < fuel)%nat ->
  value_lsb base (digits_lsb fuel base n) = n.
Proof.
  revert n. induction fuel as [|fuel IH]; intros n Hn Hfuel; [lia|].
  cbn [digits_lsb]. unfold value_lsb. cbn [fold_right].
  destruct (N.eqb_spec (n / base) 0) as [Hq|Hq].
  - cbn [fold_right]. rewrite N.mul_0_l, N.add_0_l.
    apply N.mod_small. apply N.div_small_iff; [lia|exact Hq].
  - assert (n / base < base ^ N.of_nat fuel) as Hlt.
    { apply N.Div0.div_lt_upper_bound.
      rewrite Nat2N.inj_succ, N.pow_succ_r' in Hn. exact Hn. }
    assert (0 < fuel)%nat as Hpos.
    { destruct fuel; [|lia]. change (n / base < 1) in Hlt.
      apply N.lt_1_r in Hlt. contradiction. }
    change (value_lsb base (digits_lsb fuel base (n / base)) * base + n mod base = n).
    rewrite (IH _ Hlt Hpos), N.mul_comm.
    symmetry. apply N.div_mod. lia.
Qed.

Lemma digits_lsb_bound (fuel : nat) (n : N) :
  Forall (fun d => d < base) (digits_lsb fuel base n).
Proof.
  revert n. induction fuel as [|fuel IH]; intros n; cbn [digits_lsb].
  - constructor.
  - constructor; [apply N.mod_lt; lia|].
    destruct (n / base =? 0); [constructor|apply IH].
Qed.

Lemma digits_lsb_length (fuel k : nat) (n : N) :
  n < base ^ N.of_nat k -> (0 < k)%nat ->
  (length (digits_lsb fuel base n) <= k)%nat.
Proof.
  revert n k. induction fuel as [|fuel IH]; intros n k Hn Hk; cbn [digits_lsb length].
  - lia.
  - destruct (N.eqb_spec (n / base) 0) as [Hq|Hq]; [cbn; lia|].
    destruct k as [|k]; [lia|].
    assert (n / base < base ^ N.of_nat k) as Hlt.
    { apply N.Div0.div_lt_upper_bound.
      rewrite Nat2N.inj_succ, N.pow_succ_r' in Hn. exact Hn. }
    assert (0 < k)%nat as Hpos.
    { destruct k; [|lia]. change (n / base < 1) in Hlt.
      apply N.lt_1_r in Hlt. contradiction. }
    specialize (IH _ _ Hlt Hpos). lia.
Qed.

(** The most significant digit of a number that is not zero is not zero. *)
Lemma digits_lsb_last (fuel : nat) (n : N) :
  n <> 0 -> n < base ^ N.of_nat fuel ->
  exists ds d, digits_lsb fuel base n = (ds ++ [d])%list /\ d <> 0.
Proof.
  revert n. induction fuel as [|fuel IH]; intros n Hn Hlt.
  - cbn in Hlt. lia.
  - cbn [digits_lsb].
    destruct (N.eqb_spec (n / base) 0) as [Hq|Hq].
    + exists [], (n mod base). split; [reflexivity|].
      rewrite N.mod_small; [exact Hn|]. apply N.div_small_iff; [lia|exact Hq].
    + assert (n / base < base ^ N.of_nat fuel) as Hlt'.
      { apply N.Div0.div_lt_upper_bound.
        rewrite Nat2N.inj_succ, N.pow_succ_r' in Hlt. exact Hlt. }
      destruct (IH _ Hq Hlt') as (ds & d & Heq & Hd).
      exists (n mod base :: ds), d. rewrite Heq. split; [reflexivity|exact Hd].
Qed.

End Digits.

Lemma small_digit (d : N) :
  d < 16 ->
  d = 0 \/ d = 1 \/ d = 2 \/ d = 3 \/ d = 4 \/ d = 5 \/ d = 6 \/ d = 7 \/ d = 8
  \/ d = 9 \/ d = 10 \/ d = 11 \/ d = 12 \/ d = 13 \/ d = 14 \/ d = 15.
Proof. lia. Qed.

Ltac each_digit H :=
  apply small_digit in H;
  repeat (destruct H as [H|H]; [subst; try lia; vm_compute; try reflexivity|]);
  subst; try lia; vm_compute; try reflexivity.

Lemma digit_value_char (uppercase : bool) (d : N) :
  d < 16 -> digit_value (digit_char uppercase d) = Some d.
Proof. intros H. destruct uppercase; each_digit H. Qed.

Lemma upper_hex_char (d : N) :
  d < 16 -> is_upper_hex_digit (digit_char true d) = true.
Proof. intros H. each_digit H. Qed.

Lemma dec_char (uppercase : bool) (d : N) :
  d < 10 -> is_dec_digit (digit_char uppercase d) = true.
Proof.
  intros H. assert (d < 16) as H16 by lia. destruct uppercase; each_digit H16.
Qed.

Lemma nonzero_char (uppercase : bool) (d : N) :
  d < 10 -> d <> 0 -> Ascii.eqb (digit_char uppercase d) "0" = false.
Proof.
  intros H Hnz. assert (d < 16) as H16 by lia. destruct uppercase; each_digit H16.
Qed.

(** Reading back the characters of a list of digits, most significant
    first. *)
Lemma read_digits_chars (base : N) (uppercase : bool) (ds : list N) (acc : N) :
  base <= 16 -> Forall (fun d => d < base) ds ->
  read_digits base acc (string_of_list_ascii (map (digit_char uppercase) ds))
  = Some (fold_left (fun acc d => acc * base + d) ds acc).
Proof.
  intros Hbase Hds. revert acc.
  induction Hds as [|d ds Hd Hds IH]; intros acc; cbn; [reflexivity|].
  rewrite digit_value_char by lia.
  apply N.ltb_lt in Hd. rewrite Hd. apply IH.
Qed.

Lemma read_digits_zeros (base : N) (k : nat) (s : string) :
  0 < base ->
  read_digits base 0 (string_of_list_ascii (replicate k "0"%char) +:+ s)
  = read_digits base 0 s.
Proof.
  intros Hbase. induction k as [|k IH]; [reflexivity|].
  change (read_digits base 0
            (String "0" (string_of_list_ascii (replicate k "0"%char) +:+ s))
          = read_digits base 0 s).
  cbn [read_digits].
  change (digit_value "0"%char) with (Some 0). cbv iota.
  apply N.ltb_lt in Hbase. rewrite Hbase. exact IH.
Qed.

(** What [operator<<] writes for a 16-bit value denotes that value. *)
Lemma put_uint16_reads (base : N) (uppercase : bool) (n : N) :
  2 <= base -> base <= 16 -> n < 2 ^ 16 ->
  read_digits base 0 (put_uint16 base uppercase n) = Some n.
Proof.
  intros Hge Hle Hn. unfold put_uint16.
  rewrite read_digits_chars; [|exact Hle|].
  - f_equal. rewrite <- fold_left_rev_right, rev_involutive.
    apply (digits_lsb_value base Hge 16 n); [|lia].
    eapply N.lt_le_trans; [exact Hn|].
    change (2 ^ 16) with (2 ^ N.of_nat 16).
    apply N.pow_le_mono_l. exact Hge.
  - apply Forall_rev. apply digits_lsb_bound. exact Hge.
Qed.

Lemma put_uint16_nonempty (base : N) (uppercase : bool) (n : N) :
  exists c rest, put_uint16 base uppercase n = String c rest.
Proof.
  unfold put_uint16. cbn [digits_lsb].
  destruct (n / base =? 0).
  - cbn. eauto.
  - cbn [rev]. destruct (rev _) as [|x l]; cbn; eauto.
Qed.

(** The hexadecimal field: four upper-case digits that denote the value. *)
Lemma hex_field (n : N) :
  n < 2 ^ 16 ->
  let h := setw_fill 4 "0" (put_uint16 16 true n) in
  String.length h = 4%nat
  /\ string_forallb is_upper_hex_digit h = true
  /\ read_number 16 h = Some n.
Proof.
  intros Hn h. subst h. unfold setw_fill.
  assert (String.length (put_uint16 16 true n) <= 4)%nat as Hlen.
  { unfold put_uint16. rewrite string_of_list_length, length_map, length_rev.
    apply (digits_lsb_length 16); [lia| |lia]. exact Hn. }
  destruct (put_uint16_nonempty 16 true n) as (c & rest & Hput).
  split; [|split].
  - rewrite string_length_app, string_of_list_length, length_replicate. lia.
  - rewrite string_forallb_app, string_forallb_of_list. apply andb_true_iff. split.
    + apply forallb_forall. intros x Hx. apply list_elem_of_In in Hx.
      apply elem_of_replicate in Hx as [-> _]. reflexivity.
    + unfold put_uint16. rewrite string_forallb_of_list, forallb_forall.
      intros x Hx. apply in_map_iff in Hx as (d & <- & Hd).
      apply upper_hex_char. apply in_rev in Hd.
      assert (2 <= 16) as H16 by lia. pose proof (digits_lsb_bound 16 H16 16 n) as Hall.
      rewrite List.Forall_forall in Hall. exact (Hall _ Hd).
  - assert (read_digits 16 0
              (string_of_list_ascii
                 (replicate (4 - String.length (put_uint16 16 true n)) "0"%char)
               +:+ put_uint16 16 true n) = Some n) as Hread.
    { rewrite read_digits_zeros by lia. apply put_uint16_reads; [lia|lia|exact Hn]. }
    unfold read_number.
    destruct (_ +:+ _) eqn:Happ; [|exact Hread].
    apply (f_equal String.length) in Happ.
    rewrite string_length_app, Hput in Happ. cbn in Happ. lia.
Qed.

(** The decimal field: the canonical numeral of the value. *)
Lemma dec_field (n : N) :
  n < 2 ^ 16 ->
  let d := put_uint16 10 false n in
  canonical_decimal d = true /\ read_number 10 d = Some n.
Proof.
  intros Hn d. subst d. split.
  - unfold canonical_decimal. apply andb_true_iff. split.
    + unfold put_uint16. rewrite string_forallb_of_list, forallb_forall.
      intros x Hx. apply in_map_iff in Hx as (d & <- & Hd).
      apply dec_char. apply in_rev in Hd.
      assert (2 <= 10) as H10 by lia. pose proof (digits_lsb_bound 10 H10 16 n) as Hall.
      rewrite List.Forall_forall in Hall. exact (Hall _ Hd).
    + destruct (N.eq_dec n 0) as [->|Hnz]; [reflexivity|].
      assert (n < 10 ^ N.of_nat 16) as Hlt.
      { eapply N.lt_le_trans; [exact Hn|]. vm_compute. discriminate. }
      assert (2 <= 10) as H10 by lia.
      destruct (digits_lsb_last 10 H10 16 n Hnz Hlt) as (ds & top & Heq & Htop).
      unfold put_uint16. rewrite Heq, rev_app_distr. cbn [rev app map string_of_list_ascii].
      assert (top < 10) as Hbound.
      { pose proof (digits_lsb_bound 10 H10 16 n) as Hall.
        rewrite Heq in Hall. rewrite List.Forall_forall in Hall.
        apply Hall. apply in_or_app. right. left. reflexivity. }
      rewrite nonzero_char by assumption.
      destruct (string_of_list_ascii _); reflexivity.
  - destruct (put_uint16_nonempty 10 false n) as (c & rest & Hput).
    unfold read_number. rewrite Hput, <- Hput.
    apply put_uint16_reads; [lia|lia|exact Hn].
Qed.

(** * Properties *)

(** ** Registration *)

Section Registration_facts.

Variable NUM_OPCODE_HANDLERS : N.
Variable NULL_OPCODE : N.

Local Abbreviation wf := (table_wf NUM_OPCODE_HANDLERS).
Local Abbreviation new_table := (OpcodeTable_new NUM_OPCODE_HANDLERS).
Local Abbreviation lookup_in := (lookup NUM_OPCODE_HANDLERS).
Local Abbreviation perform_on := (perform NUM_OPCODE_HANDLERS NULL_OPCODE).
Local Abbreviation run_on := (run NUM_OPCODE_HANDLERS NULL_OPCODE).

Lemma uint32_Opcodes (x : N) : is_Opcodes x -> uint32 x = x.
Proof.
  unfold is_Opcodes, uint32. intros Hx. apply N.mod_small.
  eapply N.lt_trans; [exact Hx|]. reflexivity.
Qed.

Lemma new_table_wf : wf new_table.
Proof. unfold table_wf, OpcodeTable_new. apply length_replicate. Qed.

Lemma lookup_new_table (id : N) : lookup_in new_table id = None.
Proof.
  unfold lookup, OpcodeTable_new.
  destruct (id <? NUM_OPCODE_HANDLERS) eqn:Hlt; [|reflexivity].
  apply N.ltb_lt in Hlt.
  rewrite lookup_replicate_2 by lia. reflexivity.
Qed.

Lemma lookup_out_of_range (tbl : InternalTable) (id : N) :
  NUM_OPCODE_HANDLERS <= id -> lookup_in tbl id = None.
Proof.
  intros Hge. unfold lookup.
  destruct (N.ltb_spec id NUM_OPCODE_HANDLERS); [lia|reflexivity].
Qed.

(** How [lookup] sees the slot of an index inside the array. *)
Lemma lookup_slot (tbl : InternalTable) (id : N) :
  wf tbl -> id < NUM_OPCODE_HANDLERS ->
  exists slot, tbl !! N.to_nat id = Some slot /\ lookup_in tbl id = slot.
Proof.
  intros Hwf Hlt.
  destruct (tbl !! N.to_nat id) as [slot|] eqn:Hslot.
  - exists slot. split; [reflexivity|]. unfold lookup.
    apply N.ltb_lt in Hlt. rewrite Hlt, Hslot. destruct slot; reflexivity.
  - apply lookup_ge_None in Hslot. unfold table_wf in Hwf. lia.
Qed.

Lemma lookup_insert_slot (tbl : InternalTable) (id id' : N) (h : ClientOpcodeHandler) :
  wf tbl -> id < NUM_OPCODE_HANDLERS ->
  lookup_in (<[N.to_nat id := Some h]> tbl) id'
  = if id' =? id then Some h else lookup_in tbl id'.
Proof.
  intros Hwf Hlt. unfold lookup.
  destruct (N.eqb_spec id' id) as [->|Hne].
  - apply N.ltb_lt in Hlt as Hb. rewrite Hb.
    rewrite list_lookup_insert_eq; [reflexivity|]. unfold table_wf in Hwf. lia.
  - rewrite list_lookup_insert_ne by lia. reflexivity.
Qed.

(** The two ways a call can end on a table of the right size, for an opcode
    that fits its type: it installs its descriptor in an empty slot and logs
    nothing, or it logs one line and leaves the table as it was. *)
Lemma perform_cases (r : Registration) (tbl : InternalTable) :
  wf tbl -> is_Opcodes (reg_opcode r) ->
  (perform_on r tbl
     = Some (<[N.to_nat (reg_opcode r) := Some (descriptor r)]> tbl, [])
   /\ reg_opcode r <> NULL_OPCODE
   /\ reg_opcode r < NUM_OPCODE_HANDLERS
   /\ lookup_in tbl (reg_opcode r) = None)
  \/ (exists line, perform_on r tbl = Some (tbl, [line])
      /\ (reg_opcode r = NULL_OPCODE
          \/ NUM_OPCODE_HANDLERS <= reg_opcode r
          \/ is_Some (lookup_in tbl (reg_opcode r)))).
Proof.
  intros Hwf Hty.
  destruct r as [hf opcode name status processing | opcode name status];
    cbn [perform reg_opcode descriptor] in *;
    unfold ValidateAndSetClientOpcode, ValidateAndSetServerOpcode;
    rewrite (uint32_Opcodes _ Hty);
    (destruct (N.eqb_spec opcode NULL_OPCODE) as [Hnull|Hnull];
       [right; eexists; split; [reflexivity|]; left; exact Hnull|]);
    (destruct (N.leb_spec NUM_OPCODE_HANDLERS opcode) as [Hge|Hlt];
       [right; eexists; split; [reflexivity|]; right; left; exact Hge|]);
    destruct (lookup_slot tbl opcode Hwf Hlt) as (slot & Hslot & Hlook);
    rewrite Hslot; destruct slot as [existing|]; rewrite Hlook.
  - right. eexists. split; [reflexivity|]. right. right. eexists. reflexivity.
  - left. repeat split; assumption.
  - right. eexists. split; [reflexivity|]. right. right. eexists. reflexivity.
  - left. repeat split; assumption.
Qed.

Lemma perform_wf (r : Registration) (tbl tbl' : InternalTable) (lines : list LogLine) :
  wf tbl -> is_Opcodes (reg_opcode r) ->
  perform_on r tbl = Some (tbl', lines) -> wf tbl'.
Proof.
  intros Hwf Hty Hrun.
  destruct (perform_cases r tbl Hwf Hty) as [(Heq & _) | (line & Heq & _)];
    rewrite Heq in Hrun; inversion Hrun; subst; [|assumption].
  unfold table_wf in *. rewrite length_insert. assumption.
Qed.

(** A descriptor that is in the table stays there, whatever is called. *)
Lemma perform_retains (r : Registration) (tbl tbl' : InternalTable)
    (lines : list LogLine) (id : N) (h : ClientOpcodeHandler) :
  wf tbl -> is_Opcodes (reg_opcode r) ->
  perform_on r tbl = Some (tbl', lines) ->
  lookup_in tbl id = Some h -> lookup_in tbl' id = Some h.
Proof.
  intros Hwf Hty Hrun Hlook.
  destruct (perform_cases r tbl Hwf Hty) as [(Heq & _ & Hlt & Hfree) | (line & Heq & _)];
    rewrite Heq in Hrun; inversion Hrun; subst; [|assumption].
  rewrite lookup_insert_slot by assumption.
  destruct (N.eqb_spec id (reg_opcode r)) as [->|_]; [congruence|assumption].
Qed.

(** No sequence of well-typed calls runs into undefined behaviour. *)
Lemma run_total (calls : list Registration) (tbl : InternalTable) :
  wf tbl -> well_typed calls ->
  exists tbl' lines, run_on calls tbl = Some (tbl', lines) /\ wf tbl'.
Proof.
  intros Hwf Hty. revert tbl Hwf.
  induction Hty as [|r rest Hr Hrest IH]; intros tbl Hwf; cbn [run].
  - exists tbl, []. split; [reflexivity|assumption].
  - assert (exists tbl1 lines1, perform_on r tbl = Some (tbl1, lines1))
      as (tbl1 & lines1 & Hstep).
    { destruct (perform_cases r tbl Hwf Hr) as [(Heq & _) | (line & Heq & _)];
        rewrite Heq; eauto. }
    rewrite Hstep.
    destruct (IH tbl1 (perform_wf _ _ _ _ Hwf Hr Hstep)) as (tbl' & lines' & Hrun & Hwf').
    rewrite Hrun. eauto.
Qed.

Lemma run_retains (calls : list Registration) (tbl tbl' : InternalTable)
    (lines : list LogLine) (id : N) (h : ClientOpcodeHandler) :
  wf tbl -> well_typed calls ->
  run_on calls tbl = Some (tbl', lines) ->
  lookup_in tbl id = Some h -> lookup_in tbl' id = Some h.
Proof.
  intros Hwf Hty. revert tbl lines Hwf.
  induction Hty as [|r rest Hr Hrest IH]; intros tbl lines Hwf Hrun Hlook;
    cbn [run] in Hrun.
  - inversion Hrun; subst. assumption.
  - destruct (perform_on r tbl) as [[tbl1 lines1]|] eqn:Hstep; [|discriminate].
    destruct (run_on rest tbl1) as [[tbl2 lines2]|] eqn:Hrest'; [|discriminate].
    inversion Hrun; subst.
    eapply IH; [|exact Hrest'|].
    + eapply perform_wf; eassumption.
    + eapply perform_retains; eassumption.
Qed.

(** First registration wins: after a run, an id that was free holds the
    descriptor of the first call aimed at it, provided the id is neither the
    unset value nor out of range. *)
Lemma lookup_run (calls : list Registration) (tbl tbl' : InternalTable)
    (lines : list LogLine) (id : N) :
  wf tbl -> well_typed calls ->
  run_on calls tbl = Some (tbl', lines) ->
  lookup_in tbl' id
  = match lookup_in tbl id with
    | Some h => Some h
    | None =>
        if (id =? NULL_OPCODE) || (NUM_OPCODE_HANDLERS <=? id) then None
        else option_map descriptor (List.find (fun r => reg_opcode r =? id) calls)
    end.
Proof.
  intros Hwf Hty. revert tbl lines Hwf.
  induction Hty as [|r rest Hr Hrest IH]; intros tbl lines Hwf Hrun;
    cbn [run] in Hrun.
  - inversion Hrun; subst. destruct (lookup_in tbl' id); [reflexivity|].
    cbn. destruct (_ || _); reflexivity.
  - destruct (perform_on r tbl) as [[tbl1 lines1]|] eqn:Hstep; [|discriminate].
    destruct (run_on rest tbl1) as [[tbl2 lines2]|] eqn:Hrest'; [|discriminate].
    inversion Hrun; subst. clear Hrun.
    rewrite (IH tbl1 lines2 (perform_wf _ _ _ _ Hwf Hr Hstep) Hrest').
    cbn [List.find].
    destruct (perform_cases r tbl Hwf Hr)
      as [(Heq & Hnull & Hlt & Hfree) | (line & Heq & Hwhy)];
      rewrite Heq in Hstep; inversion Hstep; subst; clear Hstep.
    + rewrite lookup_insert_slot by assumption.
      destruct (N.eqb_spec id (reg_opcode r)) as [->|Hne].
      * rewrite Hfree, N.eqb_refl.
        destruct (N.eqb_spec (reg_opcode r) NULL_OPCODE); [contradiction|].
        destruct (N.leb_spec NUM_OPCODE_HANDLERS (reg_opcode r)); [lia|].
        reflexivity.
      * destruct (N.eqb_spec (reg_opcode r) id); [congruence|reflexivity].
    + destruct (lookup_in tbl1 id) eqn:Hid; [reflexivity|].
      destruct (N.eqb_spec (reg_opcode r) id) as [<-|Hne]; [|reflexivity].
      destruct Hwhy as [Hnull | [Hge | [h Hocc]]].
      * apply N.eqb_eq in Hnull. rewrite Hnull. reflexivity.
      * apply N.leb_le in Hge. rewrite Hge, orb_true_r. reflexivity.
      * congruence.
Qed.

(** A call on an occupied slot logs the override line with the name of the
    handler that is there, and changes nothing. *)
Lemma perform_occupied (r : Registration) (tbl : InternalTable)
    (existing : ClientOpcodeHandler) :
  wf tbl -> is_Opcodes (reg_opcode r) ->
  reg_opcode r <> NULL_OPCODE ->
  lookup_in tbl (reg_opcode r) = Some existing ->
  perform_on r tbl = Some (tbl, [override_line r (Name existing)]).
Proof.
  intros Hwf Hty Hnull Hocc.
  assert (reg_opcode r < NUM_OPCODE_HANDLERS) as Hlt.
  { destruct (N.lt_ge_cases (reg_opcode r) NUM_OPCODE_HANDLERS) as [H|H]; [exact H|].
    rewrite lookup_out_of_range in Hocc by exact H. discriminate. }
  destruct (lookup_slot tbl _ Hwf Hlt) as (slot & Hslot & Hlook).
  rewrite Hocc in Hlook. subst slot.
  destruct r as [hf opcode name status processing | opcode name status];
    cbn [perform reg_opcode override_line] in *;
    unfold ValidateAndSetClientOpcode, ValidateAndSetServerOpcode;
    rewrite (uint32_Opcodes _ Hty);
    (destruct (N.eqb_spec opcode NULL_OPCODE); [contradiction|]);
    (destruct (N.leb_spec NUM_OPCODE_HANDLERS opcode); [lia|]);
    rewrite Hslot, Hocc; reflexivity.
Qed.

Lemma not_succeeded_lookup (calls : list Registration) (tbl tbl' : InternalTable)
    (lines : list LogLine) (id : N) :
  wf tbl -> well_typed calls ->
  run_on calls tbl = Some (tbl', lines) ->
  lookup_in tbl id = None ->
  succeeded_at NUM_OPCODE_HANDLERS NULL_OPCODE id calls tbl = false ->
  lookup_in tbl' id = None.
Proof.
  intros Hwf Hty. revert tbl lines Hwf.
  induction Hty as [|r rest Hr Hrest IH]; intros tbl lines Hwf Hrun Hfree Hnot;
    cbn [run succeeded_at] in Hrun, Hnot.
  - inversion Hrun; subst. assumption.
  - destruct (perform_on r tbl) as [[tbl1 lines1]|] eqn:Hstep; [|discriminate].
    destruct (run_on rest tbl1) as [[tbl2 lines2]|] eqn:Hrest'; [|discriminate].
    inversion Hrun; subst. clear Hrun.
    apply orb_false_iff in Hnot as [Hhere Hafter].
    apply (IH tbl1 lines2); try assumption.
    + eapply perform_wf; eassumption.
    + destruct (perform_cases r tbl Hwf Hr)
        as [(Heq & _ & Hlt & _) | (line & Heq & _)];
        rewrite Heq in Hstep; inversion Hstep; subst; [|assumption].
      rewrite lookup_insert_slot by assumption.
      rewrite andb_true_r in Hhere. rewrite N.eqb_sym, Hhere. assumption.
Qed.

(** C1. Duplicate registration is rejected and the original is retained: once
    a call of either registration function has installed its descriptor at an
    id, the descriptor is what [lookup] returns there after any further calls,
    and a later call of either function at the same id logs an error and
    leaves the table as it is. *)
Theorem duplicate_registration_rejected
    (a b : Registration) (later : list Registration) (tbl tbl1 : InternalTable) :
  wf tbl -> is_Opcodes (reg_opcode a) -> well_typed later ->
  perform_on a tbl = Some (tbl1, []) ->
  reg_opcode b = reg_opcode a ->
  lookup_in tbl1 (reg_opcode a) = Some (descriptor a)
  /\ exists tbl2 lines line,
       run_on later tbl1 = Some (tbl2, lines)
       /\ perform_on b tbl2 = Some (tbl2, [line])
       /\ lookup_in tbl2 (reg_opcode a) = Some (descriptor a).
Proof.
  intros Hwf Hty Hlater Hdone Hsame.
  assert (wf tbl1) as Hwf1 by (eapply perform_wf; eassumption).
  assert (lookup_in tbl1 (reg_opcode a) = Some (descriptor a)) as Hat.
  { destruct (perform_cases a tbl Hwf Hty) as [(Heq & _ & Hlt & _) | (line & Heq & _)];
      rewrite Heq in Hdone; inversion Hdone; subst.
    rewrite lookup_insert_slot, N.eqb_refl by assumption. reflexivity. }
  split; [exact Hat|].
  destruct (run_total later tbl1 Hwf1 Hlater) as (tbl2 & lines & Hrun & Hwf2).
  assert (lookup_in tbl2 (reg_opcode a) = Some (descriptor a)) as Hat2
    by exact (run_retains later tbl1 tbl2 lines _ _ Hwf1 Hlater Hrun Hat).
  assert (is_Opcodes (reg_opcode b)) as Htyb by (rewrite Hsame; exact Hty).
  destruct (perform_cases b tbl2 Hwf2 Htyb) as [(_ & _ & _ & Hfree) | (line & Heq & _)].
  - rewrite Hsame in Hfree. congruence.
  - exists tbl2, lines, line. auto.
Qed.

(** C5. Registration with the unset value [NULL_OPCODE] is rejected on both
    paths whatever the other arguments are: the call logs that the opcode has
    no value and installs nothing. *)
Theorem null_opcode_rejected
    (tbl : InternalTable) (handlerFunction name : string)
    (status : SessionStatus) (processing : PacketProcessing) :
  is_Opcodes NULL_OPCODE ->
  ValidateAndSetClientOpcode NUM_OPCODE_HANDLERS NULL_OPCODE
      handlerFunction NULL_OPCODE name status processing tbl
    = Some (tbl, [LOG_ERROR "network" "Opcode {} does not have a value"
                    [ArgString name]])
  /\ ValidateAndSetServerOpcode NUM_OPCODE_HANDLERS NULL_OPCODE
        NULL_OPCODE name status tbl
      = Some (tbl, [LOG_ERROR "network" "Opcode {} does not have a value"
                      [ArgString name]]).
Proof.
  intros Hty. unfold ValidateAndSetClientOpcode, ValidateAndSetServerOpcode.
  rewrite (uint32_Opcodes _ Hty), N.eqb_refl. split; reflexivity.
Qed.

(** C6. A failing registration is not fatal: a call whose opcode is the unset
    value, is out of range, or whose slot is occupied logs one line and leaves
    the table unchanged, and the calls after it run to their end exactly as
    they do without it. *)
Theorem failing_registration_skipped
    (r : Registration) (rest : list Registration) (tbl : InternalTable) :
  wf tbl -> is_Opcodes (reg_opcode r) -> well_typed rest ->
  reg_opcode r = NULL_OPCODE
    \/ NUM_OPCODE_HANDLERS <= reg_opcode r
    \/ is_Some (lookup_in tbl (reg_opcode r)) ->
  exists line tbl' lines,
    perform_on r tbl = Some (tbl, [line])
    /\ run_on rest tbl = Some (tbl', lines)
    /\ run_on (r :: rest) tbl = Some (tbl', line :: lines).
Proof.
  intros Hwf Hty Hrest Hwhy.
  destruct (run_total rest tbl Hwf Hrest) as (tbl' & lines & Hrun & _).
  destruct (perform_cases r tbl Hwf Hty)
    as [(_ & Hnull & Hlt & Hfree) | (line & Heq & _)].
  - destruct Hwhy as [H | [H | [h H]]]; [contradiction | lia | congruence].
  - exists line, tbl', lines. cbn [run]. rewrite Heq, Hrun. auto.
Qed.

(** C7. [lookup] returns none for an id outside the table and for an id at
    which no registration went through: after any sequence of calls on the
    table the constructor leaves, and in particular after none, when every id
    is mapped to none. *)
Theorem lookup_none_unless_registered (calls : list Registration) (id : N) :
  well_typed calls ->
  NUM_OPCODE_HANDLERS <= id
    \/ succeeded_at NUM_OPCODE_HANDLERS NULL_OPCODE id calls new_table = false ->
  lookup_in new_table id = None
  /\ exists tbl' lines,
       run_on calls new_table = Some (tbl', lines) /\ lookup_in tbl' id = None.
Proof.
  intros Hty Hwhy. split; [apply lookup_new_table|].
  destruct (run_total calls new_table new_table_wf Hty) as (tbl' & lines & Hrun & _).
  exists tbl', lines. split; [exact Hrun|].
  destruct Hwhy as [Hout | Hnot].
  - apply lookup_out_of_range. exact Hout.
  - eapply not_succeeded_lookup; eauto using new_table_wf, lookup_new_table.
Qed.

(** C9. The two registration paths write one table: when a call of one
    function has installed its descriptor at an id, a call of the other
    function at that id, after any interleaving of further calls, logs the
    override error naming the installed handler and changes nothing; the id
    still holds the first descriptor, and only that one. *)
Theorem client_and_server_share_table
    (a b : Registration) (between : list Registration) (tbl tbl1 : InternalTable) :
  wf tbl -> is_Opcodes (reg_opcode a) -> well_typed between ->
  perform_on a tbl = Some (tbl1, []) ->
  reg_opcode b = reg_opcode a ->
  client_path b = negb (client_path a) ->
  exists tbl2 lines,
    run_on between tbl1 = Some (tbl2, lines)
    /\ perform_on b tbl2 = Some (tbl2, [override_line b (Name (descriptor a))])
    /\ forall h, lookup_in tbl2 (reg_opcode a) = Some h <-> h = descriptor a.
Proof.
  intros Hwf Hty Hbetween Hdone Hsame _.
  assert (wf tbl1) as Hwf1 by (eapply perform_wf; eassumption).
  destruct (perform_cases a tbl Hwf Hty) as [(Heq & Hnull & Hlt & _) | (line & Heq & _)];
    rewrite Heq in Hdone; inversion Hdone; subst tbl1.
  destruct (run_total between _ Hwf1 Hbetween) as (tbl2 & lines & Hrun & Hwf2).
  assert (lookup_in tbl2 (reg_opcode a) = Some (descriptor a)) as Hat2.
  { eapply run_retains; [exact Hwf1|exact Hbetween|exact Hrun|].
    rewrite lookup_insert_slot, N.eqb_refl by assumption. reflexivity. }
  exists tbl2, lines. split; [exact Hrun|]. split.
  - apply perform_occupied; rewrite ?Hsame; assumption.
  - intros h. rewrite Hat2. split; congruence.
Qed.

End Registration_facts.

(** ** The manifest of the source *)

Lemma well_typed_check (calls : list Registration) :
  forallb is_typed calls = true -> well_typed calls.
Proof.
  intros Hall. apply List.Forall_forall. intros r Hin.
  rewrite forallb_forall in Hall. specialize (Hall r Hin).
  unfold is_typed in Hall. apply N.ltb_lt in Hall. exact Hall.
Qed.

Lemma manifest_well_typed : well_typed (map expand manifest).
Proof. apply well_typed_check. vm_compute. reflexivity. Qed.

Lemma server_status_ok_spec (status : SessionStatus) :
  server_status_ok status = true
  <-> status = STATUS_NEVER \/ status = STATUS_UNHANDLED.
Proof.
  destruct status; cbn; split; intros H; try reflexivity; try discriminate;
    auto; destruct H; discriminate.
Qed.

Lemma manifest_server_side : forallb server_side_status_ok (map expand manifest) = true.
Proof. vm_compute. reflexivity. Qed.

(** C3. Opcodes registered through the server path carry [STATUS_NEVER] or
    [STATUS_UNHANDLED], and this is enforced when the program is built: a body
    of [Initialize] compiles exactly when each of its server entries has one
    of the two statuses; the function called at run time does not look at the
    status, so nothing is logged for it; and in the table the manifest of the
    source builds, every handler bound to [Handle_ServerSide] has one of the
    two statuses. *)
Theorem server_status_checked_at_build :
  (forall entries : list ManifestEntry,
      compiles entries = true
      <-> (forall value name status,
              In (DEFINE_SERVER_OPCODE_HANDLER value name status) entries ->
              status = STATUS_NEVER \/ status = STATUS_UNHANDLED))
  /\ (forall NUM NULL tbl opcode name status status',
        option_map snd (ValidateAndSetServerOpcode NUM NULL opcode name status tbl)
        = option_map snd (ValidateAndSetServerOpcode NUM NULL opcode name status' tbl))
  /\ compiles manifest = true
  /\ (forall NUM NULL, exists tbl lines,
        Initialize NUM NULL (OpcodeTable_new NUM) = Some (tbl, lines)
        /\ forall id h,
             lookup NUM tbl id = Some h ->
             HandlerFunction h = "Handle_ServerSide" ->
             Status h = STATUS_NEVER \/ Status h = STATUS_UNHANDLED).
Proof.
  split; [|split; [|split]].
  - intros entries. unfold compiles. rewrite forallb_forall. split.
    + intros Hall value name status Hin.
      apply server_status_ok_spec. exact (Hall _ Hin).
    + intros Hall e Hin. destruct e as [|value name status]; [reflexivity|].
      cbn. apply server_status_ok_spec. eapply Hall. exact Hin.
  - intros NUM NULL tbl opcode name status status'.
    unfold ValidateAndSetServerOpcode.
    destruct (uint32 opcode =? NULL); [reflexivity|].
    destruct (NUM <=? uint32 opcode); [reflexivity|].
    destruct (tbl !! N.to_nat opcode) as [[existing|]|]; [|reflexivity..].
    destruct (lookup NUM tbl opcode); reflexivity.
  - vm_compute. reflexivity.
  - intros NUM NULL.
    destruct (run_total NUM NULL _ _ (new_table_wf NUM) manifest_well_typed)
      as (tbl & lines & Hrun & _).
    exists tbl, lines. split; [exact Hrun|].
    intros id h Hlook Hside.
    rewrite (lookup_run NUM NULL _ _ _ _ id (new_table_wf NUM) manifest_well_typed Hrun)
      in Hlook.
    rewrite lookup_new_table in Hlook.
    destruct (_ || _); [discriminate|].
    destruct (List.find _ _) as [r|] eqn:Hfind; [|discriminate].
    apply find_some in Hfind as [Hin _].
    pose proof manifest_server_side as Hall.
    rewrite forallb_forall in Hall. specialize (Hall r Hin).
    cbn in Hlook. inversion Hlook; subst h.
    unfold server_side_status_ok in Hall. rewrite Hside in Hall.
    apply server_status_ok_spec. exact Hall.
Qed.

(** C4, as the claim states it, fails: the claim counts one entry named
    [SMSG_...] that is installed with [DEFINE_HANDLER]; the manifest has
    none. *)
Lemma no_server_entry_on_client_path :
  length (List.filter (fun e => server_originated e && through_client_path e) manifest)
  = 0%nat.
Proof. vm_compute. reflexivity. Qed.

(** C4, amended. No server-originated entry is installed through the client
    path; the one entry of the manifest registered through the path of the
    other direction is the client-originated [CMSG_GMTICKETSYSTEM_TOGGLE]
    (0x29A), installed with [DEFINE_SERVER_OPCODE_HANDLER] and status
    [STATUS_NEVER], a status the server restriction accepts. *)
Theorem one_client_entry_on_server_path :
  List.filter (fun e => server_originated e && through_client_path e) manifest = []
  /\ List.filter (fun e => client_originated e && negb (through_client_path e)) manifest
     = [DEFINE_SERVER_OPCODE_HANDLER 0x29A "CMSG_GMTICKETSYSTEM_TOGGLE" STATUS_NEVER]
  /\ static_assert_ok
       (DEFINE_SERVER_OPCODE_HANDLER 0x29A "CMSG_GMTICKETSYSTEM_TOGGLE" STATUS_NEVER)
     = true.
Proof. vm_compute. auto. Qed.

(** C8, as the claim states it, fails: the name registered at 0x036 is the
    spelling of the enumerator, not [CharCreate]. *)
Lemma char_create_name_differs :
  exists tbl lines h,
    Initialize 0x51F 0 (OpcodeTable_new 0x51F) = Some (tbl, lines)
    /\ lookup 0x51F tbl 0x036 = Some h
    /\ Name h <> "CharCreate".
Proof.
  vm_compute. do 3 eexists. split; [reflexivity|]. split; [reflexivity|].
  cbn. discriminate.
Qed.

(** C8, amended. The manifest registers 0x036 with name [CMSG_CHAR_CREATE],
    status [STATUS_AUTHED] and processing [PROCESS_THREADUNSAFE]; two packets
    with this opcode dispatched from one session in the authenticated state
    are both admitted and both put on the serialized queue, the first ahead of
    the second. *)
Theorem char_create_registered_and_serialized
    (NUM NULL : N) (first second : PacketEnvelope) (sched : Scheduler) :
  0x036 < NUM -> NULL <> 0x036 ->
  envelope_opcode first = 0x036 -> envelope_opcode second = 0x036 ->
  envelope_session first = envelope_session second ->
  exists tbl lines,
    Initialize NUM NULL (OpcodeTable_new NUM) = Some (tbl, lines)
    /\ lookup NUM tbl 0x036
       = Some (PacketHandler "CMSG_CHAR_CREATE" STATUS_AUTHED PROCESS_THREADUNSAFE
                 "HandleCharCreateOpcode")
    /\ exists sched1 sched2,
         dispatch NUM tbl SessionAuthed first sched = (EnqueuedSerialized, sched1)
         /\ dispatch NUM tbl SessionAuthed second sched1 = (EnqueuedSerialized, sched2)
         /\ serialized_queue sched2 = (serialized_queue sched ++ [first; second])%list.
Proof.
  intros Hlt Hnull Hfirst Hsecond _.
  destruct (run_total NUM NULL _ _ (new_table_wf NUM) manifest_well_typed)
    as (tbl & lines & Hrun & _).
  assert (lookup NUM tbl 0x036
          = Some (PacketHandler "CMSG_CHAR_CREATE" STATUS_AUTHED PROCESS_THREADUNSAFE
                    "HandleCharCreateOpcode")) as Hlook.
  { rewrite (lookup_run NUM NULL _ _ _ _ 0x036 (new_table_wf NUM) manifest_well_typed Hrun).
    rewrite lookup_new_table.
    destruct (N.eqb_spec 0x036 NULL); [congruence|].
    destruct (N.leb_spec NUM 0x036); [lia|].
    vm_compute. reflexivity. }
  exists tbl, lines. split; [exact Hrun|]. split; [exact Hlook|].
  unfold dispatch. rewrite Hfirst, Hsecond, Hlook. cbn.
  do 2 eexists. split; [reflexivity|]. split; [reflexivity|].
  cbn. rewrite <- app_assoc. reflexivity.
Qed.

(** ** Names for the log *)

Lemma uint16_Opcodes (x : N) : is_Opcodes x -> uint16 x = x.
Proof. unfold is_Opcodes, uint16. intros Hx. apply N.mod_small. exact Hx. Qed.

Lemma uint16_range (x : N) : uint16 x < 2 ^ 16.
Proof. unfold uint16. apply N.mod_lt. discriminate. Qed.

(** C2. [GetOpcodeNameForLogging] returns, for every opcode value, the string
    [[X 0xHHHH (D)]]: [X] is the registered name when the id is in range and
    registered, [UNKNOWN OPCODE] when it is in range and not registered,
    [INVALID OPCODE] when it is out of range; [HHHH] is four upper-case
    hexadecimal digits that denote the id, and [D] is its decimal numeral.
    The function is total: no table and no id makes it fail. *)
Theorem format_for_log_shape (NUM : N) (tbl : InternalTable) (id : N) :
  is_Opcodes id ->
  exists X h d,
    GetOpcodeNameForLogging NUM tbl id
    = "[" +:+ X +:+ " 0x" +:+ h +:+ " (" +:+ d +:+ ")]"
    /\ (forall handler,
          id < NUM -> lookup NUM tbl id = Some handler -> X = Name handler)
    /\ (id < NUM -> lookup NUM tbl id = None -> X = "UNKNOWN OPCODE")
    /\ (NUM <= id -> X = "INVALID OPCODE")
    /\ String.length h = 4%nat
    /\ string_forallb is_upper_hex_digit h = true
    /\ read_number 16 h = Some id
    /\ canonical_decimal d = true
    /\ read_number 10 d = Some id.
Proof.
  intros Hty.
  destruct (hex_field id Hty) as (Hlen & Hhex & Hread16).
  destruct (dec_field id Hty) as (Hcan & Hread10).
  exists (if id <? NUM
          then match lookup NUM tbl id with
               | Some handler => Name handler
               | None => "UNKNOWN OPCODE"
               end
          else "INVALID OPCODE"),
         (setw_fill 4 "0" (put_uint16 16 true id)),
         (put_uint16 10 false id).
  split; [|repeat split; try assumption].
  - unfold GetOpcodeNameForLogging, GetOpcodeNameForLoggingImpl.
    rewrite (uint16_Opcodes _ Hty).
    destruct (id <? NUM); [destruct (lookup NUM tbl id)|];
      rewrite !string_app_assoc; reflexivity.
  - intros handler Hlt Hlook. apply N.ltb_lt in Hlt. rewrite Hlt, Hlook. reflexivity.
  - intros Hlt Hlook. apply N.ltb_lt in Hlt. rewrite Hlt, Hlook. reflexivity.
  - intros Hge. destruct (N.ltb_spec id NUM); [lia|reflexivity].
Qed.



(** ** Instances *)

(** The properties above at concrete arguments: a table of 0x51F slots, the
    unset value 0, and the entry of [CMSG_CHAR_CREATE]. *)

Lemma duplicate_registration_rejected_witness :
  let a := ClientOpcode "HandleCharCreateOpcode" 0x036 "CMSG_CHAR_CREATE"
             STATUS_AUTHED PROCESS_THREADUNSAFE in
  let b := ServerOpcode 0x036 "SMSG_CHAR_CREATE" STATUS_NEVER in
  let later := [ServerOpcode 0x03A "SMSG_CHAR_CREATE" STATUS_NEVER] in
  let tbl1 := <[N.to_nat 0x036 := Some (descriptor a)]> (OpcodeTable_new 0x51F) in
  lookup 0x51F tbl1 0x036 = Some (descriptor a)
  /\ exists tbl2 lines line,
       run 0x51F 0 later tbl1 = Some (tbl2, lines)
       /\ perform 0x51F 0 b tbl2 = Some (tbl2, [line])
       /\ lookup 0x51F tbl2 0x036 = Some (descriptor a).
Proof.
  intros a b later tbl1.
  apply (duplicate_registration_rejected 0x51F 0 a b later (OpcodeTable_new 0x51F) tbl1).
  - vm_compute. reflexivity.
  - vm_compute. reflexivity.
  - apply well_typed_check. vm_compute. reflexivity.
  - vm_compute. reflexivity.
  - reflexivity.
Defined.

Lemma format_for_log_shape_witness :
  let tbl := <[N.to_nat 0x036 := Some (PacketHandler "CMSG_CHAR_CREATE" STATUS_AUTHED
                                         PROCESS_THREADUNSAFE "HandleCharCreateOpcode")]>
               (OpcodeTable_new 0x51F) in
  exists X h d,
    GetOpcodeNameForLogging 0x51F tbl 0x036
    = "[" +:+ X +:+ " 0x" +:+ h +:+ " (" +:+ d +:+ ")]"
    /\ (forall handler,
          0x036 < 0x51F -> lookup 0x51F tbl 0x036 = Some handler -> X = Name handler)
    /\ (0x036 < 0x51F -> lookup 0x51F tbl 0x036 = None -> X = "UNKNOWN OPCODE")
    /\ (0x51F <= 0x036 -> X = "INVALID OPCODE")
    /\ String.length h = 4%nat
    /\ string_forallb is_upper_hex_digit h = true
    /\ read_number 16 h = Some 0x036
    /\ canonical_decimal d = true
    /\ read_number 10 d = Some 0x036.
Proof.
  intros tbl. apply (format_for_log_shape 0x51F tbl 0x036).
  vm_compute. reflexivity.
Defined.

Lemma null_opcode_rejected_witness :
  ValidateAndSetClientOpcode 0x51F 0 "Handle_NULL" 0 "MSG_NULL_ACTION"
      STATUS_NEVER PROCESS_INPLACE (OpcodeTable_new 0x51F)
    = Some (OpcodeTable_new 0x51F,
            [LOG_ERROR "network" "Opcode {} does not have a value"
               [ArgString "MSG_NULL_ACTION"]])
  /\ ValidateAndSetServerOpcode 0x51F 0 0 "MSG_NULL_ACTION" STATUS_NEVER
       (OpcodeTable_new 0x51F)
     = Some (OpcodeTable_new 0x51F,
             [LOG_ERROR "network" "Opcode {} does not have a value"
                [ArgString "MSG_NULL_ACTION"]]).
Proof.
  apply (null_opcode_rejected 0x51F 0 (OpcodeTable_new 0x51F) "Handle_NULL"
           "MSG_NULL_ACTION" STATUS_NEVER PROCESS_INPLACE).
  vm_compute. reflexivity.
Defined.

Lemma failing_registration_skipped_witness :
  let r := ServerOpcode 0x51F "NUM_MSG_TYPES" STATUS_NEVER in
  let rest := [ClientOpcode "HandleCharCreateOpcode" 0x036 "CMSG_CHAR_CREATE"
                 STATUS_AUTHED PROCESS_THREADUNSAFE] in
  exists line tbl' lines,
    perform 0x51F 0 r (OpcodeTable_new 0x51F) = Some (OpcodeTable_new 0x51F, [line])
    /\ run 0x51F 0 rest (OpcodeTable_new 0x51F) = Some (tbl', lines)
    /\ run 0x51F 0 (r :: rest) (OpcodeTable_new 0x51F) = Some (tbl', line :: lines).
Proof.
  intros r rest.
  apply (failing_registration_skipped 0x51F 0 r rest (OpcodeTable_new 0x51F)).
  - vm_compute. reflexivity.
  - vm_compute. reflexivity.
  - apply well_typed_check. vm_compute. reflexivity.
  - right. left. vm_compute. discriminate.
Defined.

Lemma lookup_none_unless_registered_witness :
  let calls := [ClientOpcode "HandleCharCreateOpcode" 0x036 "CMSG_CHAR_CREATE"
                  STATUS_AUTHED PROCESS_THREADUNSAFE;
                ServerOpcode 0 "MSG_NULL_ACTION" STATUS_NEVER] in
  lookup 0x51F (OpcodeTable_new 0x51F) 0 = None
  /\ exists tbl' lines,
       run 0x51F 0 calls (OpcodeTable_new 0x51F) = Some (tbl', lines)
       /\ lookup 0x51F tbl' 0 = None.
Proof.
  intros calls.
  apply (lookup_none_unless_registered 0x51F 0 calls 0).
  - apply well_typed_check. vm_compute. reflexivity.
  - right. vm_compute. reflexivity.
Defined.

Lemma char_create_registered_and_serialized_witness :
  let first := {| envelope_opcode := 0x036; envelope_session := 7; arrival_sequence := 1 |} in
  let second := {| envelope_opcode := 0x036; envelope_session := 7; arrival_sequence := 2 |} in
  let idle := {| ran_in_place := []; worker_pool := []; serialized_queue := [] |} in
  exists tbl lines,
    Initialize 0x51F 0 (OpcodeTable_new 0x51F) = Some (tbl, lines)
    /\ lookup 0x51F tbl 0x036
       = Some (PacketHandler "CMSG_CHAR_CREATE" STATUS_AUTHED PROCESS_THREADUNSAFE
                 "HandleCharCreateOpcode")
    /\ exists sched1 sched2,
         dispatch 0x51F tbl SessionAuthed first idle = (EnqueuedSerialized, sched1)
         /\ dispatch 0x51F tbl SessionAuthed second sched1 = (EnqueuedSerialized, sched2)
         /\ serialized_queue sched2 = [first; second].
Proof.
  intros first second idle.
  apply (char_create_registered_and_serialized 0x51F 0 first second idle).
  - vm_compute. reflexivity.
  - discriminate.
  - reflexivity.
  - reflexivity.
  - reflexivity.
Defined.

Lemma client_and_server_share_table_witness :
  let a := ServerOpcode 0x03A "SMSG_CHAR_CREATE" STATUS_NEVER in
  let b := ClientOpcode "HandleCharCreateOpcode" 0x03A "CMSG_CHAR_CREATE"
             STATUS_AUTHED PROCESS_THREADUNSAFE in
  let between := [ClientOpcode "HandleCharEnumOpcode" 0x037 "CMSG_CHAR_ENUM"
                    STATUS_AUTHED PROCESS_THREADUNSAFE] in
  let tbl1 := <[N.to_nat 0x03A := Some (descriptor a)]> (OpcodeTable_new 0x51F) in
  exists tbl2 lines,
    run 0x51F 0 between tbl1 = Some (tbl2, lines)
    /\ perform 0x51F 0 b tbl2
       = Some (tbl2, [LOG_ERROR "network"
                        "Tried to override client handler of {} with {} (opcode {})"
                        [ArgString "SMSG_CHAR_CREATE"; ArgString "CMSG_CHAR_CREATE";
                         ArgUInt32 0x03A]])
    /\ forall h, lookup 0x51F tbl2 0x03A = Some h <-> h = descriptor a.
Proof.
  intros a b between tbl1.
  apply (client_and_server_share_table 0x51F 0 a b between (OpcodeTable_new 0x51F) tbl1).
  - vm_compute. reflexivity.
  - vm_compute. reflexivity.
  - apply well_typed_check. vm_compute. reflexivity.
  - vm_compute. reflexivity.
  - reflexivity.
  - reflexivity.
Defined.


(** * Further properties of the registration *)

Section Registration_runs.

Variable NUM_OPCODE_HANDLERS : N.
Variable NULL_OPCODE : N.

Local Abbreviation wf := (table_wf NUM_OPCODE_HANDLERS).
Local Abbreviation new_table := (OpcodeTable_new NUM_OPCODE_HANDLERS).
Local Abbreviation lookup_in := (lookup NUM_OPCODE_HANDLERS).
Local Abbreviation perform_on := (perform NUM_OPCODE_HANDLERS NULL_OPCODE).
Local Abbreviation run_on := (run NUM_OPCODE_HANDLERS NULL_OPCODE).

Lemma occupied_insert (tbl : InternalTable) (i : nat) (h : ClientOpcodeHandler) :
  tbl !! i = Some None ->
  occupied (<[i := Some h]> tbl) = S (occupied tbl).
Proof.
  revert i.
  induction tbl as [|slot tbl IH]; intros i Hslot; [discriminate|].
  destruct i as [|i]; cbn in Hslot.
  - inversion Hslot; subst. reflexivity.
  - change (<[S i := Some h]> (slot :: tbl)) with (slot :: <[i := Some h]> tbl).
    specialize (IH i Hslot). unfold occupied in *. cbn [List.filter].
    destruct slot; cbn [length]; rewrite IH; reflexivity.
Qed.

Lemma run_accounting (calls : list Registration) (tbl : InternalTable) :
  wf tbl -> well_typed calls ->
  exists tbl' lines,
    run_on calls tbl = Some (tbl', lines)
    /\ wf tbl'
    /\ (occupied tbl' + length lines = occupied tbl + length calls)%nat.
Proof.
  intros Hwf Hty. revert tbl Hwf.
  induction Hty as [|r rest Hr Hrest IH]; intros tbl Hwf; cbn [run].
  - exists tbl, []. cbn. split; [reflexivity|]. split; [assumption|lia].
  - destruct (perform_cases NUM_OPCODE_HANDLERS NULL_OPCODE r tbl Hwf Hr)
      as [(Heq & _ & Hlt & Hfree) | (line & Heq & _)]; rewrite Heq.
    + assert (wf (<[N.to_nat (reg_opcode r) := Some (descriptor r)]> tbl)) as Hwf1.
      { unfold table_wf in *. rewrite length_insert. assumption. }
      destruct (IH _ Hwf1) as (tbl' & lines & Hrun & Hwf' & Hcount).
      rewrite Hrun. exists tbl', lines. split; [reflexivity|]. split; [assumption|].
      destruct (lookup_slot NUM_OPCODE_HANDLERS tbl _ Hwf Hlt) as (slot & Hslot & Hlook).
      rewrite Hfree in Hlook. subst slot.
      rewrite (occupied_insert _ _ _ Hslot) in Hcount. cbn [length]. lia.
    + destruct (IH _ Hwf) as (tbl' & lines & Hrun & Hwf' & Hcount).
      rewrite Hrun. exists tbl', (line :: lines).
      split; [reflexivity|]. split; [assumption|]. cbn [length]. lia.
Qed.

(** X1. Well-typed calls on a table of the right size never reach undefined
    behaviour, the table keeps its size, and every call either fills one free
    slot or logs exactly one line. *)
Theorem registration_accounting (calls : list Registration) (tbl : InternalTable) :
  wf tbl -> well_typed calls ->
  exists tbl' lines,
    run_on calls tbl = Some (tbl', lines)
    /\ wf tbl'
    /\ (occupied tbl' + length lines = occupied tbl + length calls)%nat.
Proof. exact (run_accounting calls tbl). Qed.

(** X2. First registration wins, for every id at once: after a run of
    well-typed calls, an id that held a handler still holds it, and an id that
    was free holds the descriptor of the first call aimed at it, or nothing
    when the id is the unset value, is out of range, or no call names it. *)
Theorem first_registration_wins
    (calls : list Registration) (tbl : InternalTable) (id : N) :
  wf tbl -> well_typed calls ->
  exists tbl' lines,
    run_on calls tbl = Some (tbl', lines)
    /\ lookup_in tbl' id
       = match lookup_in tbl id with
         | Some h => Some h
         | None =>
             if (id =? NULL_OPCODE) || (NUM_OPCODE_HANDLERS <=? id) then None
             else option_map descriptor
                    (List.find (fun r => reg_opcode r =? id) calls)
         end.
Proof.
  intros Hwf Hty.
  destruct (run_total NUM_OPCODE_HANDLERS NULL_OPCODE calls tbl Hwf Hty)
    as (tbl' & lines & Hrun & _).
  exists tbl', lines. split; [exact Hrun|].
  eapply lookup_run; eassumption.
Qed.

(** Two tables of the right size that [lookup] cannot tell apart are equal. *)
Lemma table_ext (tbl1 tbl2 : InternalTable) :
  wf tbl1 -> wf tbl2 ->
  (forall id, lookup_in tbl1 id = lookup_in tbl2 id) -> tbl1 = tbl2.
Proof.
  intros Hwf1 Hwf2 Hsame. apply list_eq. intros i.
  destruct (decide (i < N.to_nat NUM_OPCODE_HANDLERS)%nat) as [Hlt|Hge].
  - assert (N.of_nat i < NUM_OPCODE_HANDLERS) as Hlt' by lia.
    destruct (lookup_slot NUM_OPCODE_HANDLERS tbl1 _ Hwf1 Hlt') as (s1 & Hs1 & Hl1).
    destruct (lookup_slot NUM_OPCODE_HANDLERS tbl2 _ Hwf2 Hlt') as (s2 & Hs2 & Hl2).
    rewrite Nat2N.id in Hs1, Hs2. rewrite Hs1, Hs2, <- Hl1, <- Hl2, Hsame. reflexivity.
  - unfold table_wf in *.
    rewrite (lookup_ge_None_2 tbl1), (lookup_ge_None_2 tbl2) by lia. reflexivity.
Qed.

Lemma find_unique (calls : list Registration) (r : Registration) :
  List.NoDup (map reg_opcode calls) -> In r calls ->
  List.find (fun x => reg_opcode x =? reg_opcode r) calls = Some r.
Proof.
  induction calls as [|x calls IH]; intros Hnd Hin; [destruct Hin|].
  cbn [map] in Hnd. apply List.NoDup_cons_iff in Hnd as [Hfresh Hnd].
  cbn [List.find]. destruct Hin as [->|Hin].
  - rewrite N.eqb_refl. reflexivity.
  - destruct (N.eqb_spec (reg_opcode x) (reg_opcode r)) as [Heq|_]; [|auto].
    exfalso. apply Hfresh. rewrite Heq. apply in_map. exact Hin.
Qed.

Lemma find_absent (calls : list Registration) (id : N) :
  (forall x, In x calls -> reg_opcode x <> id) ->
  List.find (fun x => reg_opcode x =? id) calls = None.
Proof.
  induction calls as [|x calls IH]; intros Hall; [reflexivity|].
  cbn [List.find].
  destruct (N.eqb_spec (reg_opcode x) id) as [Heq|_].
  - exfalso. exact (Hall x (or_introl eq_refl) Heq).
  - apply IH. intros y Hy. apply Hall. right. exact Hy.
Qed.

Lemma find_permutation (calls calls' : list Registration) (id : N) :
  Permutation calls calls' -> List.NoDup (map reg_opcode calls) ->
  List.find (fun x => reg_opcode x =? id) calls
  = List.find (fun x => reg_opcode x =? id) calls'.
Proof.
  intros Hperm Hnd.
  assert (List.NoDup (map reg_opcode calls')) as Hnd'.
  { eapply Permutation.Permutation_NoDup; [|exact Hnd].
    apply Permutation_map. exact Hperm. }
  destruct (List.find _ calls) as [r|] eqn:Hfind.
  - apply find_some in Hfind as [Hin Heq]. apply N.eqb_eq in Heq. subst id.
    symmetry. apply find_unique; [exact Hnd'|].
    eapply Permutation_in; eassumption.
  - symmetry. apply find_absent. intros x Hx Heq.
    apply (Permutation_in _ (Permutation_sym Hperm)) in Hx.
    pose proof (find_none _ _ Hfind x Hx) as Hno. cbn in Hno.
    apply N.eqb_neq in Hno. contradiction.
Qed.

(** X3. The order of the calls does not matter when no two of them name the
    same opcode: any rearrangement of the sequence builds the same table. *)
Theorem registration_order_irrelevant
    (calls calls' : list Registration) (tbl : InternalTable) :
  wf tbl -> well_typed calls ->
  Permutation calls calls' -> List.NoDup (map reg_opcode calls) ->
  exists tbl' lines lines',
    run_on calls tbl = Some (tbl', lines)
    /\ run_on calls' tbl = Some (tbl', lines').
Proof.
  intros Hwf Hty Hperm Hnd.
  assert (well_typed calls') as Hty'.
  { unfold well_typed in *. rewrite List.Forall_forall in *. intros x Hx.
    apply Hty. eapply Permutation_in; [apply Permutation_sym|]; eassumption. }
  destruct (run_total NUM_OPCODE_HANDLERS NULL_OPCODE calls tbl Hwf Hty)
    as (tbl1 & lines & Hrun & Hwf1).
  destruct (run_total NUM_OPCODE_HANDLERS NULL_OPCODE calls' tbl Hwf Hty')
    as (tbl2 & lines' & Hrun' & Hwf2).
  assert (tbl2 = tbl1) as ->.
  { apply table_ext; [assumption..|]. intros id.
    rewrite (lookup_run _ _ _ _ _ _ id Hwf Hty Hrun).
    rewrite (lookup_run _ _ _ _ _ _ id Hwf Hty' Hrun').
    rewrite (find_permutation calls calls' id Hperm Hnd). reflexivity. }
  exists tbl1, lines, lines'. auto.
Qed.

Lemma run_all_rejected (calls : list Registration) (tbl : InternalTable) :
  wf tbl -> well_typed calls ->
  (forall r, In r calls ->
     reg_opcode r = NULL_OPCODE
     \/ NUM_OPCODE_HANDLERS <= reg_opcode r
     \/ is_Some (lookup_in tbl (reg_opcode r))) ->
  exists lines, run_on calls tbl = Some (tbl, lines) /\ length lines = length calls.
Proof.
  intros Hwf Hty. induction Hty as [|r rest Hr Hrest IH]; intros Hall; cbn [run].
  - exists []. auto.
  - destruct (perform_cases NUM_OPCODE_HANDLERS NULL_OPCODE r tbl Hwf Hr)
      as [(_ & Hnull & Hlt & Hfree) | (line & Heq & _)].
    + destruct (Hall r (or_introl eq_refl)) as [H | [H | [h H]]];
        [contradiction | lia | congruence].
    + rewrite Heq.
      destruct IH as (lines & Hrun & Hlen).
      { intros x Hx. apply Hall. right. exact Hx. }
      rewrite Hrun. exists (line :: lines). cbn [length app]. auto.
Qed.

(** X4. Registration is idempotent on the table: running the same calls a
    second time changes nothing, and every one of them logs a line. *)
Theorem registration_idempotent (calls : list Registration) (tbl : InternalTable) :
  wf tbl -> well_typed calls ->
  exists tbl' lines lines',
    run_on calls tbl = Some (tbl', lines)
    /\ run_on calls tbl' = Some (tbl', lines')
    /\ length lines' = length calls.
Proof.
  intros Hwf Hty.
  destruct (run_total NUM_OPCODE_HANDLERS NULL_OPCODE calls tbl Hwf Hty)
    as (tbl' & lines & Hrun & Hwf').
  destruct (run_all_rejected calls tbl' Hwf' Hty) as (lines' & Hagain & Hlen).
  - intros r Hin.
    destruct (N.eq_dec (reg_opcode r) NULL_OPCODE) as [Hnull|Hnull]; [auto|].
    destruct (N.le_gt_cases NUM_OPCODE_HANDLERS (reg_opcode r)) as [Hge|Hlt]; [auto|].
    right. right.
    rewrite (lookup_run _ _ _ _ _ _ (reg_opcode r) Hwf Hty Hrun).
    destruct (lookup_in tbl (reg_opcode r)); [eauto|].
    destruct (N.eqb_spec (reg_opcode r) NULL_OPCODE); [contradiction|].
    destruct (N.leb_spec NUM_OPCODE_HANDLERS (reg_opcode r)); [lia|].
    destruct (List.find _ calls) as [x|] eqn:Hfind; [cbn; eauto|].
    pose proof (find_none _ _ Hfind r Hin) as Hno. cbn in Hno.
    rewrite N.eqb_refl in Hno. discriminate.
  - exists tbl', lines, lines'. auto.
Qed.

Lemma run_clean (calls : list Registration) (tbl : InternalTable) :
  wf tbl -> well_typed calls ->
  List.NoDup (map reg_opcode calls) ->
  (forall r, In r calls ->
     reg_opcode r <> NULL_OPCODE
     /\ reg_opcode r < NUM_OPCODE_HANDLERS
     /\ lookup_in tbl (reg_opcode r) = None) ->
  exists tbl', run_on calls tbl = Some (tbl', []).
Proof.
  intros Hwf Hty. revert tbl Hwf.
  induction Hty as [|r rest Hr Hrest IH]; intros tbl Hwf Hnd Hall; cbn [run].
  - exists tbl. reflexivity.
  - cbn [map] in Hnd. apply List.NoDup_cons_iff in Hnd as [Hfresh Hnd].
    destruct (Hall r (or_introl eq_refl)) as (Hnull & Hlt & Hfree).
    destruct (perform_cases NUM_OPCODE_HANDLERS NULL_OPCODE r tbl Hwf Hr)
      as [(Heq & _) | (line & Heq & [H | [H | [h H]]])];
      [|contradiction | lia | congruence].
    rewrite Heq.
    destruct (IH (<[N.to_nat (reg_opcode r) := Some (descriptor r)]> tbl))
      as (tbl' & Hrun).
    + unfold table_wf in *. rewrite length_insert. assumption.
    + exact Hnd.
    + intros x Hx. destruct (Hall x (or_intror Hx)) as (Hxn & Hxl & Hxf).
      repeat split; try assumption.
      rewrite lookup_insert_slot by assumption.
      destruct (N.eqb_spec (reg_opcode x) (reg_opcode r)) as [Hsame|_]; [|assumption].
      exfalso. apply Hfresh. rewrite <- Hsame. apply in_map. exact Hx.
    + rewrite Hrun. exists tbl'. reflexivity.
Qed.

(** X5. Calls that name pairwise distinct opcodes, each in range, different
    from the unset value and free in the table, all go through: the run logs
    nothing and each call finds its descriptor installed. *)
Theorem distinct_registrations_succeed
    (calls : list Registration) (tbl : InternalTable) :
  wf tbl -> well_typed calls ->
  List.NoDup (map reg_opcode calls) ->
  (forall r, In r calls ->
     reg_opcode r <> NULL_OPCODE
     /\ reg_opcode r < NUM_OPCODE_HANDLERS
     /\ lookup_in tbl (reg_opcode r) = None) ->
  exists tbl',
    run_on calls tbl = Some (tbl', [])
    /\ forall r, In r calls -> lookup_in tbl' (reg_opcode r) = Some (descriptor r).
Proof.
  intros Hwf Hty Hnd Hall.
  destruct (run_clean calls tbl Hwf Hty Hnd Hall) as (tbl' & Hrun).
  exists tbl'. split; [exact Hrun|]. intros r Hin.
  destruct (Hall r Hin) as (Hnull & Hlt & Hfree).
  rewrite (lookup_run _ _ _ _ _ _ (reg_opcode r) Hwf Hty Hrun), Hfree.
  destruct (N.eqb_spec (reg_opcode r) NULL_OPCODE); [contradiction|].
  destruct (N.leb_spec NUM_OPCODE_HANDLERS (reg_opcode r)); [lia|].
  cbn [orb]. rewrite (find_unique calls r Hnd Hin). reflexivity.
Qed.

End Registration_runs.

(** ** What [Initialize] builds *)

Lemma manifest_opcodes :
  map reg_opcode (map expand manifest) = map N.of_nat (seq 1 1310).
Proof. vm_compute. reflexivity. Qed.

Lemma manifest_opcode_range (id : N) :
  In id (map reg_opcode (map expand manifest)) <-> 1 <= id <= 0x51E.
Proof.
  rewrite manifest_opcodes, in_map_iff. split.
  - intros (n & <- & Hn). apply in_seq in Hn. lia.
  - intros Hid. exists (N.to_nat id). split; [lia|]. apply in_seq. lia.
Qed.

Lemma manifest_opcodes_distinct : List.NoDup (map reg_opcode (map expand manifest)).
Proof.
  rewrite manifest_opcodes. apply Finite.Injective_map_NoDup.
  - intros a b Hab. lia.
  - apply seq_NoDup.
Qed.

Lemma occupied_new (NUM : N) : occupied (OpcodeTable_new NUM) = 0%nat.
Proof.
  unfold occupied, OpcodeTable_new.
  induction (N.to_nat NUM) as [|n IH]; [reflexivity|exact IH].
Qed.

Lemma expand_opcode (e : ManifestEntry) : reg_opcode (expand e) = entry_value e.
Proof. destruct e; reflexivity. Qed.

(** The table [Initialize] leaves when the array has room for every opcode of
    the manifest and the unset value is none of them. *)
Lemma initialize_table (NUM NULL : N) :
  0x51E < NUM -> NULL = 0 \/ 0x51E < NULL ->
  exists tbl,
    Initialize NUM NULL (OpcodeTable_new NUM) = Some (tbl, [])
    /\ forall id,
         lookup NUM tbl id
         = if (id =? NULL) || (NUM <=? id) then None
           else option_map descriptor
                  (List.find (fun r => reg_opcode r =? id) (map expand manifest)).
Proof.
  intros Hroom Hnull.
  destruct (run_clean NUM NULL (map expand manifest) (OpcodeTable_new NUM)
              (new_table_wf NUM) manifest_well_typed manifest_opcodes_distinct)
    as (tbl & Hrun).
  { intros r Hin.
    assert (1 <= reg_opcode r <= 0x51E) as Hrange
      by (apply manifest_opcode_range, in_map; exact Hin).
    repeat split; [lia | lia | apply lookup_new_table]. }
  exists tbl. split; [exact Hrun|]. intros id.
  rewrite (lookup_run NUM NULL _ _ _ _ id (new_table_wf NUM) manifest_well_typed Hrun).
  rewrite lookup_new_table. reflexivity.
Qed.

(** X6. With room for every opcode of the manifest and an unset value that is
    none of them, [Initialize] logs no error and installs every entry of the
    manifest at its opcode: 1310 handlers, with exactly the ids 0 and those
    above 0x51E left empty. *)
Theorem initialize_installs_manifest (NUM NULL : N) :
  0x51E < NUM -> NULL = 0 \/ 0x51E < NULL ->
  exists tbl,
    Initialize NUM NULL (OpcodeTable_new NUM) = Some (tbl, [])
    /\ (forall e, In e manifest ->
          lookup NUM tbl (entry_value e) = Some (descriptor (expand e)))
    /\ (forall id, lookup NUM tbl id = None <-> id = 0 \/ 0x51E < id)
    /\ occupied tbl = 1310%nat.
Proof.
  intros Hroom Hnull.
  destruct (initialize_table NUM NULL Hroom Hnull) as (tbl & Hrun & Hlook).
  exists tbl. split; [exact Hrun|]. split; [|split].
  - intros e Hin. rewrite Hlook.
    assert (In (expand e) (map expand manifest)) as Hin' by (apply in_map; exact Hin).
    assert (1 <= entry_value e <= 0x51E) as Hrange.
    { rewrite <- expand_opcode. apply manifest_opcode_range, in_map. exact Hin'. }
    destruct (N.eqb_spec (entry_value e) NULL); [lia|].
    destruct (N.leb_spec NUM (entry_value e)); [lia|].
    cbn [orb]. rewrite <- expand_opcode.
    rewrite (find_unique _ _ manifest_opcodes_distinct Hin'). reflexivity.
  - intros id. rewrite Hlook.
    destruct (N.eqb_spec id NULL) as [->|Hne]; [cbn [orb]; split; [lia|reflexivity]|].
    destruct (N.leb_spec NUM id) as [Hge|Hlt]; [cbn [orb]; split; [lia|reflexivity]|].
    cbn [orb]. split.
    + intros Hnone.
      destruct (List.find _ _) as [r|] eqn:Hfind; [discriminate|].
      destruct (N.eq_dec id 0) as [|Hnz]; [auto|]. right.
      destruct (N.le_gt_cases id 0x51E) as [Hle|Hgt]; [|exact Hgt].
      exfalso.
      assert (In id (map reg_opcode (map expand manifest))) as Hin
        by (apply manifest_opcode_range; lia).
      apply in_map_iff in Hin as (r & Hr & Hin).
      pose proof (find_none _ _ Hfind r Hin) as Hno. cbn in Hno.
      rewrite Hr, N.eqb_refl in Hno. discriminate.
    + intros Hout. rewrite find_absent; [reflexivity|].
      intros r Hin Hr.
      assert (1 <= reg_opcode r <= 0x51E) as Hrange
        by (apply manifest_opcode_range, in_map; exact Hin).
      lia.
  - destruct (run_accounting NUM NULL (map expand manifest) (OpcodeTable_new NUM)
                (new_table_wf NUM) manifest_well_typed)
      as (tbl' & lines & Hrun' & _ & Hcount).
    unfold Initialize, Initialize_with in Hrun. rewrite Hrun in Hrun'.
    inversion Hrun'; subst tbl' lines.
    rewrite occupied_new in Hcount. cbn [length] in Hcount.
    assert (length (map expand manifest) = 1310%nat) as Hlen
      by (vm_compute; reflexivity).
    lia.
Qed.

(** X7. After [Initialize], the name printed for the opcode of a manifest
    entry is the spelling of its enumerator: the string starts with the
    bracket, that name and the hexadecimal prefix. *)
Theorem initialize_names_for_log (NUM NULL : N) (e : ManifestEntry) :
  0x51E < NUM -> NULL = 0 \/ 0x51E < NULL -> In e manifest ->
  exists tbl rest,
    Initialize NUM NULL (OpcodeTable_new NUM) = Some (tbl, [])
    /\ GetOpcodeNameForLogging NUM tbl (entry_value e)
       = "[" +:+ entry_name e +:+ " 0x" +:+ rest.
Proof.
  intros Hroom Hnull Hin.
  destruct (initialize_table NUM NULL Hroom Hnull) as (tbl & Hrun & Hlook).
  assert (In (expand e) (map expand manifest)) as Hin' by (apply in_map; exact Hin).
  assert (1 <= entry_value e <= 0x51E) as Hrange.
  { rewrite <- expand_opcode. apply manifest_opcode_range, in_map. exact Hin'. }
  assert (lookup NUM tbl (entry_value e) = Some (descriptor (expand e))) as Hat.
  { rewrite Hlook.
    destruct (N.eqb_spec (entry_value e) NULL); [lia|].
    destruct (N.leb_spec NUM (entry_value e)); [lia|].
    cbn [orb]. rewrite <- expand_opcode.
    rewrite (find_unique _ _ manifest_opcodes_distinct Hin'). reflexivity. }
  exists tbl. eexists. split; [exact Hrun|].
  unfold GetOpcodeNameForLogging, GetOpcodeNameForLoggingImpl.
  rewrite uint16_Opcodes by (unfold is_Opcodes; lia).
  rewrite Hat.
  destruct (N.ltb_spec (entry_value e) NUM); [|lia].
  assert (Name (descriptor (expand e)) = entry_name e) as -> by (destruct e; reflexivity).
  rewrite !string_app_assoc. reflexivity.
Qed.

(** ** The line printed identifies the opcode *)

Lemma list_ascii_app (a b : string) :
  list_ascii_of_string (a +:+ b)
  = (list_ascii_of_string a ++ list_ascii_of_string b)%list.
Proof.
  induction a as [|x a IH]; [reflexivity|].
  change (x :: list_ascii_of_string (a +:+ b)
          = x :: (list_ascii_of_string a ++ list_ascii_of_string b)%list).
  rewrite IH. reflexivity.
Qed.

Lemma string_forallb_list (p : ascii -> bool) (s : string) :
  string_forallb p s = forallb p (list_ascii_of_string s).
Proof. induction s as [|x s IH]; cbn; [reflexivity|]. rewrite IH. reflexivity. Qed.

(** Two lists that start with a run of characters of one class, closed by a
    character outside the class, have the same run when they are equal. *)
Lemma leading_run_unique {A : Type} (p : A -> bool)
    (l1 l2 r1 r2 : list A) (c1 c2 : A) :
  forallb p l1 = true -> forallb p l2 = true ->
  p c1 = false -> p c2 = false ->
  (l1 ++ c1 :: r1 = l2 ++ c2 :: r2)%list -> l1 = l2.
Proof.
  revert l2. induction l1 as [|x l1 IH]; intros [|y l2] H1 H2 Hc1 Hc2 Heq;
    cbn in *.
  - reflexivity.
  - inversion Heq; subst. apply andb_true_iff in H2 as [H2 _]. congruence.
  - inversion Heq; subst. apply andb_true_iff in H1 as [H1 _]. congruence.
  - inversion Heq; subst.
    apply andb_true_iff in H1 as [_ H1]. apply andb_true_iff in H2 as [_ H2].
    f_equal. eapply IH; eassumption.
Qed.

Lemma forallb_rev {A : Type} (p : A -> bool) (l : list A) :
  forallb p l = true -> forallb p (rev l) = true.
Proof.
  rewrite !forallb_forall. intros Hall x Hx. apply Hall. apply in_rev. exact Hx.
Qed.

(** The decimal field closes the line: the line is a prefix, then an opening
    parenthesis, the decimal numeral of the id and the closing characters. *)
Lemma log_line_decimal (NUM : N) (tbl : InternalTable) (id : N) :
  is_Opcodes id ->
  exists front,
    list_ascii_of_string (GetOpcodeNameForLogging NUM tbl id)
    = (front ++ "("%char :: list_ascii_of_string (put_uint16 10 false id)
         ++ [")"%char; "]"%char])%list.
Proof.
  intros Hty. unfold GetOpcodeNameForLogging, GetOpcodeNameForLoggingImpl.
  rewrite (uint16_Opcodes _ Hty).
  match goal with
  | |- context [ (((?pre +:+ " (") +:+ _) +:+ ")]") ] =>
      exists (list_ascii_of_string pre ++ [" "%char])%list
  end.
  rewrite !list_ascii_app. cbn [list_ascii_of_string].
  rewrite <- !app_assoc. reflexivity.
Qed.

(** X8. The line printed for an opcode identifies it: two 16-bit opcodes that
    give the same line are the same opcode, whatever the tables and the names
    registered in them. *)
Theorem log_line_identifies_opcode
    (NUM NUM' : N) (tbl tbl' : InternalTable) (id id' : N) :
  is_Opcodes id -> is_Opcodes id' ->
  GetOpcodeNameForLogging NUM tbl id = GetOpcodeNameForLogging NUM' tbl' id' ->
  id = id'.
Proof.
  intros Hty Hty' Hsame.
  destruct (log_line_decimal NUM tbl id Hty) as (front & Hline).
  destruct (log_line_decimal NUM' tbl' id' Hty') as (front' & Hline').
  rewrite Hsame, Hline' in Hline. clear Hsame Hline'.
  destruct (dec_field id Hty) as (Hcan & Hread).
  destruct (dec_field id' Hty') as (Hcan' & Hread').
  unfold canonical_decimal in Hcan, Hcan'.
  apply andb_true_iff in Hcan as [Hdigits _].
  apply andb_true_iff in Hcan' as [Hdigits' _].
  rewrite string_forallb_list in Hdigits, Hdigits'.
  apply (f_equal (@rev ascii)) in Hline.
  rewrite !rev_app_distr in Hline. cbn [rev app] in Hline.
  rewrite !rev_app_distr in Hline. cbn [rev app] in Hline.
  inversion Hline as [Hrest]. clear Hline.
  rewrite <- !app_assoc in Hrest. cbn [app] in Hrest.
  apply (leading_run_unique is_dec_digit) in Hrest;
    [|apply forallb_rev; assumption..|reflexivity|reflexivity].
  apply (f_equal (@rev ascii)) in Hrest. rewrite !rev_involutive in Hrest.
  apply (f_equal string_of_list_ascii) in Hrest.
  rewrite !string_of_list_ascii_of_string in Hrest.
  rewrite <- Hrest, Hread' in Hread. inversion Hread. reflexivity.
Qed.

(** * The handler objects *)

Section Store_facts.

Variable NUM_OPCODE_HANDLERS : N.
Variable NULL_OPCODE : N.

Local Abbreviation owns := (owns_from NUM_OPCODE_HANDLERS 0).

Lemma Store_new_owns : owns (Store_new NUM_OPCODE_HANDLERS).
Proof.
  unfold owns_from, Store_new. cbn. split; [apply length_replicate|].
  split; [|split].
  - intros i p _ Hslot. apply lookup_replicate in Hslot as [Hslot _]. discriminate.
  - intros i j p _ _ Hslot. apply lookup_replicate in Hslot as [Hslot _]. discriminate.
  - intros p [h Hp]. rewrite lookup_empty in Hp. discriminate.
Qed.

Lemma contents_lookup (st : Store) (i : nat) :
  contents st !! i
  = match slots st !! i with
    | Some (Some p) => Some (objects st !! p)
    | Some None => Some None
    | None => None
    end.
Proof.
  unfold contents.
  change (map ?f ?l) with (f <$> l). rewrite list_lookup_fmap.
  destruct (slots st !! i) as [[p|]|]; reflexivity.
Qed.

Lemma fresh_not_live (st : Store) : objects st !! fresh (dom (objects st)) = None.
Proof. apply not_elem_of_dom. apply is_fresh. Qed.

(** Installing at a free slot keeps the correspondence and shows as an
    update of that slot in the contents. *)
Lemma install_owns (st : Store) (k : nat) (h : ClientOpcodeHandler) :
  owns st -> slots st !! k = Some None ->
  owns (install st k h)
  /\ contents (install st k h) = <[k := Some h]> (contents st).
Proof.
  intros (Hlen & Hlive & Hinj & Hall) Hfree.
  pose proof (fresh_not_live st) as Hfresh.
  set (p := fresh (dom (objects st))) in *.
  assert (k < length (slots st))%nat as Hk by (eapply lookup_lt_Some; eassumption).
  split.
  - unfold owns_from, install. cbn [slots objects]. fold p.
    split; [rewrite length_insert; exact Hlen|]. split; [|split].
    + intros i q _ Hslot.
      destruct (decide (i = k)) as [->|Hne].
      * rewrite list_lookup_insert_eq in Hslot by exact Hk.
        inversion Hslot; subst q. rewrite lookup_insert_eq. eauto.
      * rewrite list_lookup_insert_ne in Hslot by congruence.
        destruct (Hlive i q ltac:(lia) Hslot) as [x Hx].
        destruct (decide (q = p)) as [->|Hqp]; [congruence|].
        rewrite lookup_insert_ne by congruence. eauto.
    + intros i j q _ _ Hi Hj.
      destruct (decide (i = k)) as [->|Hik]; destruct (decide (j = k)) as [->|Hjk];
        [reflexivity| | |].
      * rewrite list_lookup_insert_eq in Hi by exact Hk. inversion Hi; subst q.
        rewrite list_lookup_insert_ne in Hj by congruence.
        destruct (Hlive j p ltac:(lia) Hj) as [x Hx]. congruence.
      * rewrite list_lookup_insert_eq in Hj by exact Hk. inversion Hj; subst q.
        rewrite list_lookup_insert_ne in Hi by congruence.
        destruct (Hlive i p ltac:(lia) Hi) as [x Hx]. congruence.
      * rewrite list_lookup_insert_ne in Hi, Hj by congruence.
        eapply Hinj; try eassumption; lia.
    + intros q [x Hq].
      destruct (decide (q = p)) as [->|Hqp].
      * exists k. split; [lia|]. apply list_lookup_insert_eq. exact Hk.
      * rewrite lookup_insert_ne in Hq by congruence.
        destruct (Hall q (ex_intro _ x Hq)) as (i & _ & Hi).
        exists i. split; [lia|].
        rewrite list_lookup_insert_ne; [exact Hi|]. congruence.
  - apply list_eq. intros i. rewrite contents_lookup.
    unfold install. cbn [slots objects]. fold p.
    destruct (decide (i = k)) as [->|Hne].
    + rewrite !list_lookup_insert_eq; [|unfold contents; rewrite length_map; exact Hk|exact Hk].
      rewrite lookup_insert_eq. reflexivity.
    + rewrite !list_lookup_insert_ne by congruence. rewrite contents_lookup.
      destruct (slots st !! i) as [[q|]|] eqn:Hslot; [|reflexivity..].
      destruct (Hlive i q ltac:(lia) Hslot) as [x Hx].
      rewrite lookup_insert_ne by congruence. reflexivity.
Qed.

(** A call on the store does what the call on the contents does: the same
    lines, the same handlers; and it keeps the correspondence. *)
Lemma perform_store_refines (r : Registration) (st : Store) :
  owns st ->
  match perform_store NUM_OPCODE_HANDLERS NULL_OPCODE r st with
  | Some (st', lines) =>
      owns st'
      /\ perform NUM_OPCODE_HANDLERS NULL_OPCODE r (contents st)
         = Some (contents st', lines)
  | None => perform NUM_OPCODE_HANDLERS NULL_OPCODE r (contents st) = None
  end.
Proof.
  intros Hown. pose proof Hown as (Hlen & Hlive & _ & _).
  destruct r as [hf opcode name status processing | opcode name status];
    cbn [perform perform_store];
    unfold ValidateAndSetClientOpcode_store, ValidateAndSetServerOpcode_store,
      ValidateAndSetClientOpcode, ValidateAndSetServerOpcode;
    (destruct (uint32 opcode =? NULL_OPCODE); [split; [exact Hown|reflexivity]|]);
    (destruct (NUM_OPCODE_HANDLERS <=? uint32 opcode);
       [split; [exact Hown|reflexivity]|]);
    unfold lookup, pointer_at; rewrite contents_lookup;
    destruct (slots st !! N.to_nat opcode) as [[p|]|] eqn:Hslot;
    try reflexivity;
    try (match goal with
         | |- owns_from _ _ (install _ ?k ?h) /\ _ =>
             destruct (install_owns st k h Hown Hslot) as [Ho Hc];
             split; [exact Ho|rewrite Hc; reflexivity]
         end);
    destruct (Hlive _ p ltac:(lia) Hslot) as [existing Hp]; rewrite Hp;
    (destruct (opcode <? NUM_OPCODE_HANDLERS); [|reflexivity]);
    rewrite Hp; (split; [exact Hown|reflexivity]).
Qed.

Lemma run_store_refines (calls : list Registration) (st : Store) :
  owns st ->
  match run_store NUM_OPCODE_HANDLERS NULL_OPCODE calls st with
  | Some (st', lines) =>
      owns st'
      /\ run NUM_OPCODE_HANDLERS NULL_OPCODE calls (contents st)
         = Some (contents st', lines)
  | None => run NUM_OPCODE_HANDLERS NULL_OPCODE calls (contents st) = None
  end.
Proof.
  revert st. induction calls as [|r rest IH]; intros st Hown; cbn [run run_store].
  - split; [exact Hown|reflexivity].
  - pose proof (perform_store_refines r st Hown) as Hstep.
    destruct (perform_store _ _ r st) as [[st1 lines1]|].
    + destruct Hstep as (Hown1 & ->).
      specialize (IH st1 Hown1).
      destruct (run_store _ _ rest st1) as [[st2 lines2]|].
      * destruct IH as (Hown2 & ->). split; [exact Hown2|reflexivity].
      * rewrite IH. reflexivity.
    + rewrite Hstep. reflexivity.
Qed.

Lemma contents_new :
  contents (Store_new NUM_OPCODE_HANDLERS) = OpcodeTable_new NUM_OPCODE_HANDLERS.
Proof.
  unfold contents, Store_new, OpcodeTable_new. cbn [slots].
  induction (N.to_nat NUM_OPCODE_HANDLERS) as [|n IH]; [reflexivity|].
  cbn. f_equal. exact IH.
Qed.

(** X9. The table of pointers and the table of handlers agree: well-typed
    calls on the fresh store run without undefined behaviour, log what the
    calls on the handlers log, and leave in every slot a pointer to a live
    object that is the handler [lookup] returns; every live object is pointed
    to by exactly one slot. *)
Theorem registration_on_the_heap (calls : list Registration) :
  well_typed calls ->
  exists st lines,
    run_store NUM_OPCODE_HANDLERS NULL_OPCODE calls (Store_new NUM_OPCODE_HANDLERS)
    = Some (st, lines)
    /\ run NUM_OPCODE_HANDLERS NULL_OPCODE calls (OpcodeTable_new NUM_OPCODE_HANDLERS)
       = Some (contents st, lines)
    /\ (forall id p,
          pointer_at NUM_OPCODE_HANDLERS st id = Some p ->
          is_Some (objects st !! p)
          /\ objects st !! p = lookup NUM_OPCODE_HANDLERS (contents st) id)
    /\ (forall p, is_Some (objects st !! p) ->
          exists i, slots st !! i = Some (Some p)
                    /\ forall j, slots st !! j = Some (Some p) -> j = i).
Proof.
  intros Hty.
  pose proof (run_store_refines calls _ Store_new_owns) as Href.
  rewrite contents_new in Href.
  destruct (run_total NUM_OPCODE_HANDLERS NULL_OPCODE calls _
              (new_table_wf NUM_OPCODE_HANDLERS) Hty) as (tbl & lines & Hrun & _).
  destruct (run_store _ _ calls _) as [[st lines']|]; [|congruence].
  destruct Href as ((Hlen & Hlive & Hinj & Hall) & Href).
  exists st, lines'. split; [reflexivity|]. split; [exact Href|]. split.
  - intros id p Hp. unfold pointer_at in Hp. unfold lookup.
    destruct (id <? NUM_OPCODE_HANDLERS); [|discriminate].
    rewrite contents_lookup.
    destruct (slots st !! N.to_nat id) as [[q|]|] eqn:Hslot; try discriminate.
    inversion Hp; subst q.
    destruct (Hlive _ p ltac:(lia) Hslot) as [h Hh].
    rewrite Hh. eauto.
  - intros p Hp. destruct (Hall p Hp) as (i & _ & Hi).
    exists i. split; [exact Hi|]. intros j Hj.
    eapply Hinj; try eassumption; lia.
Qed.

(** The loop of the destructor from a counter inside the table. *)
Lemma destructor_loop_frees (fuel : nat) (i : nat) (st : Store) :
  NUM_OPCODE_HANDLERS < 2 ^ 16 ->
  owns_from NUM_OPCODE_HANDLERS i st ->
  (i <= N.to_nat NUM_OPCODE_HANDLERS)%nat ->
  (N.to_nat NUM_OPCODE_HANDLERS - i < fuel)%nat ->
  exists st',
    destructor_loop NUM_OPCODE_HANDLERS fuel (N.of_nat i) st = Finished st'
    /\ objects st' = ∅ /\ slots st' = slots st.
Proof.
  intros Hsmall. revert i st.
  induction fuel as [|fuel IH]; intros i st Hown Hi Hfuel; [lia|].
  pose proof Hown as (Hlen & Hlive & Hinj & Hall).
  cbn [destructor_loop].
  destruct (N.ltb_spec (N.of_nat i) NUM_OPCODE_HANDLERS) as [Hlt|Hge].
  - assert (uint16 (N.of_nat i + 1) = N.of_nat (S i)) as Hnext.
    { unfold uint16. rewrite N.mod_small; lia. }
    rewrite Hnext, Nat2N.id.
    destruct (slots st !! i) as [[p|]|] eqn:Hslot.
    + destruct (Hlive i p (Nat.le_refl i) Hslot) as [h Hh]. rewrite Hh.
      destruct (IH (S i) {| slots := slots st; objects := delete p (objects st) |})
        as (st' & Hloop & Hempty & Hslots); [|lia|lia|].
      * unfold owns_from. cbn [slots objects].
        split; [exact Hlen|]. split; [|split].
        -- intros j q Hj Hq.
           assert (q <> p) as Hne.
           { intros ->. assert (j = i) by (eapply Hinj; try eassumption; lia). lia. }
           rewrite lookup_delete_ne by congruence.
           eapply Hlive; [|exact Hq]. lia.
        -- intros j k q Hj Hk Hq Hq'. eapply Hinj; try eassumption; lia.
        -- intros q [x Hq].
           destruct (decide (q = p)) as [->|Hne];
             [rewrite lookup_delete_eq in Hq; discriminate|].
           rewrite lookup_delete_ne in Hq by congruence.
           destruct (Hall q (ex_intro _ x Hq)) as (j & Hj & Hjq).
           exists j. split; [|exact Hjq].
           destruct (decide (j = i)) as [->|]; [congruence|lia].
      * exists st'. auto.
    + destruct (IH (S i) st) as (st' & Hloop & Hempty & Hslots); [|lia|lia|eauto].
      unfold owns_from. split; [exact Hlen|]. split; [|split].
      * intros j q Hj Hq. eapply Hlive; [|exact Hq]. lia.
      * intros j k q Hj Hk Hq Hq'. eapply Hinj; try eassumption; lia.
      * intros q Hq. destruct (Hall q Hq) as (j & Hj & Hjq).
        exists j. split; [|exact Hjq].
        destruct (decide (j = i)) as [->|]; [congruence|lia].
    + apply lookup_ge_None in Hslot. lia.
  - exists st. split; [reflexivity|]. split; [|reflexivity].
    apply map_empty. intros p.
    destruct (objects st !! p) as [h|] eqn:Hp; [|reflexivity].
    destruct (Hall p (ex_intro _ h Hp)) as (j & Hj & Hjq).
    apply lookup_lt_Some in Hjq. lia.
Qed.

(** X10. The destructor frees every handler the registrations allocated, each
    once: after any well-typed calls on the fresh store, with fewer than 2^16
    slots, the loop terminates without undefined behaviour and no object is
    left alive. *)
Theorem destructor_frees_every_handler (calls : list Registration) (fuel : nat) :
  NUM_OPCODE_HANDLERS < 2 ^ 16 -> well_typed calls ->
  (N.to_nat NUM_OPCODE_HANDLERS < fuel)%nat ->
  exists st lines st',
    run_store NUM_OPCODE_HANDLERS NULL_OPCODE calls (Store_new NUM_OPCODE_HANDLERS)
    = Some (st, lines)
    /\ destructor NUM_OPCODE_HANDLERS fuel st = Finished st'
    /\ objects st' = ∅
    /\ slots st' = slots st.
Proof.
  intros Hsmall Hty Hfuel.
  pose proof (run_store_refines calls _ Store_new_owns) as Href.
  rewrite contents_new in Href.
  destruct (run_total NUM_OPCODE_HANDLERS NULL_OPCODE calls _
              (new_table_wf NUM_OPCODE_HANDLERS) Hty) as (tbl & lines & Hrun & _).
  destruct (run_store _ _ calls _) as [[st lines']|]; [|congruence].
  destruct Href as (Hown & _).
  destruct (destructor_loop_frees fuel 0 st Hsmall Hown) as (st' & Hloop & Hempty & Hslots);
    [lia|lia|].
  exists st, lines', st'. auto.
Qed.

(** X11. The counter of the destructor has 16 bits: on a table of 2^16 slots
    or more the loop never returns, whatever the fuel. *)
Theorem destructor_counter_wraps (fuel : nat) (i : N) (st : Store) :
  2 ^ 16 <= NUM_OPCODE_HANDLERS -> i < 2 ^ 16 ->
  destructor_loop NUM_OPCODE_HANDLERS fuel i st = Undefined
  \/ destructor_loop NUM_OPCODE_HANDLERS fuel i st = OutOfFuel.
Proof.
  intros Hbig. revert i st.
  induction fuel as [|fuel IH]; intros i st Hi; cbn [destructor_loop]; [auto|].
  destruct (N.ltb_spec i NUM_OPCODE_HANDLERS); [|lia].
  destruct (slots st !! N.to_nat i) as [[p|]|]; [|apply IH, uint16_range|auto].
  destruct (objects st !! p); [apply IH, uint16_range|auto].
Qed.

End Store_facts.

(** ** Instances of the further properties *)

Lemma registration_accounting_witness :
  let calls := [ClientOpcode "HandleCharCreateOpcode" 0x036 "CMSG_CHAR_CREATE"
                  STATUS_AUTHED PROCESS_THREADUNSAFE;
                ServerOpcode 0x036 "SMSG_CHAR_CREATE" STATUS_NEVER;
                ServerOpcode 0 "MSG_NULL_ACTION" STATUS_NEVER] in
  exists tbl' lines,
    run 0x51F 0 calls (OpcodeTable_new 0x51F) = Some (tbl', lines)
    /\ table_wf 0x51F tbl'
    /\ (occupied tbl' + length lines
        = occupied (OpcodeTable_new 0x51F) + length calls)%nat.
Proof.
  intros calls. apply (registration_accounting 0x51F 0 calls (OpcodeTable_new 0x51F)).
  - vm_compute. reflexivity.
  - apply well_typed_check. vm_compute. reflexivity.
Defined.

Lemma first_registration_wins_witness :
  let calls := [ClientOpcode "HandleCharCreateOpcode" 0x036 "CMSG_CHAR_CREATE"
                  STATUS_AUTHED PROCESS_THREADUNSAFE;
                ServerOpcode 0x036 "SMSG_CHAR_CREATE" STATUS_NEVER] in
  exists tbl' lines,
    run 0x51F 0 calls (OpcodeTable_new 0x51F) = Some (tbl', lines)
    /\ lookup 0x51F tbl' 0x036
       = match lookup 0x51F (OpcodeTable_new 0x51F) 0x036 with
         | Some h => Some h
         | None =>
             if (0x036 =? 0) || (0x51F <=? 0x036) then None
             else option_map descriptor
                    (List.find (fun r => reg_opcode r =? 0x036) calls)
         end.
Proof.
  intros calls.
  apply (first_registration_wins 0x51F 0 calls (OpcodeTable_new 0x51F) 0x036).
  - vm_compute. reflexivity.
  - apply well_typed_check. vm_compute. reflexivity.
Defined.

Lemma registration_order_irrelevant_witness :
  let a := ClientOpcode "HandleCharCreateOpcode" 0x036 "CMSG_CHAR_CREATE"
             STATUS_AUTHED PROCESS_THREADUNSAFE in
  let b := ServerOpcode 0x03A "SMSG_CHAR_CREATE" STATUS_NEVER in
  exists tbl' lines lines',
    run 0x51F 0 [a; b] (OpcodeTable_new 0x51F) = Some (tbl', lines)
    /\ run 0x51F 0 [b; a] (OpcodeTable_new 0x51F) = Some (tbl', lines').
Proof.
  intros a b.
  apply (registration_order_irrelevant 0x51F 0 [a; b] [b; a] (OpcodeTable_new 0x51F)).
  - vm_compute. reflexivity.
  - apply well_typed_check. vm_compute. reflexivity.
  - apply perm_swap.
  - cbn. constructor; [intros [H|[]]; discriminate|].
    constructor; [intros []|constructor].
Defined.

Lemma registration_idempotent_witness :
  let calls := [ClientOpcode "HandleCharCreateOpcode" 0x036 "CMSG_CHAR_CREATE"
                  STATUS_AUTHED PROCESS_THREADUNSAFE;
                ServerOpcode 0x51F "NUM_MSG_TYPES" STATUS_NEVER] in
  exists tbl' lines lines',
    run 0x51F 0 calls (OpcodeTable_new 0x51F) = Some (tbl', lines)
    /\ run 0x51F 0 calls tbl' = Some (tbl', lines')
    /\ length lines' = length calls.
Proof.
  intros calls. apply (registration_idempotent 0x51F 0 calls (OpcodeTable_new 0x51F)).
  - vm_compute. reflexivity.
  - apply well_typed_check. vm_compute. reflexivity.
Defined.

Lemma distinct_registrations_succeed_witness :
  let a := ClientOpcode "HandleCharCreateOpcode" 0x036 "CMSG_CHAR_CREATE"
             STATUS_AUTHED PROCESS_THREADUNSAFE in
  let b := ServerOpcode 0x03A "SMSG_CHAR_CREATE" STATUS_NEVER in
  exists tbl',
    run 0x51F 0 [a; b] (OpcodeTable_new 0x51F) = Some (tbl', [])
    /\ forall r, In r [a; b] -> lookup 0x51F tbl' (reg_opcode r) = Some (descriptor r).
Proof.
  intros a b.
  apply (distinct_registrations_succeed 0x51F 0 [a; b] (OpcodeTable_new 0x51F)).
  - vm_compute. reflexivity.
  - apply well_typed_check. vm_compute. reflexivity.
  - cbn. constructor; [intros [H|[]]; discriminate|].
    constructor; [intros []|constructor].
  - intros r [<-|[<-|[]]]; vm_compute; (split; [discriminate|]); split; reflexivity.
Defined.

Lemma initialize_installs_manifest_witness :
  exists tbl,
    Initialize 0x51F 0 (OpcodeTable_new 0x51F) = Some (tbl, [])
    /\ (forall e, In e manifest ->
          lookup 0x51F tbl (entry_value e) = Some (descriptor (expand e)))
    /\ (forall id, lookup 0x51F tbl id = None <-> id = 0 \/ 0x51E < id)
    /\ occupied tbl = 1310%nat.
Proof.
  apply (initialize_installs_manifest 0x51F 0).
  - reflexivity.
  - left. reflexivity.
Defined.

Lemma initialize_names_for_log_witness :
  exists tbl rest,
    Initialize 0x51F 0 (OpcodeTable_new 0x51F) = Some (tbl, [])
    /\ GetOpcodeNameForLogging 0x51F tbl 0x036
       = "[" +:+ "CMSG_CHAR_CREATE" +:+ " 0x" +:+ rest.
Proof.
  apply (initialize_names_for_log 0x51F 0
           (DEFINE_HANDLER 0x036 "CMSG_CHAR_CREATE" STATUS_AUTHED PROCESS_THREADUNSAFE
              "HandleCharCreateOpcode")).
  - reflexivity.
  - left. reflexivity.
  - apply (nth_error_In manifest 53). vm_compute. reflexivity.
Defined.

Lemma log_line_identifies_opcode_witness :
  let h := PacketHandler "CMSG_CHAR_CREATE" STATUS_AUTHED PROCESS_THREADUNSAFE
             "HandleCharCreateOpcode" in
  let tbl := <[N.to_nat 0x036 := Some h]> (OpcodeTable_new 0x51F) in
  let tbl' := <[N.to_nat 0x036 := Some h]> (OpcodeTable_new 0x600) in
  GetOpcodeNameForLogging 0x51F tbl 0x036 = GetOpcodeNameForLogging 0x600 tbl' 0x036
  /\ 0x036 = 0x036.
Proof.
  intros h tbl tbl'.
  assert (GetOpcodeNameForLogging 0x51F tbl 0x036
          = GetOpcodeNameForLogging 0x600 tbl' 0x036) as Hsame
    by (vm_compute; reflexivity).
  split; [exact Hsame|].
  apply (log_line_identifies_opcode 0x51F 0x600 tbl tbl' 0x036 0x036).
  - vm_compute. reflexivity.
  - vm_compute. reflexivity.
  - exact Hsame.
Defined.

Lemma registration_on_the_heap_witness :
  let calls := [ClientOpcode "HandleCharCreateOpcode" 0x036 "CMSG_CHAR_CREATE"
                  STATUS_AUTHED PROCESS_THREADUNSAFE;
                ServerOpcode 0x036 "SMSG_CHAR_CREATE" STATUS_NEVER] in
  exists st lines,
    run_store 0x51F 0 calls (Store_new 0x51F) = Some (st, lines)
    /\ run 0x51F 0 calls (OpcodeTable_new 0x51F) = Some (contents st, lines)
    /\ (forall id p,
          pointer_at 0x51F st id = Some p ->
          is_Some (objects st !! p)
          /\ objects st !! p = lookup 0x51F (contents st) id)
    /\ (forall p, is_Some (objects st !! p) ->
          exists i, slots st !! i = Some (Some p)
                    /\ forall j, slots st !! j = Some (Some p) -> j = i).
Proof.
  intros calls. apply (registration_on_the_heap 0x51F 0 calls).
  apply well_typed_check. vm_compute. reflexivity.
Defined.

Lemma destructor_frees_every_handler_witness :
  let calls := [ClientOpcode "HandleCharCreateOpcode" 0x036 "CMSG_CHAR_CREATE"
                  STATUS_AUTHED PROCESS_THREADUNSAFE;
                ServerOpcode 0x03A "SMSG_CHAR_CREATE" STATUS_NEVER] in
  exists st lines st',
    run_store 0x51F 0 calls (Store_new 0x51F) = Some (st, lines)
    /\ destructor 0x51F 1312 st = Finished st'
    /\ objects st' = ∅
    /\ slots st' = slots st.
Proof.
  intros calls. apply (destructor_frees_every_handler 0x51F 0 calls 1312).
  - reflexivity.
  - apply well_typed_check. vm_compute. reflexivity.
  - vm_compute. lia.
Defined.

Lemma destructor_counter_wraps_witness :
  destructor_loop 0x10000 3 0 (Store_new 0x10000) = Undefined
  \/ destructor_loop 0x10000 3 0 (Store_new 0x10000) = OutOfFuel.
Proof.
  apply (destructor_counter_wraps 0x10000 3 0 (Store_new 0x10000)).
  - vm_compute. discriminate.
  - reflexivity.
Defined.
